(** * The commerce agent: tools, pipeline and trace schema

    A shallow embedding of [src/tools.py], [src/graph.py] and
    [src/schema_validator.py], followed by the properties of the
    specification that are settled on it.

    Conventions.
    - A Python [str] is a list of Unicode code points ([N]).  The
      character tables used by the code ([str.lower], [str.isdigit],
      and the classes [\w], [\d], [\s] of [re]) are tabulated exactly
      for U+0000..U+00FF and for the General Punctuation block
      U+2000..U+206F (where the dash, quote and bullet of the prompts
      and replies live); whitespace is tabulated for all of Unicode.
      Letters and digits of other blocks are outside the model and are
      read as caseless symbols, but for the four characters that
      [[A-Z]] matches under [re.IGNORECASE].
    - The library functions the code calls are modelled as CPython
      3.11 has them: [int] with its limit of 4300 digits,
      [datetime.fromisoformat] over the UTF-8 bytes of the string, the
      divisions and [round] of [order_cancel] in binary64.
    - A Python exception is the [Raise] constructor of [result].
    - A dict with a fixed set of keys is a record; a dict whose keys the
      code inspects dynamically is an association list of JSON values. *)

From Stdlib Require Import List ZArith NArith Lia Bool String Ascii.
From Stdlib Require Import Sorting.Sorted Sorting.Permutation.
From Stdlib Require Import DecimalString.
Import ListNotations.

Set Warnings "-register-all".

Local Open Scope bool_scope.

(* ================================================================== *)
(** * Python strings *)
(* ================================================================== *)

Definition char := N.
Bind Scope N_scope with char.
Definition str := list char.

(** A literal of the source, code point by code point (the literals of
    the source that are written this way are ASCII). *)
Definition lit (s : string) : str :=
  List.map N_of_ascii (list_ascii_of_string s).

Definition char_eqb (a b : char) : bool := N.eqb a b.

Fixpoint str_eqb (a b : str) : bool :=
  match a, b with
  | [], [] => true
  | x :: a', y :: b' => char_eqb x y && str_eqb a' b'
  | _, _ => false
  end.

(** [s.startswith(p)] *)
Fixpoint startswith (p s : str) : bool :=
  match p, s with
  | [], _ => true
  | x :: p', y :: s' => char_eqb x y && startswith p' s'
  | _ :: _, [] => false
  end.

(** [needle in hay] on strings *)
Fixpoint contains (hay needle : str) : bool :=
  startswith needle hay ||
  match hay with
  | [] => false
  | _ :: t => contains t needle
  end.

(** [x in xs] on a list of strings *)
Definition str_in (x : str) (xs : list str) : bool :=
  existsb (str_eqb x) xs.

Definition in_range (lo hi c : N) : bool := N.leb lo c && N.leb c hi.

(** [str.lower] on one code point: A-Z, and the capital letters of
    Latin-1 (U+00C0..U+00DE without the multiplication sign U+00D7). *)
Definition lower_char (c : char) : char :=
  if in_range 65 90 c || (in_range 192 222 c && negb (N.eqb c 215))
  then (c + 32)%N else c.

Definition lower (s : str) : str := List.map lower_char s.

(** [str.isdigit]: the decimal digits and the superscripts one, two,
    three (U+00B9, U+00B2, U+00B3), which have Numeric_Type=Digit. *)
Definition isdigit (c : char) : bool :=
  in_range 48 57 c || N.eqb c 178 || N.eqb c 179 || N.eqb c 185.

(** [\d] of [re], also what [int] accepts as a digit: General_Category Nd. *)
Definition isdecimal (c : char) : bool := in_range 48 57 c.

(** [\s] of [re] ([str.isspace]) *)
Definition isspace (c : char) : bool :=
  in_range 9 13 c || in_range 28 32 c || N.eqb c 133 || N.eqb c 160 ||
  N.eqb c 5760 || in_range 8192 8202 c || N.eqb c 8232 || N.eqb c 8233 ||
  N.eqb c 8239 || N.eqb c 8287 || N.eqb c 12288.

(** [\w] of [re]: [str.isalnum] or the underscore. *)
Definition isword (c : char) : bool :=
  in_range 48 57 c || in_range 65 90 c || N.eqb c 95 || in_range 97 122 c ||
  N.eqb c 170 || N.eqb c 178 || N.eqb c 179 || N.eqb c 181 || N.eqb c 185 ||
  N.eqb c 186 || in_range 188 190 c || in_range 192 214 c ||
  in_range 216 246 c || in_range 248 255 c.

(** [[A-Z]] under [re.IGNORECASE]: the letters in both cases and the
    four characters that fold to one of them, the dotted capital and
    the dotless small i (U+0130, U+0131), the long s (U+017F) and the
    Kelvin sign (U+212A). *)
Definition isletter_AZ_icase (c : char) : bool :=
  in_range 65 90 c || in_range 97 122 c ||
  N.eqb c 304 || N.eqb c 305 || N.eqb c 383 || N.eqb c 8490.

(** [.] of [re] without DOTALL *)
Definition notnewline (c : char) : bool := negb (N.eqb c 10).

(** The text of an integer, as [str(n)] and f-strings print it. *)
Definition str_of_Z (z : Z) : str :=
  lit (NilZero.string_of_int (Z.to_int z)).

(** Python exceptions the modelled code can raise. *)
Inductive exn := ValueError | KeyError | IndexError | ValidationError.

Inductive result (A : Type) :=
| Ok (a : A)
| Raise (e : exn).
Arguments Ok {A} a.
Arguments Raise {A} e.

Definition bind {A B} (m : result A) (f : A -> result B) : result B :=
  match m with
  | Ok a => f a
  | Raise e => Raise e
  end.

Notation "x <- m ;; k" := (bind m (fun x => k))
  (at level 61, m at next level, right associativity).

Definition digit_value (c : char) : Z := Z.of_N (c - 48).

(** [sys.int_max_str_digits] at its default: [int] refuses a decimal
    string of more digits, leading zeros counted. *)
Definition int_max_str_digits : nat := 4300.

(** [int(s)] for a string without sign, blanks or underscores, which
    is all the code ever passes: the value of a non-empty run of at
    most [int_max_str_digits] decimal digits, [ValueError] otherwise. *)
Definition int_of_str (s : str) : result Z :=
  match s with
  | [] => Raise ValueError
  | _ => if forallb isdecimal s &&
            (List.length s <=? int_max_str_digits)%nat
         then Ok (fold_left (fun acc c => 10 * acc + digit_value c)%Z s 0%Z)
         else Raise ValueError
  end.

(** [s[:n]] *)
Definition slice_to (n : nat) (s : str) : str := firstn n s.

(** [s.ljust(n, c)] *)
Definition ljust (n : nat) (c : char) (s : str) : str :=
  s ++ repeat c (n - List.length s).

(** [sep.join(xs)] *)
Fixpoint join (sep : str) (xs : list str) : str :=
  match xs with
  | [] => []
  | [x] => x
  | x :: rest => x ++ sep ++ join sep rest
  end.

(** [s.replace(old, new)] for a one-character [old]. *)
Definition replace_char (old : char) (new : str) (s : str) : str :=
  flat_map (fun c => if char_eqb c old then new else [c]) s.

(* ================================================================== *)
(** * Regular expressions: the fragment of [re] the code uses *)
(* ================================================================== *)

(** Backtracking search as [re.search] does it: leftmost start, greedy
    repetitions tried longest first, lazy ones shortest first.  The
    repetitions of the four patterns all range over one character
    class. *)
Inductive regex :=
| Eps
| Chr (p : char -> bool)        (* one character of a class *)
| Cat (r1 r2 : regex)
| Plus (p : char -> bool)       (* [c+], greedy *)
| LazyStar (p : char -> bool)   (* [c*?] *)
| Group (r : regex)             (* the one capture group *)
| Boundary.                     (* [\b] *)

Record rmatch := { group0 : str; group1 : option str }.

Section Exec.
Context {A : Type}.

(** zero or more characters of [p], as many as possible first *)
Fixpoint many_greedy (p : char -> bool) (prev : option char) (s : str)
         (k : option char -> str -> option A) : option A :=
  match s with
  | c :: s' =>
      if p c then
        match many_greedy p (Some c) s' k with
        | Some r => Some r
        | None => k prev s
        end
      else k prev s
  | [] => k prev s
  end.

(** zero or more characters of [p], as few as possible first *)
Fixpoint many_lazy (p : char -> bool) (prev : option char) (s : str)
         (k : option char -> str -> option A) : option A :=
  match k prev s with
  | Some r => Some r
  | None =>
      match s with
      | c :: s' => if p c then many_lazy p (Some c) s' k else None
      | [] => None
      end
  end.

Definition word_at (c : option char) : bool :=
  match c with Some x => isword x | None => false end.

(** [exec r prev s g k]: match [r] at the head of [s], [prev] being
    the character just before, [g] the capture so far; [k] continues
    with what is left. *)
Fixpoint exec (r : regex) (prev : option char) (s : str) (g : option str)
         (k : option char -> str -> option str -> option A) : option A :=
  match r with
  | Eps => k prev s g
  | Chr p =>
      match s with
      | c :: s' => if p c then k (Some c) s' g else None
      | [] => None
      end
  | Cat r1 r2 =>
      exec r1 prev s g (fun prev' s' g' => exec r2 prev' s' g' k)
  | Plus p =>
      match s with
      | c :: s' =>
          if p c
          then many_greedy p (Some c) s' (fun prev' s'' => k prev' s'' g)
          else None
      | [] => None
      end
  | LazyStar p => many_lazy p prev s (fun prev' s' => k prev' s' g)
  | Group r1 =>
      exec r1 prev s g
           (fun prev' s' _ =>
              k prev' s' (Some (firstn (List.length s - List.length s') s)))
  | Boundary =>
      if xorb (word_at prev) (word_at (hd_error s)) then k prev s g else None
  end.
End Exec.

Definition match_here (r : regex) (prev : option char) (s : str)
  : option rmatch :=
  exec r prev s None
       (fun _ rest g =>
          Some {| group0 := firstn (List.length s - List.length rest) s;
                  group1 := g |}).

Fixpoint search_from (r : regex) (prev : option char) (s : str)
  : option rmatch :=
  match match_here r prev s with
  | Some m => Some m
  | None =>
      match s with
      | c :: s' => search_from r (Some c) s'
      | [] => None
      end
  end.

(** [re.search(r, s)] *)
Definition search (r : regex) (s : str) : option rmatch := search_from r None s.

(** A literal, and a literal under [re.IGNORECASE] (given in lower case). *)
Fixpoint Lit (s : str) : regex :=
  match s with
  | [] => Eps
  | c :: s' => Cat (Chr (char_eqb c)) (Lit s')
  end.

Fixpoint LitI (s : str) : regex :=
  match s with
  | [] => Eps
  | c :: s' => Cat (Chr (fun x => char_eqb (lower_char x) c)) (LitI s')
  end.

Fixpoint Times (n : nat) (p : char -> bool) : regex :=
  match n with
  | O => Eps
  | S n' => Cat (Chr p) (Times n' p)
  end.

(** [r'under.*?(\d+)'] *)
Definition re_price : regex :=
  Cat (Lit (lit "under")) (Cat (LazyStar notnewline) (Group (Plus isdecimal))).

(** [r'order\s+([A-Z]\d+)'] with [re.IGNORECASE] *)
Definition re_order : regex :=
  Cat (LitI (lit "order"))
      (Cat (Plus isspace)
           (Group (Cat (Chr isletter_AZ_icase) (Plus isdecimal)))).

(** [r'[\w\.-]+@[\w\.-]+\.\w+'] *)
Definition email_char (c : char) : bool :=
  isword c || char_eqb c 46 || char_eqb c 45.

Definition re_email : regex :=
  Cat (Plus email_char)
      (Cat (Chr (char_eqb 64))
           (Cat (Plus email_char) (Cat (Chr (char_eqb 46)) (Plus isword)))).

(** [r'\b\d{6}\b'] *)
Definition re_zip : regex :=
  Cat Boundary (Cat (Times 6 isdecimal) Boundary).

Definition em_dash : char := 8212%N.
Definition bullet : char := 8226%N.

Definition scenario_a : str :=
  lit "Wedding guest, midi, under $120 " ++ [em_dash] ++
  lit " I'm between M/L. ETA to 560001?".


(* ================================================================== *)
(** * [datetime]: ISO timestamps and their difference *)
(* ================================================================== *)

Local Open Scope Z_scope.

(** The fields of a [datetime]. *)
Record datetime := {
  year : Z; month : Z; day : Z;
  hour : Z; minute : Z; second : Z; microsecond : Z
}.

(** What [datetime.fromisoformat] returns: the fields as written and,
    when the string carries a zone, the offset of that zone from UTC in
    microseconds ([None] for a naive value). *)
Record stamp := { wall : datetime; utcoffset : option Z }.

Definition is_leap (y : Z) : bool :=
  (y mod 4 =? 0) && (negb (y mod 100 =? 0) || (y mod 400 =? 0)).

Definition days_in_month (y m : Z) : Z :=
  if m =? 2 then (if is_leap y then 29 else 28)
  else if (m =? 4) || (m =? 6) || (m =? 9) || (m =? 11) then 30
  else 31.

Definition days_before_year (y : Z) : Z :=
  let y1 := y - 1 in y1 * 365 + y1 / 4 - y1 / 100 + y1 / 400.

Definition days_before_month (y m : Z) : Z :=
  fold_left (fun acc k => acc + days_in_month y (Z.of_nat k))
            (seq 1 (Z.to_nat (m - 1))) 0.

Definition ymd_to_ord (y m d : Z) : Z :=
  days_before_year y + days_before_month y m + d.

Definition toordinal (d : datetime) : Z :=
  ymd_to_ord (year d) (month d) (day d).

(** Microseconds since the start of the proleptic calendar. *)
Definition to_microseconds (d : datetime) : Z :=
  ((toordinal d * 24 + hour d) * 60 + minute d) * 60000000
  + second d * 1000000 + microsecond d.

(** [(a - b)] as a [timedelta], in microseconds, for two values of the
    same zone. *)
Definition timedelta_us (a b : datetime) : Z :=
  to_microseconds a - to_microseconds b.

(** [ord_to_ymd]: the date of an ordinal, by cycles of 400, 100, 4 and
    1 years. *)
Definition ord_to_ymd (ordinal : Z) : Z * Z * Z :=
  let ordinal := ordinal - 1 in
  let n400 := ordinal / 146097 in
  let n := ordinal mod 146097 in
  let n100 := n / 36524 in
  let n := n mod 36524 in
  let n4 := n / 1461 in
  let n := n mod 1461 in
  let n1 := n / 365 in
  let n := n mod 365 in
  let y := n400 * 400 + 1 + n100 * 100 + n4 * 4 + n1 in
  if (n1 =? 4) || (n100 =? 4) then (y - 1, 12, 31)
  else
    let m := Z.shiftr (n + 50) 5 in
    let preceding := days_before_month y m in
    if n <? preceding
    then (y, m - 1, n - (preceding - days_in_month y (m - 1)) + 1)
    else (y, m, n - preceding + 1).

(** Monday is 0. *)
Definition weekday (y m d : Z) : Z := (ymd_to_ord y m d + 6) mod 7.

Definition iso_week1_monday (y : Z) : Z :=
  let first_day := ymd_to_ord y 1 1 in
  let first_weekday := (first_day + 6) mod 7 in
  let week1_monday := first_day - first_weekday in
  if 3 <? first_weekday then week1_monday + 7 else week1_monday.

(** [iso_to_ymd]: the date of an ISO year, week and day; week 53 only
    in the years that have one. *)
Definition iso_to_ymd (iso_year iso_week iso_day : Z) : option (Z * Z * Z) :=
  let out_of_range :=
    if (iso_week <=? 0) || (53 <=? iso_week) then
      negb ((iso_week =? 53) &&
            let first_weekday := weekday iso_year 1 1 in
            ((first_weekday =? 3) ||
             ((first_weekday =? 2) && is_leap iso_year)))
    else false in
  if out_of_range then None
  else if (iso_day <=? 0) || (8 <=? iso_day) then None
  else
    let day_1 := iso_week1_monday iso_year in
    let day_offset := (iso_week - 1) * 7 + iso_day - 1 in
    Some (ord_to_ymd (day_1 + day_offset)).

Definition obind {A B} (m : option A) (f : A -> option B) : option B :=
  match m with
  | Some a => f a
  | None => None
  end.

Notation "' p <-? m ;; k" := (obind m (fun p => k))
  (at level 61, p pattern, m at next level, right associativity).

(** ** The parser, as CPython 3.11 has it

    [datetime.fromisoformat] is a C function over the UTF-8 bytes of the
    string, which a NUL ends; positions are byte indices.  It reads a
    date ([YYYY-MM-DD], [YYYYMMDD], [YYYY-Www[-D]], [YYYYWww[D]]), then
    after any one character a time ([HH[:MM[:SS[.f+]]]], colons all or
    none, point or comma), then a zone ([Z] or a signed [HH[:MM[:SS[.f+]]]]).
    Earlier versions of Python read fewer spellings. *)

Definition is_surrogate (c : char) : bool := in_range 55296 57343 c.

(** [_sanitize_isoformat_str]: a surrogate where a separator can stand
    (position 7, 8 or 10, the first that has one) becomes "T". *)
Definition sanitize_isoformat_str (s : str) : str :=
  match find (fun pos => is_surrogate (nth pos s 0%N)) [7; 8; 10]%nat with
  | Some pos => firstn pos s ++ [84%N] ++ skipn (S pos) s
  | None => s
  end.

(** The UTF-8 bytes of a code point. *)
Definition utf8 (c : char) : list N :=
  (if c <? 128 then [c]
   else if c <? 2048 then [192 + c / 64; 128 + c mod 64]
   else if c <? 65536 then
     [224 + c / 4096; 128 + (c / 64) mod 64; 128 + c mod 64]
   else [240 + c / 262144; 128 + (c / 4096) mod 64;
         128 + (c / 64) mod 64; 128 + c mod 64])%N.

(** [*p]: the byte at a position, the terminating NUL past the end. *)
Definition byte_at (bs : list N) (p : nat) : N := nth p bs 0%N.

(** [parse_digits]: exactly [num_digits] ASCII digits from [p] on,
    added to [var]; the value and the position after them. *)
Fixpoint parse_digits (bs : list N) (p : nat) (num_digits : nat) (var : Z)
  : option (Z * nat) :=
  match num_digits with
  | O => Some (var, p)
  | S n =>
      let c := byte_at bs p in
      if in_range 48 57 c
      then parse_digits bs (S p) n (10 * var + Z.of_N (c - 48))
      else None
  end.

(** [_find_isoformat_datetime_separator]: where the date ends, told
    from the characters at 4 and 5 ([None] is the code -1). *)
Fixpoint count_digits (l : list N) : nat :=
  match l with
  | c :: l' => if in_range 48 57 c then S (count_digits l') else O
  | [] => O
  end.

Definition find_isoformat_datetime_separator (bs : list N) : option nat :=
  let len := List.length bs in
  if (len =? 7)%nat then Some 7%nat
  else if char_eqb (byte_at bs 4) 45 then
    if char_eqb (byte_at bs 5) 87 then
      if (len <? 8)%nat then None
      else if (8 <? len)%nat && char_eqb (byte_at bs 8) 45 then
        if (len =? 9)%nat then None
        else if (10 <? len)%nat && in_range 48 57 (byte_at bs 10)
        then Some 8%nat
        else Some 10%nat
      else Some 8%nat
    else Some 10%nat
  else if char_eqb (byte_at bs 4) 87 then
    let idx := (7 + count_digits (skipn 7 bs))%nat in
    if (idx <? 9)%nat then Some idx
    else if Nat.even idx then Some 7%nat
    else Some 8%nat
  else Some 8%nat.

(** [parse_isoformat_date]: a calendar date or a week date. *)
Inductive isodate :=
| YMD (y m d : Z)
| YWD (y w d : Z).

Definition expect_if (b : bool) (c : N) (bs : list N) (p : nat) : option nat :=
  if b then (if char_eqb (byte_at bs p) c then Some (S p) else None)
  else Some p.

Definition parse_isoformat_date (bs : list N) (len : nat) : option isodate :=
  '(y, p) <-? parse_digits bs 0 4 0 ;;
  let uses_separator := char_eqb (byte_at bs p) 45 in
  let p := if uses_separator then S p else p in
  if char_eqb (byte_at bs p) 87 then
    '(iso_week, p) <-? parse_digits bs (S p) 2 0 ;;
    if (p <? len)%nat then
      'p <-? expect_if uses_separator 45 bs p ;;
      '(iso_day, _) <-? parse_digits bs p 1 0 ;;
      Some (YWD y iso_week iso_day)
    else Some (YWD y iso_week 1)
  else
    '(m, p) <-? parse_digits bs p 2 0 ;;
    'p <-? expect_if uses_separator 45 bs p ;;
    '(d, _) <-? parse_digits bs p 2 0 ;;
    Some (YMD y m d).

(** The fraction of [parse_hh_mm_ss_ff]: up to six digits count, the
    digits after them are skipped; the flag tells that the string goes
    on after them (the return code 1). *)
Definition parse_ff (bs : list N) (p_end p : nat) (vals : list Z)
  : option (list Z * Z * bool) :=
  let to_parse := Nat.min (p_end - p) 6 in
  '(us, p) <-? parse_digits bs p to_parse 0 ;;
  let us := us * 10 ^ Z.of_nat (6 - to_parse) in
  let p := (p + count_digits (skipn p bs))%nat in
  Some (vals, us, negb (char_eqb (byte_at bs p) 0)).

(** The loop of [parse_hh_mm_ss_ff] over hour, minute and second, up to
    [p_end]: [comps] of them are still to read, [vals] are read.  The
    character after the hour decides whether colons separate them. *)
Fixpoint parse_hh_mm_ss (bs : list N) (p_end : nat) (comps : nat)
         (first has_separator : bool) (p : nat) (vals : list Z)
  : option (list Z * Z * bool) :=
  match comps with
  | O => parse_ff bs p_end p vals
  | S comps' =>
      '(v, p) <-? parse_digits bs p 2 0 ;;
      let c := byte_at bs p in
      let vals := (vals ++ [v])%list in
      let has_separator := if first then char_eqb c 58 else has_separator in
      if (p_end <=? S p)%nat then Some (vals, 0, negb (char_eqb c 0))
      else if has_separator && char_eqb c 58 then
        parse_hh_mm_ss bs p_end comps' false has_separator (S p) vals
      else if char_eqb c 46 || char_eqb c 44 then parse_ff bs p_end (S p) vals
      else if negb has_separator then
        parse_hh_mm_ss bs p_end comps' false has_separator p vals
      else None
  end.

Definition parse_hh_mm_ss_ff (bs : list N) (p p_end : nat)
  : option (list Z * Z * bool) :=
  parse_hh_mm_ss bs p_end 3 true true p [].

(** The position of the first "Z", "+" or "-" from [p] on, the end of
    the string when there is none. *)
Fixpoint find_tz (l : list N) (p : nat) : nat :=
  match l with
  | c :: l' =>
      if char_eqb c 90 || char_eqb c 43 || char_eqb c 45 then p
      else find_tz l' (S p)
  | [] => p
  end.

(** [parse_isoformat_time]: the time fields and, with a zone, its
    offset in seconds and microseconds. *)
Definition parse_isoformat_time (bs : list N) (p : nat)
  : option (list Z * Z * option (Z * Z)) :=
  let p_end := List.length bs in
  let tzinfo_pos := find_tz (skipn p bs) p in
  '(vals, us, rv) <-? parse_hh_mm_ss_ff bs p tzinfo_pos ;;
  if (tzinfo_pos =? p_end)%nat then
    if rv then None else Some (vals, us, None)
  else if char_eqb (byte_at bs tzinfo_pos) 90 then
    if char_eqb (byte_at bs (S tzinfo_pos)) 0
    then Some (vals, us, Some (0, 0)) else None
  else
    let tzsign := if char_eqb (byte_at bs tzinfo_pos) 45 then -1 else 1 in
    '(tzvals, tzus, rv) <-? parse_hh_mm_ss_ff bs (S tzinfo_pos) p_end ;;
    if rv then None
    else Some (vals, us,
               Some (tzsign * (nth 0 tzvals 0 * 3600 + nth 1 tzvals 0 * 60 +
                               nth 2 tzvals 0),
                     tzsign * tzus)).

(** The width of the separator, a whole character, from its first byte. *)
Definition separator_width (b : N) : nat :=
  if (b <? 128)%N then 1%nat
  else if in_range 224 239 b then 3%nat
  else if (240 <=? b)%N then 4%nat
  else 2%nat.

(** [tzinfo_from_isoformat_results]: zero seconds is UTC whatever the
    microseconds; [timezone] wants an offset strictly within a day. *)
Definition tzinfo_from_isoformat_results (tz : option (Z * Z))
  : option (option Z) :=
  match tz with
  | None => Some None
  | Some (tzoffset, tz_useconds) =>
      if tzoffset =? 0 then Some (Some 0)
      else
        let us := tzoffset * 1000000 + tz_useconds in
        if (-86400000000 <? us) && (us <? 86400000000)
        then Some (Some us) else None
  end.

(** The range checks of the [datetime] constructor. *)
Definition valid_date (y m d : Z) : bool :=
  (1 <=? y) && (y <=? 9999) && (1 <=? m) && (m <=? 12) &&
  (1 <=? d) && (d <=? days_in_month y m).

Definition valid_time (h mi sec : Z) : bool :=
  (h <=? 23) && (mi <=? 59) && (sec <=? 59).

Definition parse_isoformat (bs : list N) : option stamp :=
  let len := List.length bs in
  if (len <? 7)%nat then None else
  'separator_location <-? find_isoformat_datetime_separator bs ;;
  'date <-? parse_isoformat_date bs separator_location ;;
  '(vals, us, tz) <-?
    (if (separator_location <? len)%nat
     then parse_isoformat_time
            bs (separator_location +
                separator_width (byte_at bs separator_location))
     else Some ([], 0, None)) ;;
  '(y, m, d) <-?
    match date with
    | YMD y m d => Some (y, m, d)
    | YWD y w d => iso_to_ymd y w d
    end ;;
  'tzinfo <-? tzinfo_from_isoformat_results tz ;;
  let h := nth 0 vals 0 in
  let mi := nth 1 vals 0 in
  let sec := nth 2 vals 0 in
  if valid_date y m d && valid_time h mi sec
  then Some {| wall := {| year := y; month := m; day := d;
                          hour := h; minute := mi; second := sec;
                          microsecond := us |};
               utcoffset := tzinfo |}
  else None.

(** [datetime.fromisoformat]: every failure is a [ValueError], a
    surrogate left in the string included. *)
Definition fromisoformat (s : str) : result stamp :=
  let s := sanitize_isoformat_str s in
  if existsb is_surrogate s then Raise ValueError
  else
    match parse_isoformat (flat_map utf8 s) with
    | Some d => Ok d
    | None => Raise ValueError
    end.

(** [.replace(tzinfo=timezone.utc)]: the fields stay, the zone is
    overwritten; an offset that was read is dropped, not applied. *)
Definition replace_tzinfo_utc (d : stamp) : datetime := wall d.

(** [datetime.fromisoformat(s.replace('Z', '+00:00')).replace(tzinfo=timezone.utc)] *)
Definition parse_utc (s : str) : result datetime :=
  d <- fromisoformat (replace_char 90 (lit "+00:00") s) ;;
  Ok (replace_tzinfo_utc d).

(* ================================================================== *)
(** * JSON values and the fragment of JSON Schema the validator uses *)
(* ================================================================== *)

Inductive json :=
| JNull
| JBool (b : bool)
| JInt (z : Z)
| JStr (s : str)
| JArr (l : list json)
| JObj (l : list (str * json)).

Definition dict := list (str * json).

Fixpoint dict_get (d : dict) (k : str) : option json :=
  match d with
  | [] => None
  | (k', v) :: d' => if str_eqb k k' then Some v else dict_get d' k
  end.

Definition dict_has (d : dict) (k : str) : bool :=
  match dict_get d k with Some _ => true | None => false end.

Inductive jtype := TObject | TArray | TString | TBoolean | TNull.

Definition has_type (t : jtype) (v : json) : bool :=
  match t, v with
  | TObject, JObj _ => true
  | TArray, JArr _ => true
  | TString, JStr _ => true
  | TBoolean, JBool _ => true
  | TNull, JNull => true
  | _, _ => false
  end.

(** A schema by the keywords [TRACE_SCHEMA] uses: [type], [enum] (of
    strings), [required], [properties], [items], [oneOf].
    [additionalProperties: True] constrains nothing and has no field. *)
Inductive schema :=
| Schema (s_type : option jtype)
         (s_enum : option (list str))
         (s_required : list str)
         (s_properties : list (str * schema))
         (s_items : option schema)
         (s_oneOf : option (list schema)).

(** Whether [v] satisfies [sc], keyword by keyword as JSON Schema
    defines them: [required] and [properties] constrain objects only,
    [items] arrays only, [oneOf] wants exactly one alternative. *)
Fixpoint valid (sc : schema) (v : json) {struct sc} : bool :=
  match sc with
  | Schema s_type s_enum s_required s_properties s_items s_oneOf =>
      match s_type with
      | None => true
      | Some t => has_type t v
      end
      &&
      match s_enum with
      | None => true
      | Some vals => match v with JStr s => str_in s vals | _ => false end
      end
      &&
      match v with
      | JObj d => forallb (dict_has d) s_required
      | _ => true
      end
      &&
      match v with
      | JObj d =>
          (fix props (ps : list (str * schema)) : bool :=
             match ps with
             | [] => true
             | (k, sub) :: ps' =>
                 match dict_get d k with
                 | Some x => valid sub x
                 | None => true
                 end && props ps'
             end) s_properties
      | _ => true
      end
      &&
      match s_items, v with
      | Some sub, JArr l => forallb (valid sub) l
      | _, _ => true
      end
      &&
      match s_oneOf with
      | None => true
      | Some subs =>
          Nat.eqb
            ((fix count (ss : list schema) : nat :=
                match ss with
                | [] => O
                | s :: ss' => ((if valid s v then 1 else 0) + count ss')%nat
                end) subs) 1
      end
  end.

Definition of_type (t : jtype) : schema :=
  Schema (Some t) None [] [] None None.

(** [TRACE_SCHEMA] of [schema_validator.py] *)
Definition TRACE_SCHEMA : schema :=
  Schema (Some TObject) None
    [lit "intent"; lit "tools_called"; lit "evidence";
     lit "policy_decision"; lit "final_message"]
    [ (lit "intent",
       Schema (Some TString)
              (Some [lit "product_assist"; lit "order_help"; lit "other"])
              [] [] None None);
      (lit "tools_called",
       Schema (Some TArray) None [] [] (Some (of_type TString)) None);
      (lit "evidence",
       Schema (Some TArray) None [] [] (Some (of_type TObject)) None);
      (lit "policy_decision",
       Schema None None [] [] None
         (Some [ of_type TNull;
                 Schema (Some TObject) None [lit "cancel_allowed"]
                   [ (lit "cancel_allowed", of_type TBoolean);
                     (lit "reason", of_type TString);
                     (lit "alternatives",
                      Schema (Some TArray) None [] []
                             (Some (of_type TString)) None) ]
                   None None ]));
      (lit "final_message", of_type TString) ]
    None None.

(** [validate_trace]: [True], or the validation error of [jsonschema]. *)
Definition validate_trace (trace : json) : result bool :=
  if valid TRACE_SCHEMA trace then Ok true else Raise ValidationError.

(* ================================================================== *)
(** * [tools.py]: the catalogue, the orders and the five tools *)
(* ================================================================== *)

(** The records of the two data files (keys [id], [title], [price],
    [tags], [sizes], [color]; [order_id], [email], [created_at],
    [items]). *)
Record Item := { i_id : str; i_size : str }.

Record Product := {
  p_id : str; p_title : str; p_price : Z;
  p_tags : list str; p_sizes : list str; p_color : str
}.

Record Order := {
  o_order_id : str; o_email : str; o_created_at : str; o_items : list Item
}.

(** [self] of [CommerceTools] *)
Record CommerceTools := { products : list Product; orders : list Order }.

Definition fallback_products : list Product :=
  [ {| p_id := lit "P1"; p_title := lit "Midi Wrap Dress"; p_price := 119;
       p_tags := [lit "wedding"; lit "midi"];
       p_sizes := [lit "S"; lit "M"; lit "L"]; p_color := lit "Charcoal" |};
    {| p_id := lit "P2"; p_title := lit "Satin Slip Dress"; p_price := 99;
       p_tags := [lit "wedding"; lit "midi"];
       p_sizes := [lit "XS"; lit "S"; lit "M"]; p_color := lit "Blush" |};
    {| p_id := lit "P3"; p_title := lit "Knit Bodycon"; p_price := 89;
       p_tags := [lit "midi"];
       p_sizes := [lit "M"; lit "L"]; p_color := lit "Navy" |};
    {| p_id := lit "P4"; p_title := lit "A-Line Day Dress"; p_price := 75;
       p_tags := [lit "daywear"; lit "midi"];
       p_sizes := [lit "S"; lit "M"; lit "L"]; p_color := lit "Olive" |};
    {| p_id := lit "P5"; p_title := lit "Sequin Party Dress"; p_price := 149;
       p_tags := [lit "party"];
       p_sizes := [lit "S"; lit "M"]; p_color := lit "Black" |} ].

Definition fallback_orders : list Order :=
  [ {| o_order_id := lit "A1001"; o_email := lit "rehan@example.com";
       o_created_at := lit "2025-09-07T09:30:00Z";
       o_items := [ {| i_id := lit "P1"; i_size := lit "M" |} ] |};
    {| o_order_id := lit "A1002"; o_email := lit "alex@example.com";
       o_created_at := lit "2025-09-06T13:05:00Z";
       o_items := [ {| i_id := lit "P2"; i_size := lit "S" |} ] |};
    {| o_order_id := lit "A1003"; o_email := lit "mira@example.com";
       o_created_at := lit "2025-09-07T11:55:00Z";
       o_items := [ {| i_id := lit "P3"; i_size := lit "L" |} ] |} ].

(** [_load_products], [_load_orders]: the content of the data file, or
    the built-in records when the file is missing ([None]). *)
Definition load_products (file : option (list Product)) : list Product :=
  match file with Some l => l | None => fallback_products end.

Definition load_orders (file : option (list Order)) : list Order :=
  match file with Some l => l | None => fallback_orders end.

(** [CommerceTools.__init__] *)
Definition CommerceTools_init (products_json : option (list Product))
           (orders_json : option (list Order)) : CommerceTools :=
  {| products := load_products products_json;
     orders := load_orders orders_json |}.

(** Truth value of a list or string: not empty. *)
Definition nonempty {A} (l : list A) : bool :=
  match l with [] => false | _ :: _ => true end.

(** The [for product in self.products] loop of [product_search]; each
    [continue] leaves [results] as it is. *)
Fixpoint product_search_loop (query query_lower : str) (price_max : Z)
         (tags : list str) (ps : list Product) (results : list Product)
  : list Product :=
  match ps with
  | [] => results
  | product :: rest =>
      if p_price product >? price_max then
        product_search_loop query query_lower price_max tags rest results
      else if nonempty tags &&
              negb (existsb (fun tag => str_in tag (p_tags product)) tags) then
        product_search_loop query query_lower price_max tags rest results
      else if nonempty query &&
              negb (contains (lower (p_title product)) query_lower ||
                    existsb (fun tag => contains (lower tag) query_lower)
                            (p_tags product)) then
        product_search_loop query query_lower price_max tags rest results
      else
        product_search_loop query query_lower price_max tags rest
                            (results ++ [product])
  end.

(** [sorted(results, key=lambda x: x['price'])]: a stable sort; the
    result of a stable sort is determined by the keys, so insertion
    stands for the library's merge sort. *)
Fixpoint insert_by_price (x : Product) (l : list Product) : list Product :=
  match l with
  | [] => [x]
  | y :: t =>
      if p_price x <=? p_price y then x :: y :: t
      else y :: insert_by_price x t
  end.

Fixpoint sorted_by_price (l : list Product) : list Product :=
  match l with
  | [] => []
  | x :: t => insert_by_price x (sorted_by_price t)
  end.

Definition product_search (self : CommerceTools) (query : str) (price_max : Z)
           (tags : option (list str)) : list Product :=
  let tags := match tags with None => [] | Some t => t end in
  let query_lower := lower query in
  let results :=
    product_search_loop query query_lower price_max tags (products self) [] in
  firstn 2 (sorted_by_price results).

Definition size_recommender (user_inputs : str) : str :=
  let user_lower := lower user_inputs in
  if existsb (contains user_lower)
             [lit "fitted"; lit "tight"; lit "small"; lit "petite"] then
    lit "I'd recommend size M for a more fitted look"
  else if existsb (contains user_lower)
                  [lit "loose"; lit "comfortable"; lit "roomy"; lit "large"] then
    lit "I'd recommend size L for a more comfortable fit"
  else if contains user_lower (lit "between m/l") ||
          contains user_lower (lit "between m and l") then
    lit "For M vs L: choose M if you prefer fitted style, L if you want more room and comfort"
  else
    lit "I'd recommend size M as a good middle ground, but L if you prefer looser fits".

Definition eta (zip_code : str) : result str :=
  let zip_digits := filter isdigit zip_code in
  if negb (nonempty zip_digits) then Ok (lit "3-4 business days")
  else
    zip_int <- int_of_str (ljust 6 48 (slice_to 6 zip_digits)) ;;
    if zip_int <? 400000 then Ok (lit "3-4 business days")
    else if zip_int <? 600000 then Ok (lit "2-3 business days")
    else Ok (lit "4-5 business days").

Fixpoint order_lookup_loop (os : list Order) (order_id email : str)
  : option Order :=
  match os with
  | [] => None
  | order :: rest =>
      if str_eqb (o_order_id order) order_id && str_eqb (o_email order) email
      then Some order
      else order_lookup_loop rest order_id email
  end.

Definition order_lookup (self : CommerceTools) (order_id email : str)
  : option Order :=
  order_lookup_loop (orders self) order_id email.

(* ================================================================== *)
(** * Floats: the divisions and roundings of [order_cancel] *)
(* ================================================================== *)

(** A positive binary64 value is kept as [(m, e)], standing for
    [m * 2^e] with [2^52 <= m <= 2^53]; the values met here are far
    from the ends of the exponent range. *)
Definition binary64 := (Z * Z)%type.

(** The integer nearest to [n / d], ties to the even one. *)
Definition nearest_even (n d : Z) : Z :=
  let q := n / d in
  let r := n mod d in
  if (d <? 2 * r) || ((2 * r =? d) && Z.odd q) then q + 1 else q.

(** [n / d / 2^e] as a fraction. *)
Definition scale2 (n d e : Z) : Z * Z :=
  if 0 <=? e then (n, d * 2 ^ e) else (n * 2 ^ (- e), d).

(** The double nearest to [n / d], ties to even, for positive [n] and
    [d]: the result of [int / int] and of the division of two floats,
    both correctly rounded. *)
Definition float_of_ratio (n d : Z) : binary64 :=
  let l := Z.log2 n - Z.log2 d in
  let '(n1, d1) := scale2 n d l in
  let l := if n1 <? d1 then l - 1 else l in
  let e := l - 52 in
  let '(n2, d2) := scale2 n d e in
  (nearest_even n2 d2, e).

(** [x / k] for a float [x] and a positive integer [k]. *)
Definition float_div (x : binary64) (k : Z) : binary64 :=
  let '(m, e) := x in
  if 0 <=? e then float_of_ratio (m * 2 ^ e) k
  else float_of_ratio m (k * 2 ^ (- e)).

(** [round(x, 1)], in tenths: the decimal with one digit after the
    point nearest to the exact value of [x], ties to even; the float
    returned is the double nearest to that decimal. *)
Definition round1_tenths (x : binary64) : Z :=
  let '(m, e) := x in
  if 0 <=? e then 10 * m * 2 ^ e else nearest_even (10 * m) (2 ^ (- e)).

(** [timedelta.total_seconds() / 60] for a positive difference. *)
Definition minutes_float (us : Z) : binary64 :=
  float_div (float_of_ratio us 1000000) 60.

(** [x <= k] for a positive float and an integer. *)
Definition float_leb (x : binary64) (k : Z) : bool :=
  let '(m, e) := x in
  if 0 <=? e then m * 2 ^ e <=? k else m <=? k * 2 ^ (- e).

(** [time_diff_minutes <= 60], the test of [order_cancel]; a difference
    that is not positive gives a float that is not positive. *)
Definition within_sixty_minutes (us : Z) : bool :=
  if us <=? 0 then true else float_leb (minutes_float us) 60.

(** A float with one decimal place: the double nearest to
    [tenths / 10], with its sign (minus zero is a float of its own). *)
Record pyfloat := { negative : bool; tenths : Z }.

(** [round(time_diff_minutes, 1)], by the difference in microseconds. *)
Definition round1_minutes (us : Z) : pyfloat :=
  if us =? 0 then {| negative := false; tenths := 0 |}
  else {| negative := us <? 0;
          tenths := round1_tenths (minutes_float (Z.abs us)) |}.

(** [round(time_diff_minutes / 60, 1)] for a positive difference, in
    tenths. *)
Definition round1_hours_tenths (us : Z) : Z :=
  round1_tenths (float_div (minutes_float us) 60).

(** The text of such a float in an f-string, for a positive value: its
    shortest decimal, which has the one digit after the point. *)
Definition float_text (tenths : Z) : str :=
  str_of_Z (tenths / 10) ++ lit "." ++ str_of_Z (tenths mod 10).

(** The dict [order_cancel] returns.  [time_diff_minutes] and
    [alternatives] are keys that some of the three dicts lack. *)
Record CancelResult := {
  success : bool;
  reason : str;
  message : str;
  time_diff_minutes : option pyfloat;
  alternatives : option (list str)
}.

Definition nl : str := [10%N].

Section Runtime.

(** [os.getenv("CURRENT_TIME")], [None] when the variable is unset. *)
Variable CURRENT_TIME : option str.

(** The text of [round(time_diff_minutes/60, 1)] inside the f-string,
    as a function of the difference in microseconds.  It is a
    parameter: what follows holds for any such function;
    [decimal1_hours] below is the one Python computes. *)
Variable hours_text : Z -> str.

Definition getenv_CURRENT_TIME (default : str) : str :=
  match CURRENT_TIME with Some v => v | None => default end.

(** The test [time_diff_minutes <= 60] is made on floats, as in the
    source; [within_sixty_minutes_exact] below shows that it is the
    comparison of the exact difference with sixty minutes. *)
Definition order_cancel (self : CommerceTools) (order_id email : str)
           (current_time : option str) : result CancelResult :=
  let current_time :=
    match current_time with
    | None => getenv_CURRENT_TIME (lit "2025-09-08T11:05:00Z")
    | Some t => t
    end in
  match order_lookup self order_id email with
  | None =>
      Ok {| success := false;
            reason := lit "order_not_found";
            message := lit "Order not found with provided ID and email";
            time_diff_minutes := None;
            alternatives := None |}
  | Some order =>
      created_at <- parse_utc (o_created_at order) ;;
      current_dt <- parse_utc current_time ;;
      let time_diff := timedelta_us current_dt created_at in
      if within_sixty_minutes time_diff then
        Ok {| success := true;
              reason := lit "within_policy";
              message := lit "Order " ++ order_id ++
                         lit " cancelled successfully. Refund will process in 3-5 business days.";
              time_diff_minutes := Some (round1_minutes time_diff);
              alternatives := None |}
      else
        Ok {| success := false;
              reason := lit "policy_violation";
              message := lit "Order was placed " ++ hours_text time_diff ++
                         lit " hours ago, beyond our 60-minute cancellation window.";
              time_diff_minutes := Some (round1_minutes time_diff);
              alternatives :=
                Some [lit "Update shipping address";
                      lit "Convert to store credit";
                      lit "Connect with customer support"] |}
  end.

(* ================================================================== *)
(** * [graph.py]: the five nodes and the linear graph *)
(* ================================================================== *)

(** [MockLLM] and [get_llm] are called by no node and are left out. *)

(** The global instance [commerce_tools] that the nodes call. *)
Variable commerce_tools : CommerceTools.

(** An evidence item [{"type": ..., "data": ...}]; the data is a
    product record or an order record. *)
Inductive EvData :=
| DProduct (p : Product)
| DOrder (o : Order).

Record Evidence := { e_type : str; e_data : EvData }.

(** The three dicts [policy_guard_node] builds: the two cancellation
    decisions (the key [alternatives] is in the blocked one only) and
    the refusal. *)
Inductive PolicyDecision :=
| CancelDecision (cancel_allowed : bool) (reason message : str)
                 (alternatives : option (list str))
| RefuseDecision (refuse : bool) (reason : str).

(** The trace dict of [responder_node]; evidence entries are the
    projected dicts. *)
Record Trace := {
  t_intent : str;
  t_tools_called : list str;
  t_evidence : list dict;
  t_policy_decision : option PolicyDecision;
  t_final_message : str
}.

(** [CommerceState]; every key is present from [run_agent] on, the
    trace being the empty dict until the responder writes it. *)
Record CommerceState := {
  messages : list str;
  intent : str;
  tools_called : list str;
  evidence : list Evidence;
  policy_decision : option PolicyDecision;
  final_message : str;
  trace : option Trace
}.

(** [state["messages"][-1].content if state["messages"] else ""] *)
Definition last_content (state : CommerceState) : str :=
  last (messages state) [].

Definition product_keywords : list str :=
  [lit "dress"; lit "product"; lit "wedding"; lit "midi";
   lit "size"; lit "price"; lit "eta"; lit "under"].

Definition order_keywords : list str :=
  [lit "cancel"; lit "order"; lit "refund"].

(** [state["messages"][-1].content], an [IndexError] on no message *)
Definition last_content_strict (state : CommerceState) : result str :=
  if nonempty (messages state) then Ok (last (messages state) [])
  else Raise IndexError.

(** Each node is given by the update it returns; [invoke] merges it. *)
Definition router_node (state : CommerceState) : str :=
  if negb (nonempty (messages state)) then lit "other"
  else
    let user_message := lower (last_content state) in
    if existsb (contains user_message) product_keywords &&
       negb (contains user_message (lit "cancel")) then lit "product_assist"
    else if existsb (contains user_message) order_keywords then lit "order_help"
    else lit "other".

Definition tool_selector_node (state : CommerceState) : list str :=
  let intent := intent state in
  if str_eqb intent (lit "product_assist") then
    [lit "product_search"; lit "size_recommender"; lit "eta"]
  else if str_eqb intent (lit "order_help") then
    [lit "order_lookup"; lit "order_cancel"]
  else [].

(** [price_max] as the [product_search] block computes it from the
    lower-cased message. *)
Definition parse_price_max (message_lower : str) : result Z :=
  match search re_price message_lower with
  | Some price_match =>
      match group1 price_match with
      | Some g => int_of_str g
      | None => Raise ValueError
      end
  | None => Ok 1000
  end.

(** The block under [if "product_search" in tools_called]. *)
Definition product_search_step (user_message : str) : result (list Evidence) :=
  let message_lower := lower user_message in
  price_max <- parse_price_max message_lower ;;
  let '(query, tags) :=
    if existsb (contains message_lower) [lit "wedding"; lit "midi"]
    then (lit "midi", [lit "wedding"; lit "midi"])
    else ([], []) in
  let products := product_search commerce_tools query price_max (Some tags) in
  Ok (List.map (fun p => {| e_type := lit "product"; e_data := DProduct p |})
               products).

(** Order id and email as both the collector and the guard extract
    them: [Some] when both patterns match. *)
Definition extract_order_email (user_message : str) : option (str * str) :=
  let order_match := search re_order user_message in
  let email_match := search re_email user_message in
  match order_match, email_match with
  | Some om, Some em =>
      match group1 om with
      | Some order_id => Some (order_id, group0 em)
      | None => None
      end
  | _, _ => None
  end.

(** The block under [if "order_lookup" in tools_called]. *)
Definition order_lookup_step (user_message : str) : list Evidence :=
  match extract_order_email user_message with
  | Some (order_id, email) =>
      match order_lookup commerce_tools order_id email with
      | Some order => [ {| e_type := lit "order"; e_data := DOrder order |} ]
      | None => []
      end
  | None => []
  end.

Definition execute_tools_node (state : CommerceState) : result (list Evidence) :=
  let user_message := last_content state in
  let tools_called := tools_called state in
  ev1 <- (if str_in (lit "product_search") tools_called
          then product_search_step user_message else Ok []) ;;
  let ev2 := if str_in (lit "order_lookup") tools_called
             then order_lookup_step user_message else [] in
  Ok (ev1 ++ ev2).

Definition policy_guard_node (state : CommerceState)
  : result (option PolicyDecision) :=
  let intent := intent state in
  if str_eqb intent (lit "order_help") then
    user_message <- last_content_strict state ;;
    match extract_order_email user_message with
    | Some (order_id, email) =>
        cancel_result <- order_cancel commerce_tools order_id email None ;;
        if success cancel_result then
          Ok (Some (CancelDecision true (lit "within_policy")
                                   (message cancel_result) None))
        else
          Ok (Some (CancelDecision false (reason cancel_result)
                      (message cancel_result)
                      (Some (match alternatives cancel_result with
                             | Some a => a
                             | None => []
                             end))))
    | None => Ok None
    end
  else if str_eqb intent (lit "other") then
    content <- last_content_strict state ;;
    let user_message := lower content in
    if contains user_message (lit "discount code") &&
       existsb (contains user_message)
               [lit "doesn't exist"; lit "non-existent"; lit "fake"]
    then Ok (Some (RefuseDecision true (lit "invalid_discount_request")))
    else Ok None
  else Ok None.

(** The record of a product or an order as the dict it is in Python,
    keys in the order of the data files. *)
Definition json_strs (l : list str) : json := JArr (List.map JStr l).

Definition data_dict (d : EvData) : dict :=
  match d with
  | DProduct p =>
      [ (lit "id", JStr (p_id p)); (lit "title", JStr (p_title p));
        (lit "price", JInt (p_price p)); (lit "tags", json_strs (p_tags p));
        (lit "sizes", json_strs (p_sizes p)); (lit "color", JStr (p_color p)) ]
  | DOrder o =>
      [ (lit "order_id", JStr (o_order_id o)); (lit "email", JStr (o_email o));
        (lit "created_at", JStr (o_created_at o));
        (lit "items",
         JArr (List.map (fun i => JObj [ (lit "id", JStr (i_id i));
                                         (lit "size", JStr (i_size i)) ])
                        (o_items o))) ]
  end.

(** One entry of the trace's evidence:
    [{"id": data.get("id", data.get("order_id", "unknown")),
      **{k: v for k, v in data.items() if k in [...]}}] *)
Definition trace_evidence (e : Evidence) : dict :=
  let data := data_dict (e_data e) in
  (lit "id",
   match dict_get data (lit "id") with
   | Some v => v
   | None =>
       match dict_get data (lit "order_id") with
       | Some v => v
       | None => JStr (lit "unknown")
       end
   end)
  :: filter (fun kv =>
               str_in (fst kv)
                      [lit "title"; lit "price"; lit "sizes";
                       lit "order_id"; lit "email"; lit "color"])
            data.

(** One bullet line of the product reply; [p['title']] on a record
    that is not a product is a [KeyError]. *)
Definition product_line (d : EvData) : result str :=
  match d with
  | DProduct p =>
      Ok ([bullet] ++ lit " " ++ p_title p ++ lit " ($" ++
          str_of_Z (p_price p) ++ lit ", " ++ p_color p ++
          lit ") - Available in " ++ join (lit ", ") (p_sizes p) ++ nl)
  | DOrder _ => Raise KeyError
  end.

Fixpoint product_lines (ps : list EvData) (final_message : str) : result str :=
  match ps with
  | [] => Ok final_message
  | p :: rest =>
      line <- product_line p ;;
      product_lines rest (final_message ++ line)
  end.

(** The [for i, alt in enumerate(alternatives, 1)] loop. *)
Fixpoint alternative_lines (i : Z) (alts : list str) (final_message : str)
  : str :=
  match alts with
  | [] => final_message
  | alt :: rest =>
      alternative_lines (i + 1) rest
        (final_message ++ str_of_Z i ++ lit ". " ++ alt ++ nl)
  end.

(** [policy_decision.get("cancel_allowed")], [.get("refuse")],
    [["message"]], [.get("alternatives", [])] *)
Definition get_cancel_allowed (pd : PolicyDecision) : bool :=
  match pd with
  | CancelDecision b _ _ _ => b
  | RefuseDecision _ _ => false
  end.

Definition get_refuse (pd : PolicyDecision) : bool :=
  match pd with
  | CancelDecision _ _ _ _ => false
  | RefuseDecision b _ => b
  end.

Definition get_message (pd : PolicyDecision) : result str :=
  match pd with
  | CancelDecision _ _ m _ => Ok m
  | RefuseDecision _ _ => Raise KeyError
  end.

Definition get_alternatives (pd : PolicyDecision) : list str :=
  match pd with
  | CancelDecision _ _ _ (Some a) => a
  | _ => []
  end.

Definition product_reply (evidence : list Evidence) (user_message : str)
  : result str :=
  let products :=
    List.map e_data
             (filter (fun e => str_eqb (e_type e) (lit "product")) evidence) in
  if nonempty products then
    let n := Z.of_nat (List.length products) in
    let final_message :=
      lit "I found " ++ str_of_Z n ++ lit " dress" ++
      (if n >? 1 then lit "es" else []) ++ lit " for you:" ++ nl ++ nl in
    final_message <- product_lines products final_message ;;
    let final_message :=
      if contains (lower user_message) (lit "between m/l") ||
         contains (lower user_message) (lit "m/l")
      then final_message ++ nl ++ size_recommender user_message ++ lit "." ++ nl
      else final_message in
    match search re_zip user_message with
    | Some zip_match =>
        let zip_code := group0 zip_match in
        eta_text <- eta zip_code ;;
        Ok (final_message ++ nl ++ lit "Delivery to " ++ zip_code ++
            lit ": " ++ eta_text ++ lit ".")
    | None => Ok final_message
    end
  else
    Ok (lit "I couldn't find any products matching your criteria. Please try adjusting your price range or preferences.").

Definition order_reply (policy_decision : option PolicyDecision) : result str :=
  match policy_decision with
  | Some pd =>
      if get_cancel_allowed pd then get_message pd
      else
        m <- get_message pd ;;
        let final_message :=
          m ++ nl ++ nl ++ lit "I can help you with these alternatives:" ++ nl in
        let final_message :=
          alternative_lines 1 (get_alternatives pd) final_message in
        Ok (final_message ++ nl ++ lit "Which option would you prefer?")
  | None =>
      Ok (lit "I need both your order ID and email address to help you with order-related requests.")
  end.

Definition refusal_message : str :=
  lit "I can't provide non-existent discount codes, but I can suggest these legitimate offers:" ++ nl ++
  [bullet] ++ lit " Sign up for our newsletter for 10% off your first order" ++ nl ++
  [bullet] ++ lit " Follow us on social media for exclusive deals" ++ nl ++
  [bullet] ++ lit " Check our current promotions page for active discounts".

Definition helper_message : str :=
  lit "I'm here to help with product searches and order management. How can I assist you today?".

Definition other_reply (policy_decision : option PolicyDecision) : str :=
  match policy_decision with
  | Some pd => if get_refuse pd then refusal_message else helper_message
  | None => helper_message
  end.

(** The update [{"final_message": ..., "trace": ...}] of the responder. *)
Record ResponderUpdate := { upd_final_message : str; upd_trace : Trace }.

Definition responder_node (state : CommerceState) : result ResponderUpdate :=
  let intent := intent state in
  let tools_called := tools_called state in
  let evidence := evidence state in
  let policy_decision := policy_decision state in
  let user_message := last_content state in
  let trace :=
    {| t_intent := intent;
       t_tools_called := tools_called;
       t_evidence := List.map trace_evidence evidence;
       t_policy_decision := policy_decision;
       t_final_message := [] |} in
  final_message <-
    (if str_eqb intent (lit "product_assist") then
       product_reply evidence user_message
     else if str_eqb intent (lit "order_help") then
       order_reply policy_decision
     else if str_eqb intent (lit "other") then
       Ok (other_reply policy_decision)
     else Ok []) ;;
  let trace :=
    {| t_intent := t_intent trace;
       t_tools_called := t_tools_called trace;
       t_evidence := t_evidence trace;
       t_policy_decision := t_policy_decision trace;
       t_final_message := final_message |} in
  Ok {| upd_final_message := final_message; upd_trace := trace |}.

(** [graph.invoke]: START, router, tool_selector, execute_tools,
    policy_guard, responder, END; each update is merged into the
    state, an exception of a node ends the run. *)
Definition invoke (s0 : CommerceState) : result CommerceState :=
  let s1 :=
    {| messages := messages s0; intent := router_node s0;
       tools_called := tools_called s0; evidence := evidence s0;
       policy_decision := policy_decision s0;
       final_message := final_message s0; trace := trace s0 |} in
  let s2 :=
    {| messages := messages s1; intent := intent s1;
       tools_called := tool_selector_node s1; evidence := evidence s1;
       policy_decision := policy_decision s1;
       final_message := final_message s1; trace := trace s1 |} in
  ev <- execute_tools_node s2 ;;
  let s3 :=
    {| messages := messages s2; intent := intent s2;
       tools_called := tools_called s2; evidence := ev;
       policy_decision := policy_decision s2;
       final_message := final_message s2; trace := trace s2 |} in
  pd <- policy_guard_node s3 ;;
  let s4 :=
    {| messages := messages s3; intent := intent s3;
       tools_called := tools_called s3; evidence := evidence s3;
       policy_decision := pd;
       final_message := final_message s3; trace := trace s3 |} in
  upd <- responder_node s4 ;;
  Ok {| messages := messages s4; intent := intent s4;
        tools_called := tools_called s4; evidence := evidence s4;
        policy_decision := policy_decision s4;
        final_message := upd_final_message upd;
        trace := Some (upd_trace upd) |}.

(** What [run_agent] returns: [{"trace": ..., "final_message": ...}]. *)
Record AgentOutput := { out_trace : option Trace; out_final_message : str }.

(** The state [run_agent] hands to the graph. *)
Definition initial_state (user_input : str) : CommerceState :=
  {| messages := [user_input]; intent := [];
     tools_called := []; evidence := [];
     policy_decision := None; final_message := [];
     trace := None |}.

Definition run_agent (user_input : str) : result AgentOutput :=
  result <- invoke (initial_state user_input) ;;
  Ok {| out_trace := trace result; out_final_message := final_message result |}.

End Runtime.

(** The trace as the JSON value handed to [validate_trace]. *)
Definition policy_decision_json (pd : option PolicyDecision) : json :=
  match pd with
  | None => JNull
  | Some (CancelDecision b r m alts) =>
      JObj ([ (lit "cancel_allowed", JBool b); (lit "reason", JStr r);
              (lit "message", JStr m) ] ++
            match alts with
            | Some a => [ (lit "alternatives", json_strs a) ]
            | None => []
            end)
  | Some (RefuseDecision b r) =>
      JObj [ (lit "refuse", JBool b); (lit "reason", JStr r) ]
  end.

Definition trace_json (t : Trace) : json :=
  JObj [ (lit "intent", JStr (t_intent t));
         (lit "tools_called", json_strs (t_tools_called t));
         (lit "evidence", JArr (List.map JObj (t_evidence t)));
         (lit "policy_decision", policy_decision_json (t_policy_decision t));
         (lit "final_message", JStr (t_final_message t)) ].

(** The text Python puts there, for a positive difference:
    [round(time_diff_minutes/60, 1)] computed in binary64 and printed. *)
Definition decimal1_hours (us : Z) : str :=
  float_text (round1_hours_tenths us).

Definition commerce_tools_fallback : CommerceTools :=
  CommerceTools_init None None.

(* ================================================================== *)
(** * Vocabulary of the specification *)
(* ================================================================== *)

(** [needle] occurs in [hay]. *)
Definition Substring (needle hay : str) : Prop :=
  exists a b, hay = a ++ needle ++ b.

(** [classify] of the specification: the router on a one-message state. *)
Definition classify (text : str) : str := router_node (initial_state text).

(** The text contains, whatever the case, one of the keywords. *)
Definition mentions (keywords : list str) (text : str) : Prop :=
  exists kw, In kw keywords /\ Substring kw (lower text).

(** The filter of [product_search] in the words of the specification:
    price at most the ceiling; a shared tag when tags are given; the
    query inside the title or a tag, whatever the case, when a query is
    given. *)
Definition matches_spec (query : str) (price_max : Z) (tags : list str)
           (p : Product) : Prop :=
  p_price p <= price_max /\
  (tags <> [] -> exists t, In t tags /\ In t (p_tags p)) /\
  (query <> [] ->
   Substring (lower query) (lower (p_title p)) \/
   exists t, In t (p_tags p) /\ Substring (lower query) (lower t)).

(** The same filter as a test, for [filter]. *)
Definition matchesb (query : str) (price_max : Z) (tags : list str)
           (p : Product) : bool :=
  (p_price p <=? price_max) &&
  (negb (nonempty tags) || existsb (fun t => str_in t (p_tags p)) tags) &&
  (negb (nonempty query) ||
   contains (lower (p_title p)) (lower query) ||
   existsb (fun t => contains (lower t) (lower query)) (p_tags p)).

Definition price_le (a b : Product) : Prop := p_price a <= p_price b.

(** The decision for an order that is not found. *)
Definition order_not_found_result : CancelResult :=
  {| success := false;
     reason := lit "order_not_found";
     message := lit "Order not found with provided ID and email";
     time_diff_minutes := None;
     alternatives := None |}.

Definition fixed_alternatives : list str :=
  [lit "Update shipping address"; lit "Convert to store credit";
   lit "Connect with customer support"].

(** Sixty minutes, in microseconds. *)
Definition sixty_minutes : Z := 60 * 60000000.

(** The reference time [order_cancel] uses. *)
Definition reference_time (CURRENT_TIME : option str) (now : option str) : str :=
  match now with
  | Some t => t
  | None => getenv_CURRENT_TIME CURRENT_TIME (lit "2025-09-08T11:05:00Z")
  end.

(** The value of a run of decimal digits. *)
Definition digits_value (d : str) : Z :=
  fold_left (fun acc c => 10 * acc + digit_value c) d 0.

Definition ask_identifiers_message : str :=
  lit "I need both your order ID and email address to help you with order-related requests.".

Definition superscript_two : char := 178%N.

Definition discount_prompt : str :=
  lit "Can you give me a discount code that doesn't exist?".

(** [matches r s g g']: [r] can match exactly the text [s], taking the
    capture from [g] to [g'].  Word boundaries are not checked here:
    the relation is what a match implies, not when one exists. *)
Inductive matches : regex -> str -> option str -> option str -> Prop :=
| M_Eps g : matches Eps [] g g
| M_Chr p c g : p c = true -> matches (Chr p) [c] g g
| M_Cat r1 r2 s1 s2 g g1 g2 :
    matches r1 s1 g g1 -> matches r2 s2 g1 g2 ->
    matches (Cat r1 r2) (s1 ++ s2) g g2
| M_Plus p s g : s <> [] -> forallb p s = true -> matches (Plus p) s g g
| M_LazyStar p s g : forallb p s = true -> matches (LazyStar p) s g g
| M_Group r s g g1 : matches r s g g1 -> matches (Group r) s g (Some s)
| M_Boundary g : matches Boundary [] g g.

(** The character before the position reached after reading [s]. *)
Definition after (prev : option char) (s : str) : option char :=
  fold_left (fun _ c => Some c) s prev.

(** The shape "under", then neither digit nor newline, then digits. *)
Definition no_digit_no_newline (b : str) : Prop :=
  forallb (fun x => notnewline x && negb (isdecimal x)) b = true.

Definition no_digit_next (c : str) : Prop :=
  match c with [] => True | x :: _ => isdecimal x = false end.

(** The dearest product of the built-in catalogue. *)
Definition P5_fallback : Product :=
  {| p_id := lit "P5"; p_title := lit "Sequin Party Dress"; p_price := 149;
     p_tags := [lit "party"];
     p_sizes := [lit "S"; lit "M"]; p_color := lit "Black" |}.

(** The shape [TRACE_SCHEMA] asks of a JSON value, spelled out. *)
Definition str_array (v : json) : Prop :=
  exists l : list str, v = JArr (List.map JStr l).

Definition obj_array (v : json) : Prop :=
  exists l : list dict, v = JArr (List.map JObj l).

Definition decision_shape (v : json) : Prop :=
  v = JNull \/
  exists d, v = JObj d /\
            (exists b, dict_get d (lit "cancel_allowed") = Some (JBool b)) /\
            (forall x, dict_get d (lit "reason") = Some x ->
                       exists s, x = JStr s) /\
            (forall x, dict_get d (lit "alternatives") = Some x -> str_array x).

Definition trace_shape (j : json) : Prop :=
  exists d, j = JObj d /\
    (exists i, dict_get d (lit "intent") = Some (JStr i) /\
               In i [lit "product_assist"; lit "order_help"; lit "other"]) /\
    (exists v, dict_get d (lit "tools_called") = Some v /\ str_array v) /\
    (exists v, dict_get d (lit "evidence") = Some v /\ obj_array v) /\
    (exists v, dict_get d (lit "policy_decision") = Some v /\ decision_shape v) /\
    (exists s, dict_get d (lit "final_message") = Some (JStr s)).

(** One bullet line of the product reply, for a product. *)
Definition bullet_line (p : Product) : str :=
  [bullet] ++ lit " " ++ p_title p ++ lit " ($" ++ str_of_Z (p_price p) ++
  lit ", " ++ p_color p ++ lit ") - Available in " ++
  join (lit ", ") (p_sizes p) ++ nl.

Definition product_evidence (p : Product) : Evidence :=
  {| e_type := lit "product"; e_data := DProduct p |}.

Definition order_evidence (o : Order) : Evidence :=
  {| e_type := lit "order"; e_data := DOrder o |}.

(** [MockLLM.invoke]: the acknowledgement chosen by the words of the
    last message; [messages[-1]] on no message is an [IndexError]. *)
Definition MockLLM_invoke (messages : list str) : result str :=
  if nonempty messages then
    let user_message := lower (last messages []) in
    if existsb (contains user_message)
               [lit "wedding"; lit "dress"; lit "midi"; lit "product"] then
      Ok (lit "I'll help you find wedding dresses within your budget.")
    else if contains user_message (lit "cancel order") then
      Ok (lit "I'll look up your order and check our cancellation policy.")
    else if contains user_message (lit "discount code") then
      Ok (lit "I cannot provide non-existent discount codes, but I can suggest legitimate offers.")
    else
      Ok (lit "I'll help you with your request.")
  else Raise IndexError.

(** A store and a reference time whose timestamps can all be read. *)
Definition readable (s : str) : Prop := exists d, parse_utc s = Ok d.

Definition no_products_message : str :=
  lit "I couldn't find any products matching your criteria. Please try adjusting your price range or preferences.".

(** The reply to a cancellation that is blocked with the three fixed
    alternatives, around the message [m] of the decision. *)
Definition blocked_reply (m : str) : str :=
  m ++ nl ++ nl ++ lit "I can help you with these alternatives:" ++ nl ++
  lit "1. Update shipping address" ++ nl ++
  lit "2. Convert to store credit" ++ nl ++
  lit "3. Connect with customer support" ++ nl ++
  nl ++ lit "Which option would you prefer?".

(** The reply when both identifiers are read and no order carries them:
    the heading of the alternatives with nothing under it. *)
Definition order_not_found_reply : str :=
  lit "Order not found with provided ID and email" ++ nl ++ nl ++
  lit "I can help you with these alternatives:" ++ nl ++
  nl ++ lit "Which option would you prefer?".

Definition cancelled_message (order_id : str) : str :=
  lit "Order " ++ order_id ++
  lit " cancelled successfully. Refund will process in 3-5 business days.".

Definition too_late_message (hours_text : Z -> str) (time_diff : Z) : str :=
  lit "Order was placed " ++ hours_text time_diff ++
  lit " hours ago, beyond our 60-minute cancellation window.".

(** The query and the tags the collector searches with: "midi" within
    the tags wedding and midi when the text mentions one of the two
    words, no query and no tags otherwise. *)
Definition collector_query (text : str) : str :=
  if existsb (contains (lower text)) [lit "wedding"; lit "midi"]
  then lit "midi" else [].

Definition collector_tags (text : str) : list str :=
  if existsb (contains (lower text)) [lit "wedding"; lit "midi"]
  then [lit "wedding"; lit "midi"] else [].

(** The pattern of the specification, "under <integer>" whatever the
    case, read as generously as its words allow: the word "under", then
    characters that are neither letters nor digits (a blank, a currency
    sign), then the integer [n] in decimal digits. *)
Definition under_integer (text : str) (n : Z) : Prop :=
  exists a sep d c,
    lower text = a ++ lit "under" ++ sep ++ d ++ c /\
    forallb (fun x => negb (isword x)) sep = true /\
    d <> [] /\ forallb isdecimal d = true /\ no_digit_next c /\
    n = digits_value d.

(** A test that [under_integer] implies: somewhere "under" is followed,
    after characters that are neither letters nor digits, by a digit. *)
Fixpoint skip_nonword (s : str) : str :=
  match s with
  | x :: s' => if isword x then s else skip_nonword s'
  | [] => []
  end.

Definition digit_after_under (s : str) : bool :=
  startswith (lit "under") s &&
  match skip_nonword (skipn 5 s) with
  | x :: _ => isdecimal x
  | [] => false
  end.

Fixpoint under_integerb (s : str) : bool :=
  digit_after_under s ||
  match s with
  | [] => false
  | _ :: t => under_integerb t
  end.

(** The timestamp as [order_cancel] reads it, before the zone is
    overwritten. *)
Definition read_stamp (s : str) : result stamp :=
  fromisoformat (replace_char 90 (lit "+00:00") s).

(** The instant a timestamp denotes, in microseconds of UTC: its clock
    reading minus its offset.  A timestamp without zone is read as UTC,
    which is what the data files mean by theirs. *)
Definition utc_microseconds (d : stamp) : Z :=
  to_microseconds (wall d) -
  match utcoffset d with Some offset => offset | None => 0 end.

(** The time elapsed from one timestamp to a later one, in microseconds. *)
Definition elapsed_us (earlier later : stamp) : Z :=
  utc_microseconds later - utc_microseconds earlier.

(** A timestamp written in UTC: offset zero ("Z", "+00:00") or no zone. *)
Definition in_utc (d : stamp) : Prop :=
  utcoffset d = Some 0 \/ utcoffset d = None.

(** Order A1003 of the built-in orders. *)
Definition A1003_fallback : Order :=
  {| o_order_id := lit "A1003"; o_email := lit "mira@example.com";
     o_created_at := lit "2025-09-07T11:55:00Z";
     o_items := [ {| i_id := lit "P3"; i_size := lit "L" |} ] |}.

(** The value of a positive float against the dyadic number
    [M / 2^F]: at most, at least. *)
Definition below (x : binary64) (M F : Z) : Prop :=
  let '(m, e) := x in
  if 0 <=? e then m * 2 ^ e * 2 ^ F <= M else m * 2 ^ F <= M * 2 ^ (- e).

Definition above (x : binary64) (M F : Z) : Prop :=
  let '(m, e) := x in
  if 0 <=? e then M <= m * 2 ^ e * 2 ^ F else M * 2 ^ (- e) <= m * 2 ^ F.

(** [n / d >= 2^l], for an exponent of either sign. *)
Definition ratio_ge_pow (n d l : Z) : Prop :=
  if 0 <=? l then 2 ^ l * d <= n else d <= n * 2 ^ (- l).

(* ================================================================== *)
(** * Strings *)
(* ================================================================== *)

Arguments lit : simpl never.

Lemma char_eqb_eq (a b : char) : char_eqb a b = true <-> a = b.
Proof. unfold char_eqb. apply N.eqb_eq. Qed.

Lemma str_eqb_eq (a b : str) : str_eqb a b = true <-> a = b.
Proof.
  revert b. induction a as [|x a IH]; intros [|y b]; simpl; split;
    try congruence; try discriminate.
  - rewrite andb_true_iff, char_eqb_eq, IH. intros [-> ->]. reflexivity.
  - intros H. injection H as -> ->.
    rewrite andb_true_iff, char_eqb_eq, IH. auto.
Qed.

Lemma str_eqb_refl (a : str) : str_eqb a a = true.
Proof. apply str_eqb_eq. reflexivity. Qed.

Lemma str_eqb_neq (a b : str) : a <> b -> str_eqb a b = false.
Proof.
  intros H. destruct (str_eqb a b) eqn:E; [|reflexivity].
  apply str_eqb_eq in E. contradiction.
Qed.

Lemma startswith_spec (p s : str) :
  startswith p s = true <-> exists t, s = p ++ t.
Proof.
  revert s. induction p as [|x p IH]; intros s; simpl.
  - split; [intros _; exists s; reflexivity | reflexivity].
  - destruct s as [|y s].
    + split; [discriminate | intros [t H]; discriminate].
    + rewrite andb_true_iff, char_eqb_eq, IH. split.
      * intros [-> [t ->]]. exists t. reflexivity.
      * intros [t H]. injection H as -> ->. split; [reflexivity | eauto].
Qed.

Lemma contains_spec (hay needle : str) :
  contains hay needle = true <-> Substring needle hay.
Proof.
  unfold Substring. induction hay as [|c hay IH]; simpl.
  - rewrite orb_false_r, startswith_spec. split.
    + intros [t H]. exists [], t. exact H.
    + intros [a [b H]]. destruct a; [exists b; exact H | discriminate].
  - rewrite orb_true_iff, startswith_spec, IH. split.
    + intros [[t H] | [a [b H]]].
      * exists [], t. exact H.
      * exists (c :: a), b. simpl. rewrite H. reflexivity.
    + intros [a [b H]]. destruct a as [|x a].
      * left. exists b. exact H.
      * right. injection H as _ H. exists a, b. exact H.
Qed.

Lemma contains_false (hay needle : str) :
  contains hay needle = false <-> ~ Substring needle hay.
Proof.
  rewrite <- contains_spec. destruct (contains hay needle); split;
    congruence.
Qed.

Lemma mentions_spec (keywords : list str) (text : str) :
  existsb (contains (lower text)) keywords = true <-> mentions keywords text.
Proof.
  unfold mentions. rewrite existsb_exists. split.
  - intros [kw [Hin H]]. exists kw. rewrite <- contains_spec. auto.
  - intros [kw [Hin H]]. exists kw. rewrite contains_spec. auto.
Qed.

Lemma str_in_spec (x : str) (xs : list str) : str_in x xs = true <-> In x xs.
Proof.
  unfold str_in. rewrite existsb_exists. split.
  - intros [y [Hin H]]. apply str_eqb_eq in H. subst. exact Hin.
  - intros H. exists x. split; [exact H | apply str_eqb_refl].
Qed.

(* ================================================================== *)
(** * The intent classifier *)
(* ================================================================== *)

Lemma classify_unfold (text : str) :
  classify text =
  if existsb (contains (lower text)) product_keywords &&
     negb (contains (lower text) (lit "cancel")) then lit "product_assist"
  else if existsb (contains (lower text)) order_keywords then lit "order_help"
  else lit "other".
Proof. reflexivity. Qed.

(** C4.  [classify] answers [product_assist] exactly when the text
    mentions a product keyword and does not contain "cancel", otherwise
    [order_help] exactly when it mentions an order keyword, otherwise
    [other]; it is a total function with these three values, "cancel"
    next to a product keyword gives [order_help], and the empty text
    gives [other]. *)
Theorem classify_spec (text : str) :
  let product := mentions product_keywords text /\
                 ~ Substring (lit "cancel") (lower text) in
  (classify text = lit "product_assist" <-> product) /\
  (classify text = lit "order_help" <->
   ~ product /\ mentions order_keywords text) /\
  (classify text = lit "other" <->
   ~ product /\ ~ mentions order_keywords text) /\
  (mentions product_keywords text ->
   Substring (lit "cancel") (lower text) ->
   classify text = lit "order_help") /\
  classify [] = lit "other".
Proof.
  intros product. subst product.
  rewrite classify_unfold.
  rewrite <- (mentions_spec product_keywords), <- (mentions_spec order_keywords).
  rewrite <- contains_spec.
  assert (Hc : contains (lower text) (lit "cancel") = true ->
               existsb (contains (lower text)) order_keywords = true).
  { intros H. simpl. rewrite H. reflexivity. }
  assert (D1 : lit "product_assist" <> lit "order_help") by (vm_compute; discriminate).
  assert (D2 : lit "product_assist" <> lit "other") by (vm_compute; discriminate).
  assert (D3 : lit "order_help" <> lit "other") by (vm_compute; discriminate).
  destruct (existsb (contains (lower text)) product_keywords);
    destruct (contains (lower text) (lit "cancel"));
    [ specialize (Hc eq_refl) | clear Hc | specialize (Hc eq_refl) | clear Hc ];
    try (rewrite Hc; clear Hc);
    destruct (existsb (contains (lower text)) order_keywords);
    cbn [andb negb];
    repeat split; intros; try reflexivity; try discriminate;
    try congruence; try tauto;
    try (intuition (try discriminate; congruence)).
Qed.

(** C4, at an input: "Cancel my MIDI order" mentions "midi" and
    contains "cancel", so it is an order request. *)
Lemma classify_spec_witness :
  classify (lit "Cancel my MIDI order") = lit "order_help".
Proof.
  destruct (classify_spec (lit "Cancel my MIDI order")) as [_ [_ [_ [H _]]]].
  apply H.
  - apply mentions_spec. vm_compute. reflexivity.
  - apply contains_spec. vm_compute. reflexivity.
Defined.

(* ================================================================== *)
(** * Order lookup and the cancellation policy *)
(* ================================================================== *)

Lemma order_lookup_loop_Some (os : list Order) (order_id email : str) (o : Order) :
  order_lookup_loop os order_id email = Some o ->
  In o os /\ o_order_id o = order_id /\ o_email o = email.
Proof.
  induction os as [|x os IH]; simpl; [discriminate|].
  destruct (str_eqb (o_order_id x) order_id && str_eqb (o_email x) email) eqn:E.
  - intros H. injection H as ->.
    apply andb_true_iff in E. destruct E as [E1 E2].
    apply str_eqb_eq in E1. apply str_eqb_eq in E2. auto.
  - intros H. destruct (IH H) as [H1 H2]. auto.
Qed.

Lemma order_lookup_loop_None (os : list Order) (order_id email : str) :
  order_lookup_loop os order_id email = None <->
  forall o, In o os -> ~ (o_order_id o = order_id /\ o_email o = email).
Proof.
  induction os as [|x os IH]; simpl.
  - split; [intros _ o [] | reflexivity].
  - destruct (str_eqb (o_order_id x) order_id && str_eqb (o_email x) email) eqn:E.
    + apply andb_true_iff in E. destruct E as [E1 E2].
      apply str_eqb_eq in E1. apply str_eqb_eq in E2.
      split; [discriminate|]. intros H. exfalso. apply (H x); auto.
    + rewrite IH. split.
      * intros H o [<- | Hin]; [|apply H; exact Hin].
        intros [H1 H2]. rewrite H1, H2, !str_eqb_refl in E. discriminate.
      * intros H o Hin. apply H. right. exact Hin.
Qed.

Lemma order_lookup_found (self : CommerceTools) (order_id email : str) :
  (exists o, In o (orders self) /\ o_order_id o = order_id /\ o_email o = email) ->
  exists order, order_lookup self order_id email = Some order.
Proof.
  intros [o [Hin [H1 H2]]]. unfold order_lookup.
  destruct (order_lookup_loop (orders self) order_id email) eqn:E; [eauto|].
  exfalso. rewrite order_lookup_loop_None in E. apply (E o); auto.
Qed.

(* ================================================================== *)
(** * The float test of the cancellation window *)
(* ================================================================== *)

Lemma nearest_even_le (n d K : Z) :
  0 < d -> n <= K * d -> nearest_even n d <= K.
Proof.
  intros Hd H. unfold nearest_even.
  pose proof (Z.div_mod n d ltac:(lia)) as E.
  pose proof (Z.mod_pos_bound n d Hd) as B.
  assert (Q : n / d <= K) by (apply Z.div_le_upper_bound; lia).
  destruct ((d <? 2 * (n mod d)) || ((2 * (n mod d) =? d) && Z.odd (n / d)))
    eqn:C; [|exact Q].
  assert (n / d <> K); [|lia].
  intros EK. assert (R0 : n mod d = 0) by nia.
  rewrite R0 in C. apply orb_true_iff in C. destruct C as [C|C].
  - apply Z.ltb_lt in C. lia.
  - apply andb_true_iff in C. destruct C as [C _]. apply Z.eqb_eq in C. lia.
Qed.

Lemma nearest_even_ge (n d K : Z) :
  0 < d -> K * d <= n -> K <= nearest_even n d.
Proof.
  intros Hd H. unfold nearest_even.
  assert (Q : K <= n / d) by (apply Z.div_le_lower_bound; lia).
  destruct ((d <? 2 * (n mod d)) || ((2 * (n mod d) =? d) && Z.odd (n / d)));
    lia.
Qed.

Lemma pow2_pos (k : Z) : 0 <= k -> 0 < 2 ^ k.
Proof. intros. apply Z.pow_pos_nonneg; lia. Qed.

Lemma log_lower (n d : Z) :
  0 < n -> 0 < d ->
  let l := Z.log2 n - Z.log2 d in
  let '(n1, d1) := scale2 n d l in
  ratio_ge_pow n d (if n1 <? d1 then l - 1 else l).
Proof.
  intros Hn Hd l.
  pose proof (Z.log2_spec n Hn) as [An _].
  pose proof (Z.log2_spec d Hd) as [_ Bd].
  pose proof (Z.log2_nonneg n) as Ln. pose proof (Z.log2_nonneg d) as Ld.
  unfold scale2, ratio_ge_pow.
  destruct (0 <=? l) eqn:L0.
  - pose proof L0 as L0b. apply Z.leb_le in L0.
    destruct (n <? d * 2 ^ l) eqn:C.
    + (* l - 1 *)
      destruct (0 <=? l - 1) eqn:L1.
      * apply Z.leb_le in L1.
        (* 2^(l-1) d <= n: d < 2^(b+1), n >= 2^a, a = b + l *)
        assert (E : Z.log2 n = Z.log2 d + 1 + (l - 1)) by (unfold l; lia).
        rewrite E in An. rewrite Z.pow_add_r in An by lia.
        rewrite Z.pow_succ_r in Bd by lia.
        rewrite Z.pow_add_r in An by lia.
        pose proof (pow2_pos (l - 1) L1). pose proof (pow2_pos (Z.log2 d) Ld).
        nia.
      * apply Z.leb_gt in L1. assert (l = 0) by lia.
        replace (- (l - 1)) with 1 by lia.
        assert (E : Z.log2 n = Z.log2 d) by (unfold l in *; lia).
        rewrite E in An. rewrite Z.pow_succ_r in Bd by lia.
        change (2 ^ 1) with 2. lia.
    + apply Z.ltb_ge in C. rewrite L0b. lia.
  - pose proof L0 as L0b. apply Z.leb_gt in L0.
    destruct (n * 2 ^ (- l) <? d) eqn:C.
    + assert (L1 : (0 <=? l - 1) = false) by (apply Z.leb_gt; lia).
      rewrite L1.
      replace (- (l - 1)) with (- l + 1) by lia.
      rewrite Z.pow_add_r by lia. change (2 ^ 1) with 2.
      assert (E : Z.log2 d = Z.log2 n + - l) by (unfold l in *; lia).
      rewrite E in Bd. rewrite Z.pow_succ_r in Bd by lia.
      rewrite Z.pow_add_r in Bd by lia.
      pose proof (pow2_pos (- l) ltac:(lia)).
      pose proof (pow2_pos (Z.log2 n) Ln). nia.
    + apply Z.ltb_ge in C. rewrite L0b. exact C.
Qed.

(** The scaled fraction at exponent [l - 52] is at least [2^52]. *)
Lemma scaled_lower (n d l : Z) :
  0 < n -> 0 < d -> ratio_ge_pow n d l ->
  let '(n2, d2) := scale2 n d (l - 52) in 0 < d2 /\ 2 ^ 52 * d2 <= n2.
Proof.
  intros Hn Hd. unfold ratio_ge_pow, scale2.
  destruct (0 <=? l - 52) eqn:E.
  - apply Z.leb_le in E. assert (L : (0 <=? l) = true) by (apply Z.leb_le; lia).
    rewrite L. intros H. pose proof (pow2_pos (l - 52) E). split; [nia|].
    replace l with (52 + (l - 52)) in H at 1 by lia.
    rewrite Z.pow_add_r in H by lia. lia.
  - apply Z.leb_gt in E. destruct (0 <=? l) eqn:L.
    + apply Z.leb_le in L. intros H. split; [lia|].
      replace 52 with (l + - (l - 52)) at 1 by lia.
      rewrite Z.pow_add_r by lia.
      pose proof (pow2_pos (- (l - 52)) ltac:(lia)). nia.
    + apply Z.leb_gt in L. intros H. split; [lia|].
      replace (- (l - 52)) with (52 + - l) by lia.
      rewrite Z.pow_add_r by lia. pose proof (pow2_pos 52 ltac:(lia)). nia.
Qed.

Lemma float_of_ratio_facts (n d : Z) :
  0 < n -> 0 < d ->
  exists e n2 d2,
    scale2 n d e = (n2, d2) /\
    float_of_ratio n d = (nearest_even n2 d2, e) /\
    0 < d2 /\ 2 ^ 52 * d2 <= n2.
Proof.
  intros Hn Hd. unfold float_of_ratio.
  pose proof (log_lower n d Hn Hd) as L. cbv zeta in L.
  destruct (scale2 n d (Z.log2 n - Z.log2 d)) as [n1 d1].
  set (l := if n1 <? d1 then Z.log2 n - Z.log2 d - 1
            else Z.log2 n - Z.log2 d) in *.
  pose proof (scaled_lower n d l Hn Hd L) as S.
  destruct (scale2 n d (l - 52)) as [n2 d2] eqn:E.
  exists (l - 52), n2, d2. auto.
Qed.

Lemma float_of_ratio_pos (n d : Z) :
  0 < n -> 0 < d -> 2 ^ 52 <= fst (float_of_ratio n d).
Proof.
  intros Hn Hd.
  destruct (float_of_ratio_facts n d Hn Hd) as [e [n2 [d2 [_ [-> [H1 H2]]]]]].
  cbn [fst]. apply nearest_even_ge; assumption.
Qed.

Lemma pow2_ge_2 (k : Z) : 1 <= k -> 2 <= 2 ^ k.
Proof.
  intros H. replace k with (1 + (k - 1)) by lia.
  rewrite Z.pow_add_r by lia. change (2 ^ 1) with 2.
  pose proof (pow2_pos (k - 1) ltac:(lia)). lia.
Qed.

Lemma pow2_is_1 (a b : Z) : 0 <= a -> 0 <= b -> 2 ^ a * 2 ^ b < 2 -> 2 ^ a = 1 /\ 2 ^ b = 1.
Proof.
  intros Ha Hb H.
  pose proof (pow2_pos a Ha). pose proof (pow2_pos b Hb).
  nia.
Qed.

(** The double nearest to a ratio does not pass a double: rounding is
    monotone. *)
Lemma float_of_ratio_below (n d M F : Z) :
  0 < n -> 0 < d -> 0 <= F -> 0 < M < 2 ^ 53 ->
  n * 2 ^ F <= d * M -> below (float_of_ratio n d) M F.
Proof.
  intros Hn Hd HF HM H.
  destruct (float_of_ratio_facts n d Hn Hd) as [e [n2 [d2 [S [-> [D2 LB]]]]]].
  unfold below. unfold scale2 in S. pose proof (pow2_pos F HF) as PF.
  assert (P53 : 2 ^ 53 = 2 * 2 ^ 52) by reflexivity.
  destruct (0 <=? e) eqn:E.
  - apply Z.leb_le in E. injection S as <- <-.
    pose proof (pow2_pos e E) as Pe.
    assert (X : 2 ^ e * 2 ^ F < 2) by nia.
    destruct (pow2_is_1 e F E HF X) as [E1 F1].
    rewrite E1, F1 in *.
    assert (nearest_even n (d * 1) <= M); [|lia].
    apply nearest_even_le; lia.
  - apply Z.leb_gt in E. injection S as <- <-.
    pose proof (pow2_pos (- e) ltac:(lia)) as Pe.
    destruct (Z.le_gt_cases F (- e)) as [C|C].
    + assert (Q : 2 ^ (- e) = 2 ^ F * 2 ^ (- e - F))
        by (rewrite <- Z.pow_add_r by lia; f_equal; lia).
      pose proof (pow2_pos (- e - F) ltac:(lia)) as PQ.
      assert (nearest_even (n * 2 ^ (- e)) d <= M * 2 ^ (- e - F)).
      { apply nearest_even_le; [lia|]. rewrite Q. nia. }
      transitivity (M * 2 ^ (- e - F) * 2 ^ F);
        [apply Z.mul_le_mono_nonneg_r; lia | rewrite Q; lia].
    + exfalso.
      assert (Q : 2 ^ F = 2 ^ (- e) * 2 ^ (F + e))
        by (rewrite <- Z.pow_add_r by lia; f_equal; lia).
      pose proof (pow2_ge_2 (F + e) ltac:(lia)) as PQ.
      rewrite Q in H. nia.
Qed.

Lemma float_of_ratio_above (n d M F : Z) :
  0 < n -> 0 < d -> 0 <= F -> 0 < M < 2 ^ 53 ->
  d * M <= n * 2 ^ F -> above (float_of_ratio n d) M F.
Proof.
  intros Hn Hd HF HM H.
  destruct (float_of_ratio_facts n d Hn Hd) as [e [n2 [d2 [S [-> [D2 LB]]]]]].
  pose proof (nearest_even_ge n2 d2 (2 ^ 52) D2 LB) as M52.
  unfold above. unfold scale2 in S. pose proof (pow2_pos F HF) as PF.
  assert (P53 : 2 ^ 53 = 2 * 2 ^ 52) by reflexivity.
  destruct (0 <=? e) eqn:E.
  - apply Z.leb_le in E. injection S as <- <-.
    pose proof (pow2_pos e E) as Pe.
    destruct (Z.lt_ge_cases (2 ^ e * 2 ^ F) 2) as [X|X].
    + destruct (pow2_is_1 e F E HF X) as [E1 F1].
      rewrite E1, F1 in *.
      assert (M <= nearest_even n (d * 1)); [|lia].
      apply nearest_even_ge; lia.
    + nia.
  - apply Z.leb_gt in E. injection S as <- <-.
    pose proof (pow2_pos (- e) ltac:(lia)) as Pe.
    destruct (Z.le_gt_cases F (- e)) as [C|C].
    + assert (Q : 2 ^ (- e) = 2 ^ F * 2 ^ (- e - F))
        by (rewrite <- Z.pow_add_r by lia; f_equal; lia).
      pose proof (pow2_pos (- e - F) ltac:(lia)) as PQ.
      assert (M * 2 ^ (- e - F) <= nearest_even (n * 2 ^ (- e)) d).
      { apply nearest_even_ge; [lia|]. rewrite Q. nia. }
      transitivity (M * 2 ^ (- e - F) * 2 ^ F);
        [rewrite Q; lia | apply Z.mul_le_mono_nonneg_r; lia].
    + assert (Q : 2 ^ F = 2 ^ (- e) * 2 ^ (F + e))
        by (rewrite <- Z.pow_add_r by lia; f_equal; lia).
      pose proof (pow2_ge_2 (F + e) ltac:(lia)) as PQ.
      rewrite Q. nia.
Qed.

(** The test of the source is the comparison of the exact difference
    with sixty minutes. *)
Lemma within_sixty_minutes_exact (us : Z) :
  within_sixty_minutes us = (us <=? sixty_minutes).
Proof.
  unfold within_sixty_minutes, sixty_minutes.
  destruct (us <=? 0) eqn:E0.
  - apply Z.leb_le in E0. symmetry. apply Z.leb_le. lia.
  - apply Z.leb_gt in E0. unfold minutes_float.
    pose proof (float_of_ratio_pos us 1000000 E0 ltac:(lia)) as P1.
    assert (P52 : 0 < 2 ^ 52) by reflexivity.
    destruct (us <=? 60 * 60000000) eqn:E.
    + apply Z.leb_le in E.
      pose proof (float_of_ratio_below us 1000000 3600 0 E0 ltac:(lia)
                    ltac:(lia) ltac:(split; reflexivity)) as B1.
      change (2 ^ 0) with 1 in B1. specialize (B1 ltac:(lia)).
      destruct (float_of_ratio us 1000000) as [m1 e1]. cbn [fst] in P1.
      unfold below in B1. unfold float_div.
      destruct (0 <=? e1) eqn:E1.
      * apply Z.leb_le in E1. pose proof (pow2_pos e1 E1).
        pose proof (float_of_ratio_below (m1 * 2 ^ e1) 60 60 0 ltac:(nia)
                      ltac:(lia) ltac:(lia) ltac:(split; reflexivity)) as B2.
        change (2 ^ 0) with 1 in B2. specialize (B2 ltac:(lia)).
        destruct (float_of_ratio (m1 * 2 ^ e1) 60) as [m2 e2].
        unfold below in B2. unfold float_leb.
        destruct (0 <=? e2); apply Z.leb_le; lia.
      * apply Z.leb_gt in E1. pose proof (pow2_pos (- e1) ltac:(lia)).
        pose proof (float_of_ratio_below m1 (60 * 2 ^ (- e1)) 60 0 ltac:(lia)
                      ltac:(lia) ltac:(lia) ltac:(split; reflexivity)) as B2.
        change (2 ^ 0) with 1 in B2. specialize (B2 ltac:(lia)).
        destruct (float_of_ratio m1 (60 * 2 ^ (- e1))) as [m2 e2].
        unfold below in B2. unfold float_leb.
        destruct (0 <=? e2); apply Z.leb_le; lia.
    + apply Z.leb_gt in E.
      assert (V30 : 2 ^ 30 = 1073741824) by reflexivity.
      assert (V36 : 2 ^ 36 = 64 * 2 ^ 30) by reflexivity.
      pose proof (float_of_ratio_above us 1000000 (3600 * 2 ^ 30 + 1) 30 E0
                    ltac:(lia) ltac:(lia) ltac:(split; reflexivity)
                    ltac:(lia)) as A1.
      destruct (float_of_ratio us 1000000) as [m1 e1]. cbn [fst] in P1.
      unfold above in A1. unfold float_div.
      destruct (0 <=? e1) eqn:E1.
      * apply Z.leb_le in E1. pose proof (pow2_pos e1 E1).
        pose proof (float_of_ratio_above (m1 * 2 ^ e1) 60 (60 * 2 ^ 36 + 1) 36
                      ltac:(nia) ltac:(lia) ltac:(lia)
                      ltac:(split; reflexivity) ltac:(lia)) as A2.
        destruct (float_of_ratio (m1 * 2 ^ e1) 60) as [m2 e2].
        unfold above in A2. unfold float_leb. rewrite V36, V30 in *.
        destruct (0 <=? e2) eqn:E2; apply Z.leb_gt; [lia|].
        apply Z.leb_gt in E2. pose proof (pow2_pos (- e2) ltac:(lia)). lia.
      * apply Z.leb_gt in E1. pose proof (pow2_pos (- e1) ltac:(lia)).
        pose proof (float_of_ratio_above m1 (60 * 2 ^ (- e1)) (60 * 2 ^ 36 + 1)
                      36 ltac:(lia) ltac:(lia) ltac:(lia)
                      ltac:(split; reflexivity) ltac:(lia)) as A2.
        destruct (float_of_ratio m1 (60 * 2 ^ (- e1))) as [m2 e2].
        unfold above in A2. unfold float_leb. rewrite V36, V30 in *.
        destruct (0 <=? e2) eqn:E2; apply Z.leb_gt; [lia|].
        apply Z.leb_gt in E2. pose proof (pow2_pos (- e2) ltac:(lia)). lia.
Qed.

Lemma order_cancel_not_found CURRENT_TIME hours_text self order_id email now :
  order_lookup self order_id email = None ->
  order_cancel CURRENT_TIME hours_text self order_id email now =
  Ok order_not_found_result.
Proof. intros H. unfold order_cancel. rewrite H. reflexivity. Qed.

(** [parse_utc] is the reading of the timestamp with its zone dropped. *)
Lemma parse_utc_read (s : str) (d : datetime) :
  parse_utc s = Ok d <-> exists a, read_stamp s = Ok a /\ wall a = d.
Proof.
  unfold parse_utc, read_stamp, replace_tzinfo_utc.
  destruct (fromisoformat _) as [a|e]; cbn [bind]; split.
  - intros H. injection H as <-. eauto.
  - intros [a' [H <-]]. injection H as ->. reflexivity.
  - discriminate.
  - intros [a' [H _]]. discriminate.
Qed.

(** Between two timestamps written in UTC, the difference of the clock
    readings is the time elapsed; in general the two differ by the
    difference of the offsets. *)
Lemma elapsed_in_utc (c n : stamp) :
  in_utc c -> in_utc n -> timedelta_us (wall n) (wall c) = elapsed_us c n.
Proof.
  unfold in_utc, elapsed_us, utc_microseconds, timedelta_us.
  intros [-> | ->] [-> | ->]; lia.
Qed.

(** C1.  [order_cancel] does not go by the time elapsed when a
    timestamp carries a UTC offset: the offset is dropped, not applied.
    Order A1003 of the built-in orders was placed at 11:55 UTC.  Asked
    at 13:55+01:00, sixty minutes later to the second, the cancellation
    is refused as a policy violation with the three alternatives (the
    clock readings are 120 minutes apart); asked at 12:30-05:00, 335
    minutes later, it is allowed (the clock readings are 35 minutes
    apart).  This holds whatever [CURRENT_TIME] is set to. *)
Theorem order_cancel_drops_utc_offset
        (CURRENT_TIME : option str) (hours_text : Z -> str) :
  let cancel_at now :=
    order_cancel CURRENT_TIME hours_text commerce_tools_fallback
                 (lit "A1003") (lit "mira@example.com") (Some now) in
  order_lookup commerce_tools_fallback (lit "A1003") (lit "mira@example.com")
    = Some A1003_fallback /\
  (exists created now r,
      read_stamp (o_created_at A1003_fallback) = Ok created /\
      read_stamp (lit "2025-09-07T13:55:00+01:00") = Ok now /\
      elapsed_us created now = sixty_minutes /\
      cancel_at (lit "2025-09-07T13:55:00+01:00") = Ok r /\
      success r = false /\ reason r = lit "policy_violation" /\
      alternatives r = Some fixed_alternatives) /\
  (exists created now r,
      read_stamp (o_created_at A1003_fallback) = Ok created /\
      read_stamp (lit "2025-09-07T12:30:00-05:00") = Ok now /\
      elapsed_us created now = 335 * 60000000 /\
      cancel_at (lit "2025-09-07T12:30:00-05:00") = Ok r /\
      success r = true /\ reason r = lit "within_policy").
Proof.
  intros cancel_at. subst cancel_at.
  split; [vm_compute; reflexivity|]. split.
  - eexists. eexists. eexists.
    split; [vm_compute; reflexivity|].
    split; [vm_compute; reflexivity|].
    split; [vm_compute; reflexivity|].
    split; [vm_compute; reflexivity|].
    repeat split.
  - eexists. eexists. eexists.
    split; [vm_compute; reflexivity|].
    split; [vm_compute; reflexivity|].
    split; [vm_compute; reflexivity|].
    split; [vm_compute; reflexivity|].
    repeat split.
Qed.

(** C6.  An id that exists in the store, given with an email it is not
    paired with, is answered exactly as an id no order has: the lookup
    finds nothing and the cancellation is the same [order_not_found]
    decision with the same message, whatever the reference times. *)
Theorem wrong_email_indistinguishable
        (CURRENT_TIME : option str) (hours_text : Z -> str)
        (self : CommerceTools) (order_id email : str) (now : option str)
        (unknown_id other_email : str) (other_now : option str) :
  (exists o, In o (orders self) /\ o_order_id o = order_id) ->
  (forall o, In o (orders self) -> o_order_id o = order_id -> o_email o <> email) ->
  (forall o, In o (orders self) -> o_order_id o <> unknown_id) ->
  order_lookup self order_id email = None /\
  order_lookup self order_id email = order_lookup self unknown_id other_email /\
  order_cancel CURRENT_TIME hours_text self order_id email now =
    Ok order_not_found_result /\
  order_cancel CURRENT_TIME hours_text self order_id email now =
    order_cancel CURRENT_TIME hours_text self unknown_id other_email other_now.
Proof.
  intros _ Hwrong Hunknown.
  assert (E1 : order_lookup self order_id email = None).
  { apply order_lookup_loop_None. intros o Hin [H1 H2].
    exact (Hwrong o Hin H1 H2). }
  assert (E2 : order_lookup self unknown_id other_email = None).
  { apply order_lookup_loop_None. intros o Hin [H1 _].
    exact (Hunknown o Hin H1). }
  repeat split.
  - exact E1.
  - rewrite E1, E2. reflexivity.
  - apply order_cancel_not_found. exact E1.
  - rewrite !order_cancel_not_found by assumption. reflexivity.
Qed.

Lemma In_fallback_orders (P : Order -> Prop) :
  Forall P fallback_orders -> forall o, In o (orders commerce_tools_fallback) -> P o.
Proof. intros H o Hin. rewrite Forall_forall in H. apply H. exact Hin. Qed.

(** C6, at an input: A1001 belongs to rehan@example.com; asked with
    alex@example.com it is answered as the unknown Z9999 is. *)
Lemma wrong_email_indistinguishable_witness :
  order_cancel None decimal1_hours commerce_tools_fallback
               (lit "A1001") (lit "alex@example.com") None =
  order_cancel None decimal1_hours commerce_tools_fallback
               (lit "Z9999") (lit "alex@example.com") None.
Proof.
  apply (wrong_email_indistinguishable None decimal1_hours
           commerce_tools_fallback (lit "A1001") (lit "alex@example.com") None
           (lit "Z9999") (lit "alex@example.com") None).
  - eexists. split; [left; reflexivity | reflexivity].
  - apply (In_fallback_orders
             (fun o => o_order_id o = lit "A1001" ->
                       o_email o <> lit "alex@example.com")).
    repeat constructor; vm_compute; intros; discriminate.
  - apply (In_fallback_orders (fun o => o_order_id o <> lit "Z9999")).
    repeat constructor; vm_compute; intros; discriminate.
Defined.

(* ================================================================== *)
(** * The delivery estimate *)
(* ================================================================== *)

Lemma int_of_str_digits (s : str) :
  s <> [] -> forallb isdecimal s = true ->
  (List.length s <= int_max_str_digits)%nat ->
  int_of_str s = Ok (digits_value s).
Proof.
  intros Hne Hall Hlen. unfold int_of_str. rewrite Hall.
  apply Nat.leb_le in Hlen. rewrite Hlen.
  destruct s; [contradiction | reflexivity].
Qed.

Lemma int_of_str_too_long (s : str) :
  (int_max_str_digits < List.length s)%nat -> int_of_str s = Raise ValueError.
Proof.
  intros Hlen. unfold int_of_str. apply Nat.leb_gt in Hlen. rewrite Hlen.
  rewrite andb_false_r. destruct s; reflexivity.
Qed.

Lemma isdecimal_isdigit (c : char) : isdecimal c = true -> isdigit c = true.
Proof. unfold isdigit, isdecimal. intros ->. reflexivity. Qed.

Lemma filter_isdigit_decimal (s : str) :
  (forall c, In c s -> isdigit c = true -> isdecimal c = true) ->
  filter isdigit s = filter isdecimal s.
Proof.
  induction s as [|c s IH]; intros H; simpl; [reflexivity|].
  rewrite IH by (intros x Hx; apply H; right; exact Hx).
  destruct (isdigit c) eqn:E1.
  - rewrite (H c (or_introl eq_refl) E1). reflexivity.
  - destruct (isdecimal c) eqn:E2; [|reflexivity].
    apply isdecimal_isdigit in E2. congruence.
Qed.

Lemma forallb_firstn {A} (f : A -> bool) (n : nat) (l : list A) :
  forallb f l = true -> forallb f (firstn n l) = true.
Proof.
  revert l. induction n as [|n IH]; intros [|x l]; simpl; auto.
  rewrite !andb_true_iff. intros [H1 H2]. auto.
Qed.

Lemma forallb_repeat {A} (f : A -> bool) (x : A) (n : nat) :
  f x = true -> forallb f (repeat x n) = true.
Proof. intros H. induction n; simpl; [reflexivity | rewrite H; exact IHn]. Qed.

Lemma forallb_filter_same {A} (f : A -> bool) (l : list A) :
  forallb f (filter f l) = true.
Proof.
  induction l as [|x l IH]; simpl; [reflexivity|].
  destruct (f x) eqn:E; simpl; [rewrite E|]; exact IH.
Qed.

(** What [eta] does on the inputs whose digits are all decimal digits:
    it returns, and the estimate is chosen by the first six digits,
    padded with zeros. *)
Lemma eta_decimal (zip_code : str) :
  (forall c, In c zip_code -> isdigit c = true -> isdecimal c = true) ->
  let zip_digits := filter isdecimal zip_code in
  let zip_int := digits_value (ljust 6 48 (slice_to 6 zip_digits)) in
  eta zip_code =
  Ok (if negb (nonempty zip_digits) then lit "3-4 business days"
      else if zip_int <? 400000 then lit "3-4 business days"
      else if zip_int <? 600000 then lit "2-3 business days"
      else lit "4-5 business days").
Proof.
  intros H zip_digits zip_int. unfold eta.
  rewrite (filter_isdigit_decimal _ H). fold zip_digits.
  destruct (nonempty zip_digits) eqn:Hne; cbn [negb]; [|reflexivity].
  rewrite int_of_str_digits.
  - cbn [bind]. fold zip_int.
    destruct (zip_int <? 400000); [reflexivity|].
    destruct (zip_int <? 600000); reflexivity.
  - unfold ljust, slice_to. destruct zip_digits; [discriminate|].
    simpl. discriminate.
  - unfold ljust, slice_to. rewrite forallb_app.
    rewrite forallb_firstn by apply forallb_filter_same.
    rewrite forallb_repeat by reflexivity. reflexivity.
  - unfold ljust, slice_to, int_max_str_digits.
    rewrite length_app, repeat_length.
    pose proof (firstn_le_length 6 zip_digits). lia.
Qed.

(** C10.  [eta] does raise: the superscript two (U+00B2) passes
    [str.isdigit], so it is kept and padded to "²00000", which [int]
    refuses with a [ValueError]. *)
Theorem eta_superscript_digit_raises :
  isdigit superscript_two = true /\
  eta [superscript_two] = Raise ValueError.
Proof. split; vm_compute; reflexivity. Qed.

(* ================================================================== *)
(** * The responder: the trace carries the reply *)
(* ================================================================== *)

Lemma bind_Ok {A B} (m : result A) (f : A -> result B) (b : B) :
  bind m f = Ok b -> exists a, m = Ok a /\ f a = Ok b.
Proof. destruct m as [a|e]; simpl; [eauto | discriminate]. Qed.

Lemma responder_final_message (state : CommerceState) (upd : ResponderUpdate) :
  responder_node state = Ok upd ->
  t_final_message (upd_trace upd) = upd_final_message upd /\
  t_intent (upd_trace upd) = intent state /\
  t_tools_called (upd_trace upd) = tools_called state /\
  t_evidence (upd_trace upd) = List.map trace_evidence (evidence state) /\
  t_policy_decision (upd_trace upd) = policy_decision state.
Proof.
  unfold responder_node. intros H.
  apply bind_Ok in H. destruct H as [m [_ H]].
  injection H as <-. cbn. auto.
Qed.

(** The shape of a run that returns: the five nodes in a row. *)
Lemma run_agent_Ok CURRENT_TIME hours_text commerce_tools text out :
  run_agent CURRENT_TIME hours_text commerce_tools text = Ok out ->
  let s1 := {| messages := [text]; intent := classify text;
               tools_called := []; evidence := [];
               policy_decision := None; final_message := [];
               trace := None |} in
  let s2 := {| messages := [text]; intent := classify text;
               tools_called := tool_selector_node s1; evidence := [];
               policy_decision := None; final_message := [];
               trace := None |} in
  exists ev pd upd,
    execute_tools_node commerce_tools s2 = Ok ev /\
    policy_guard_node CURRENT_TIME hours_text commerce_tools
      {| messages := [text]; intent := classify text;
         tools_called := tool_selector_node s1; evidence := ev;
         policy_decision := None; final_message := [];
         trace := None |} = Ok pd /\
    responder_node
      {| messages := [text]; intent := classify text;
         tools_called := tool_selector_node s1; evidence := ev;
         policy_decision := pd; final_message := [];
         trace := None |} = Ok upd /\
    out = {| out_trace := Some (upd_trace upd);
             out_final_message := upd_final_message upd |}.
Proof.
  unfold run_agent, invoke. intros H.
  apply bind_Ok in H. destruct H as [r [H Hout]].
  apply bind_Ok in H. destruct H as [ev [Hev H]].
  apply bind_Ok in H. destruct H as [pd [Hpd H]].
  apply bind_Ok in H. destruct H as [upd [Hupd H]].
  injection H as <-. injection Hout as <-.
  exists ev, pd, upd. cbn in *. auto.
Qed.


(* ================================================================== *)
(** * Product search *)
(* ================================================================== *)

Lemma nonempty_spec {A} (l : list A) : nonempty l = true <-> l <> [].
Proof. destruct l; simpl; split; congruence. Qed.

Lemma shared_tag_spec (tags ptags : list str) :
  existsb (fun t => str_in t ptags) tags = true <->
  exists t, In t tags /\ In t ptags.
Proof.
  rewrite existsb_exists. split; intros [t [H1 H2]]; exists t;
    (split; [exact H1 | apply str_in_spec; exact H2]).
Qed.

Lemma query_in_tags_spec (q : str) (ptags : list str) :
  existsb (fun t => contains (lower t) q) ptags = true <->
  exists t, In t ptags /\ Substring q (lower t).
Proof.
  rewrite existsb_exists. split; intros [t [H1 H2]]; exists t;
    (split; [exact H1 | apply contains_spec; exact H2]).
Qed.

(** The test of the loop is the filter of the specification. *)
Lemma matchesb_spec (query : str) (price_max : Z) (tags : list str) (p : Product) :
  matchesb query price_max tags p = true <-> matches_spec query price_max tags p.
Proof.
  unfold matchesb, matches_spec.
  rewrite !andb_true_iff, !orb_true_iff, negb_true_iff, Z.leb_le.
  rewrite shared_tag_spec, query_in_tags_spec, contains_spec.
  rewrite negb_true_iff.
  assert (Ht : nonempty tags = false <-> tags = []) by (destruct tags; simpl; split; congruence).
  assert (Hq : nonempty query = false <-> query = []) by (destruct query; simpl; split; congruence).
  rewrite Ht, Hq. split.
  - intros [[H1 H2] H3]. split; [exact H1|]. split.
    + intros Hne. destruct H2 as [H2|H2]; [contradiction | exact H2].
    + intros Hne. destruct H3 as [[H3|H3]|H3]; [contradiction | auto | auto].
  - intros [H1 [H2 H3]]. split; [split; [exact H1|]|].
    + destruct tags; [left; reflexivity | right; apply H2; discriminate].
    + destruct query as [|c q]; [left; left; reflexivity|].
      destruct H3 as [H3|H3]; [discriminate | auto | auto].
Qed.

(** The loop with its three [continue]s is a filter. *)
Lemma product_search_loop_filter (query : str) (price_max : Z) (tags : list str)
      (ps results : list Product) :
  product_search_loop query (lower query) price_max tags ps results =
  results ++ filter (matchesb query price_max tags) ps.
Proof.
  revert results. induction ps as [|p ps IH]; intros results; simpl.
  - rewrite app_nil_r. reflexivity.
  - unfold matchesb at 1.
    rewrite Z.gtb_ltb, Z.ltb_antisym.
    destruct (p_price p <=? price_max); cbn [negb andb]; [|apply IH].
    destruct (nonempty tags &&
              negb (existsb (fun tag => str_in tag (p_tags p)) tags)) eqn:Et.
    + apply andb_true_iff in Et. destruct Et as [-> Et].
      apply negb_true_iff in Et. rewrite Et. cbn [negb orb andb]. apply IH.
    + assert (Et' : negb (nonempty tags) ||
                    existsb (fun t => str_in t (p_tags p)) tags = true).
      { destruct (nonempty tags); cbn in *; [|reflexivity].
        apply negb_false_iff in Et. exact Et. }
      rewrite Et'. cbn [andb].
      destruct (nonempty query); cbn [negb orb andb].
      * destruct (contains (lower (p_title p)) (lower query) ||
                  existsb (fun tag => contains (lower tag) (lower query)) (p_tags p));
          cbn [negb]; rewrite IH; [rewrite <- app_assoc|]; reflexivity.
      * rewrite IH, <- app_assoc. reflexivity.
Qed.

Lemma price_le_trans (a b c : Product) : price_le a b -> price_le b c -> price_le a c.
Proof. unfold price_le. lia. Qed.

Lemma insert_by_price_perm (x : Product) (l : list Product) :
  Permutation (insert_by_price x l) (x :: l).
Proof.
  induction l as [|y l IH]; simpl; [reflexivity|].
  destruct (p_price x <=? p_price y); [reflexivity|].
  rewrite IH. apply perm_swap.
Qed.

Lemma sorted_by_price_perm (l : list Product) : Permutation (sorted_by_price l) l.
Proof.
  induction l as [|x l IH]; simpl; [reflexivity|].
  rewrite insert_by_price_perm, IH. reflexivity.
Qed.

Lemma insert_by_price_sorted (x : Product) (l : list Product) :
  StronglySorted price_le l -> StronglySorted price_le (insert_by_price x l).
Proof.
  induction l as [|y l IH]; intros H; simpl.
  - constructor; constructor.
  - inversion H as [|? ? Hs Hall]; subst.
    destruct (p_price x <=? p_price y) eqn:E.
    + apply Z.leb_le in E. constructor; [exact H|].
      constructor; [exact E|].
      eapply Forall_impl; [|exact Hall]. intros z Hz.
      eapply price_le_trans; [exact E | exact Hz].
    + apply Z.leb_gt in E. constructor; [apply IH; exact Hs|].
      rewrite insert_by_price_perm. constructor; [unfold price_le; lia | exact Hall].
Qed.

Lemma sorted_by_price_sorted (l : list Product) :
  StronglySorted price_le (sorted_by_price l).
Proof.
  induction l as [|x l IH]; simpl; [constructor|].
  apply insert_by_price_sorted. exact IH.
Qed.

(** The sort is stable: products of one price keep their order. *)
Lemma insert_by_price_stable (v : Z) (x : Product) (l : list Product) :
  filter (fun p => p_price p =? v) (insert_by_price x l) =
  filter (fun p => p_price p =? v) (x :: l).
Proof.
  induction l as [|y l IH]; [reflexivity|].
  cbn [insert_by_price].
  destruct (p_price x <=? p_price y) eqn:E; [reflexivity|].
  apply Z.leb_gt in E.
  cbn [filter] in *. rewrite IH.
  destruct (p_price x =? v) eqn:Ex; destruct (p_price y =? v) eqn:Ey;
    try reflexivity.
  apply Z.eqb_eq in Ex. apply Z.eqb_eq in Ey. lia.
Qed.

Lemma sorted_by_price_stable (v : Z) (l : list Product) :
  filter (fun p => p_price p =? v) (sorted_by_price l) =
  filter (fun p => p_price p =? v) l.
Proof.
  induction l as [|x l IH]; [reflexivity|].
  cbn [sorted_by_price]. rewrite insert_by_price_stable.
  cbn [filter]. rewrite IH. reflexivity.
Qed.

Lemma In_firstn {A} (n : nat) (l : list A) (x : A) : In x (firstn n l) -> In x l.
Proof.
  intros H. rewrite <- (firstn_skipn n l). apply in_or_app. left. exact H.
Qed.

Lemma In_skipn {A} (n : nat) (l : list A) (x : A) : In x (skipn n l) -> In x l.
Proof.
  intros H. rewrite <- (firstn_skipn n l). apply in_or_app. right. exact H.
Qed.

Lemma StronglySorted_firstn (n : nat) (l : list Product) :
  StronglySorted price_le l -> StronglySorted price_le (firstn n l).
Proof.
  revert l. induction n as [|n IH]; intros [|x l] H; simpl; try constructor.
  - apply IH. inversion H; assumption.
  - inversion H as [|? ? _ Hall]; subst.
    rewrite Forall_forall in *. intros y Hy. apply Hall.
    eapply In_firstn. exact Hy.
Qed.

(** In a sorted list, what the cut leaves out costs at least as much
    as everything it keeps. *)
Lemma StronglySorted_cut (n : nat) (l : list Product) (p r : Product) :
  StronglySorted price_le l ->
  In r (firstn n l) -> In p (skipn n l) -> price_le r p.
Proof.
  revert l. induction n as [|n IH]; intros [|x l] H Hr Hp; simpl in *;
    try contradiction.
  inversion H as [|? ? Hs Hall]; subst.
  destruct Hr as [<- | Hr].
  - rewrite Forall_forall in Hall. apply Hall.
    eapply In_skipn. exact Hp.
  - eapply IH; eassumption.
Qed.

Lemma In_firstn_or_skipn {A} (n : nat) (l : list A) (x : A) :
  In x l -> In x (firstn n l) \/ In x (skipn n l).
Proof.
  intros H. rewrite <- (firstn_skipn n l) in H. apply in_app_or. exact H.
Qed.

Lemma product_search_unfold (self : CommerceTools) (query : str) (price_max : Z)
      (tags : option (list str)) :
  product_search self query price_max tags =
  firstn 2 (sorted_by_price
              (filter (matchesb query price_max
                                (match tags with None => [] | Some t => t end))
                      (products self))).
Proof.
  unfold product_search. rewrite product_search_loop_filter. reflexivity.
Qed.

(** C5, as the code has it.  [product_search] keeps exactly the
    products that pass the filter of the specification, sorts them by
    ascending price and returns the first two: the result is sorted,
    has at most two products, each of them a product of the store that
    passes the filter; it is all of them when at most two pass, and a
    passing product that is left out costs at least as much as the two
    returned. *)
Theorem product_search_spec (self : CommerceTools) (query : str) (price_max : Z)
        (tags : option (list str)) :
  let tag_list := match tags with None => [] | Some t => t end in
  let passing := filter (matchesb query price_max tag_list) (products self) in
  let found := product_search self query price_max tags in
  (forall p, In p passing <->
             In p (products self) /\ matches_spec query price_max tag_list p) /\
  found = firstn 2 (sorted_by_price passing) /\
  StronglySorted price_le found /\
  (List.length found <= 2)%nat /\
  (forall p, In p found ->
             In p (products self) /\ matches_spec query price_max tag_list p) /\
  ((List.length passing <= 2)%nat -> Permutation found passing) /\
  (forall p, In p (products self) -> matches_spec query price_max tag_list p ->
             ~ In p found ->
             List.length found = 2%nat /\
             forall r, In r found -> p_price r <= p_price p).
Proof.
  intros tag_list passing found.
  assert (Hpass : forall p, In p passing <->
             In p (products self) /\ matches_spec query price_max tag_list p).
  { intros p. unfold passing. rewrite filter_In, matchesb_spec. reflexivity. }
  assert (Hfound : found = firstn 2 (sorted_by_price passing)).
  { unfold found. apply product_search_unfold. }
  split; [exact Hpass|]. split; [exact Hfound|].
  rewrite Hfound. split; [|split; [|split; [|split]]].
  - apply StronglySorted_firstn, sorted_by_price_sorted.
  - apply firstn_le_length.
  - intros p Hp. apply Hpass.
    apply In_firstn in Hp.
    eapply Permutation_in; [apply sorted_by_price_perm | exact Hp].
  - intros Hlen. rewrite firstn_all2; [apply sorted_by_price_perm|].
    rewrite (Permutation_length (sorted_by_price_perm passing)). exact Hlen.
  - intros p Hin Hm Hout.
    assert (Hp : In p (sorted_by_price passing)).
    { eapply Permutation_in; [symmetry; apply sorted_by_price_perm|].
      apply Hpass. auto. }
    destruct (In_firstn_or_skipn 2 _ _ Hp) as [Hp'|Hp']; [contradiction|].
    split.
    + rewrite length_firstn.
      assert (Hl : (2 < List.length (sorted_by_price passing))%nat).
      { destruct (le_lt_dec (List.length (sorted_by_price passing)) 2) as [Hle|Hlt];
          [|exact Hlt].
        rewrite skipn_all2 in Hp' by exact Hle. contradiction. }
      lia.
    + intros r Hr.
      exact (StronglySorted_cut 2 _ p r (sorted_by_price_sorted passing) Hr Hp').
Qed.

(** C5, at an input: nothing but "midi" items up to 80 in the built-in
    catalogue is the A-Line Day Dress, which is all that is found. *)
Lemma product_search_spec_witness :
  Permutation
    (product_search commerce_tools_fallback (lit "midi") 80 (Some [lit "midi"]))
    (filter (matchesb (lit "midi") 80 [lit "midi"])
            (products commerce_tools_fallback)).
Proof.
  destruct (product_search_spec commerce_tools_fallback (lit "midi") 80
                                (Some [lit "midi"])) as [_ [_ [_ [_ [_ [H _]]]]]].
  apply H. vm_compute. lia.
Defined.

(** C5, as stated, fails: with no query, no tags and the default
    ceiling every product of the built-in catalogue passes the filter,
    and the Sequin Party Dress is not among the two returned. *)
Lemma product_search_not_all_passing :
  ~ (forall p,
        In p (product_search commerce_tools_fallback [] 1000 None) <->
        In p (products commerce_tools_fallback) /\ matches_spec [] 1000 [] p).
Proof.
  intros H. specialize (H P5_fallback). destruct H as [_ H].
  assert (Hin : In P5_fallback
                   (product_search commerce_tools_fallback [] 1000 None)).
  { apply H. split.
    - vm_compute. tauto.
    - apply matchesb_spec. vm_compute. reflexivity. }
  vm_compute in Hin. destruct Hin as [Hin|[Hin|[]]]; discriminate.
Qed.

(* ================================================================== *)
(** * The pipeline, intent by intent *)
(* ================================================================== *)

Lemma tool_selector_order_help (s : CommerceState) :
  intent s = lit "order_help" ->
  tool_selector_node s = [lit "order_lookup"; lit "order_cancel"].
Proof. unfold tool_selector_node. intros ->. reflexivity. Qed.

Lemma tool_selector_other (s : CommerceState) :
  intent s = lit "other" -> tool_selector_node s = [].
Proof. unfold tool_selector_node. intros ->. reflexivity. Qed.

Lemma tool_selector_product_assist (s : CommerceState) :
  intent s = lit "product_assist" ->
  tool_selector_node s = [lit "product_search"; lit "size_recommender"; lit "eta"].
Proof. unfold tool_selector_node. intros ->. reflexivity. Qed.

Lemma execute_tools_order_help commerce_tools (s : CommerceState) :
  tools_called s = [lit "order_lookup"; lit "order_cancel"] ->
  execute_tools_node commerce_tools s =
  Ok (order_lookup_step commerce_tools (last_content s)).
Proof. unfold execute_tools_node. intros ->. reflexivity. Qed.

Lemma execute_tools_other commerce_tools (s : CommerceState) :
  tools_called s = [] -> execute_tools_node commerce_tools s = Ok [].
Proof. unfold execute_tools_node. intros ->. reflexivity. Qed.

Lemma execute_tools_product_assist commerce_tools (s : CommerceState) :
  tools_called s = [lit "product_search"; lit "size_recommender"; lit "eta"] ->
  execute_tools_node commerce_tools s =
  (ev <- product_search_step commerce_tools (last_content s) ;; Ok (ev ++ [])).
Proof. unfold execute_tools_node. intros ->. reflexivity. Qed.

Lemma extract_order_email_None (text : str) :
  search re_order text = None \/ search re_email text = None ->
  extract_order_email text = None.
Proof.
  unfold extract_order_email. intros [-> | ->]; [reflexivity|].
  destruct (search re_order text); reflexivity.
Qed.

(** The run for a message of intent [order_help], up to the guard. *)
Lemma run_agent_order_help CURRENT_TIME hours_text commerce_tools text :
  classify text = lit "order_help" ->
  run_agent CURRENT_TIME hours_text commerce_tools text =
  (pd <- match extract_order_email text with
         | Some (order_id, email) =>
             cancel_result <-
               order_cancel CURRENT_TIME hours_text commerce_tools
                            order_id email None ;;
             if success cancel_result then
               Ok (Some (CancelDecision true (lit "within_policy")
                                        (message cancel_result) None))
             else
               Ok (Some (CancelDecision false (reason cancel_result)
                           (message cancel_result)
                           (Some (match alternatives cancel_result with
                                  | Some a => a
                                  | None => []
                                  end))))
         | None => Ok None
         end ;;
   final_message <- order_reply pd ;;
   Ok {| out_trace :=
           Some {| t_intent := lit "order_help";
                   t_tools_called := [lit "order_lookup"; lit "order_cancel"];
                   t_evidence :=
                     List.map trace_evidence
                              (order_lookup_step commerce_tools text);
                   t_policy_decision := pd;
                   t_final_message := final_message |};
         out_final_message := final_message |}).
Proof.
  intros Hc. unfold run_agent, invoke.
  change (router_node (initial_state text)) with (classify text).
  rewrite Hc. cbn [messages intent tools_called evidence policy_decision
                   final_message trace initial_state].
  rewrite tool_selector_order_help by reflexivity.
  rewrite execute_tools_order_help by reflexivity.
  cbn [bind messages intent tools_called evidence policy_decision
       final_message trace last_content last].
  unfold policy_guard_node.
  cbn [messages intent tools_called evidence policy_decision
       final_message trace last_content_strict nonempty last].
  change (str_eqb (lit "order_help") (lit "order_help")) with true.
  cbn iota. cbn [bind].
  destruct (extract_order_email text) as [[order_id email]|].
  - destruct (order_cancel CURRENT_TIME hours_text commerce_tools order_id email None)
      as [cr|e]; [|reflexivity].
    cbn [bind]. destruct (success cr); cbn [bind];
      unfold responder_node;
      cbn [messages intent tools_called evidence policy_decision
           final_message trace];
      change (str_eqb (lit "order_help") (lit "product_assist")) with false;
      change (str_eqb (lit "order_help") (lit "order_help")) with true;
      cbn iota;
      match goal with
      | |- context [order_reply ?pd] => destruct (order_reply pd); reflexivity
      end.
  - cbn [bind]. unfold responder_node.
    cbn [messages intent tools_called evidence policy_decision
         final_message trace].
    change (str_eqb (lit "order_help") (lit "product_assist")) with false.
    change (str_eqb (lit "order_help") (lit "order_help")) with true.
    cbn iota. reflexivity.
Qed.

(** C9.  An order request from which the order id and the email cannot
    both be read: the run returns (it does not raise), no evidence item
    is added, the policy decision stays null, and the reply is the fixed
    request for both identifiers. *)
Theorem order_help_without_identifiers
        (CURRENT_TIME : option str) (hours_text : Z -> str)
        (commerce_tools : CommerceTools) (text : str) :
  classify text = lit "order_help" ->
  search re_order text = None \/ search re_email text = None ->
  run_agent CURRENT_TIME hours_text commerce_tools text =
  Ok {| out_trace :=
          Some {| t_intent := lit "order_help";
                  t_tools_called := [lit "order_lookup"; lit "order_cancel"];
                  t_evidence := [];
                  t_policy_decision := None;
                  t_final_message := ask_identifiers_message |};
        out_final_message := ask_identifiers_message |}.
Proof.
  intros Hc Hno. rewrite (run_agent_order_help _ _ _ _ Hc).
  unfold order_lookup_step.
  rewrite (extract_order_email_None _ Hno). reflexivity.
Qed.

(** C9, at an input: an order id without an email. *)
Lemma order_help_without_identifiers_witness :
  run_agent None decimal1_hours commerce_tools_fallback
            (lit "Please cancel order A1003") =
  Ok {| out_trace :=
          Some {| t_intent := lit "order_help";
                  t_tools_called := [lit "order_lookup"; lit "order_cancel"];
                  t_evidence := [];
                  t_policy_decision := None;
                  t_final_message := ask_identifiers_message |};
        out_final_message := ask_identifiers_message |}.
Proof.
  apply order_help_without_identifiers.
  - vm_compute. reflexivity.
  - right. vm_compute. reflexivity.
Defined.

(** The run for a message of intent [other]. *)
Lemma run_agent_other CURRENT_TIME hours_text commerce_tools text :
  classify text = lit "other" ->
  run_agent CURRENT_TIME hours_text commerce_tools text =
  let pd :=
    if contains (lower text) (lit "discount code") &&
       existsb (contains (lower text))
               [lit "doesn't exist"; lit "non-existent"; lit "fake"]
    then Some (RefuseDecision true (lit "invalid_discount_request"))
    else None in
  Ok {| out_trace :=
          Some {| t_intent := lit "other";
                  t_tools_called := [];
                  t_evidence := [];
                  t_policy_decision := pd;
                  t_final_message := other_reply pd |};
        out_final_message := other_reply pd |}.
Proof.
  intros Hc. unfold run_agent, invoke.
  change (router_node (initial_state text)) with (classify text).
  rewrite Hc. cbn [messages intent tools_called evidence policy_decision
                   final_message trace initial_state].
  rewrite tool_selector_other by reflexivity.
  rewrite execute_tools_other by reflexivity.
  cbn [bind messages intent tools_called evidence policy_decision
       final_message trace].
  unfold policy_guard_node.
  cbn [messages intent tools_called evidence policy_decision
       final_message trace last_content_strict nonempty last].
  change (str_eqb (lit "other") (lit "order_help")) with false.
  change (str_eqb (lit "other") (lit "other")) with true.
  cbn iota. cbn [bind].
  destruct (contains (lower text) (lit "discount code") &&
            existsb (contains (lower text))
                    [lit "doesn't exist"; lit "non-existent"; lit "fake"]);
    reflexivity.
Qed.

(** C8.  For a message of intent [other]: when it contains "discount
    code" and one of "doesn't exist", "non-existent", "fake" (whatever
    the case), the policy decision is the refusal
    [invalid_discount_request] and the reply the fixed refusal message
    with its three offers; otherwise the decision stays null and the
    reply is the fixed helper message.  Either way no tool is planned,
    no evidence gathered, and the outcome is the same for every store,
    reference time and float printer: none of them is consulted. *)
Theorem discount_guardrail
        (CURRENT_TIME : option str) (hours_text : Z -> str)
        (commerce_tools : CommerceTools) (text : str) :
  classify text = lit "other" ->
  let asks_fake_code :=
    Substring (lit "discount code") (lower text) /\
    mentions [lit "doesn't exist"; lit "non-existent"; lit "fake"] text in
  let run := run_agent CURRENT_TIME hours_text commerce_tools text in
  (asks_fake_code ->
   run = Ok {| out_trace :=
                 Some {| t_intent := lit "other";
                         t_tools_called := [];
                         t_evidence := [];
                         t_policy_decision :=
                           Some (RefuseDecision true
                                   (lit "invalid_discount_request"));
                         t_final_message := refusal_message |};
               out_final_message := refusal_message |}) /\
  (~ asks_fake_code ->
   run = Ok {| out_trace :=
                 Some {| t_intent := lit "other";
                         t_tools_called := [];
                         t_evidence := [];
                         t_policy_decision := None;
                         t_final_message := helper_message |};
               out_final_message := helper_message |}) /\
  (forall CURRENT_TIME' hours_text' commerce_tools',
      run = run_agent CURRENT_TIME' hours_text' commerce_tools' text) /\
  Substring (lit "Sign up for our newsletter for 10% off your first order")
            refusal_message /\
  Substring (lit "Follow us on social media for exclusive deals")
            refusal_message /\
  Substring (lit "Check our current promotions page for active discounts")
            refusal_message.
Proof.
  intros Hc asks run. subst asks run.
  rewrite (run_agent_other _ _ _ _ Hc).
  rewrite <- contains_spec, <- mentions_spec.
  split; [|split; [|split]].
  - intros [H1 H2]. rewrite H1, H2. reflexivity.
  - intros H.
    destruct (contains (lower text) (lit "discount code"));
      destruct (existsb (contains (lower text))
                        [lit "doesn't exist"; lit "non-existent"; lit "fake"]);
      try reflexivity.
    exfalso. apply H. auto.
  - intros CT' ht' tools'. rewrite (run_agent_other CT' ht' tools' _ Hc).
    reflexivity.
  - repeat split; apply contains_spec; vm_compute; reflexivity.
Qed.

(** C8, at an input: the guardrail prompt of the test runner. *)
Lemma discount_guardrail_witness :
  run_agent None decimal1_hours commerce_tools_fallback discount_prompt =
  Ok {| out_trace :=
          Some {| t_intent := lit "other";
                  t_tools_called := [];
                  t_evidence := [];
                  t_policy_decision :=
                    Some (RefuseDecision true (lit "invalid_discount_request"));
                  t_final_message := refusal_message |};
        out_final_message := refusal_message |}.
Proof.
  destruct (discount_guardrail None decimal1_hours commerce_tools_fallback
              discount_prompt) as [H _].
  - vm_compute. reflexivity.
  - apply H. split.
    + apply contains_spec. vm_compute. reflexivity.
    + apply mentions_spec. vm_compute. reflexivity.
Defined.

(* ================================================================== *)
(** * What a regular-expression match looks like *)
(* ================================================================== *)

Lemma many_greedy_sound {A} (p : char -> bool) (prev : option char) (s : str)
      (k : option char -> str -> option A) (r : A) :
  many_greedy p prev s k = Some r ->
  exists s1 s2 prev', s = s1 ++ s2 /\ forallb p s1 = true /\ k prev' s2 = Some r.
Proof.
  revert prev. induction s as [|c s IH]; intros prev; simpl.
  - intros H. exists [], [], prev. auto.
  - destruct (p c) eqn:Hp.
    + destruct (many_greedy p (Some c) s k) as [r0|] eqn:E.
      * intros H. injection H as <-.
        destruct (IH _ E) as [s1 [s2 [prev' [-> [H1 H2]]]]].
        exists (c :: s1), s2, prev'. simpl. rewrite Hp, H1. auto.
      * intros H. exists [], (c :: s), prev. auto.
    + intros H. exists [], (c :: s), prev. auto.
Qed.

Lemma many_lazy_sound {A} (p : char -> bool) (prev : option char) (s : str)
      (k : option char -> str -> option A) (r : A) :
  many_lazy p prev s k = Some r ->
  exists s1 s2 prev', s = s1 ++ s2 /\ forallb p s1 = true /\ k prev' s2 = Some r.
Proof.
  revert prev. induction s as [|c s IH]; intros prev; simpl.
  - destruct (k prev []) eqn:E; [|discriminate].
    intros H. injection H as <-. exists [], [], prev. auto.
  - destruct (k prev (c :: s)) eqn:E.
    + intros H. injection H as <-. exists [], (c :: s), prev. auto.
    + destruct (p c) eqn:Hp; [|discriminate].
      intros H. destruct (IH _ H) as [s1 [s2 [prev' [-> [H1 H2]]]]].
      exists (c :: s1), s2, prev'. simpl. rewrite Hp, H1. auto.
Qed.

Lemma firstn_consumed {A} (s1 s2 : list A) :
  firstn (List.length (s1 ++ s2) - List.length s2) (s1 ++ s2) = s1.
Proof.
  rewrite length_app, Nat.add_sub.
  rewrite firstn_app, Nat.sub_diag, firstn_all. simpl. apply app_nil_r.
Qed.

(** Whatever [exec] finds is a match of the pattern on a prefix,
    handed over to the continuation with the rest. *)
Lemma exec_sound {A} (r : regex) :
  forall (prev : option char) (s : str) (g : option str)
         (k : option char -> str -> option str -> option A) (res : A),
    exec r prev s g k = Some res ->
    exists s1 s2 prev' g',
      s = s1 ++ s2 /\ matches r s1 g g' /\ k prev' s2 g' = Some res.
Proof.
  induction r as [|p|r1 IH1 r2 IH2|p|p|r1 IH1|]; intros prev s g k res; simpl.
  - intros H. exists [], s, prev, g. repeat split; [constructor | exact H].
  - destruct s as [|c s]; [discriminate|].
    destruct (p c) eqn:Hp; [|discriminate].
    intros H. exists [c], s, (Some c), g.
    repeat split; [constructor; exact Hp | exact H].
  - intros H. apply IH1 in H.
    destruct H as [s1 [s2 [prev1 [g1 [-> [M1 H]]]]]].
    apply IH2 in H.
    destruct H as [s3 [s4 [prev2 [g2 [-> [M2 H]]]]]].
    exists (s1 ++ s3), s4, prev2, g2. rewrite app_assoc.
    repeat split; [econstructor; eassumption | exact H].
  - destruct s as [|c s]; [discriminate|].
    destruct (p c) eqn:Hp; [|discriminate].
    intros H. apply many_greedy_sound in H.
    destruct H as [s1 [s2 [prev' [-> [H1 H2]]]]].
    exists (c :: s1), s2, prev', g. repeat split; [|exact H2].
    constructor; [discriminate | simpl; rewrite Hp, H1; reflexivity].
  - intros H. apply many_lazy_sound in H.
    destruct H as [s1 [s2 [prev' [-> [H1 H2]]]]].
    exists s1, s2, prev', g. repeat split; [constructor; exact H1 | exact H2].
  - intros H. apply IH1 in H.
    destruct H as [s1 [s2 [prev1 [g1 [-> [M1 H]]]]]].
    rewrite firstn_consumed in H.
    exists s1, s2, prev1, (Some s1).
    repeat split; [econstructor; exact M1 | exact H].
  - destruct (xorb (word_at prev) (word_at (hd_error s))); [|discriminate].
    intros H. exists [], s, prev, g. repeat split; [constructor | exact H].
Qed.

Lemma match_here_sound (r : regex) (prev : option char) (s : str) (m : rmatch) :
  match_here r prev s = Some m ->
  exists rest, s = group0 m ++ rest /\ matches r (group0 m) None (group1 m).
Proof.
  unfold match_here. intros H. apply exec_sound in H.
  destruct H as [s1 [s2 [prev' [g' [-> [M H]]]]]].
  injection H as <-. cbn [group0 group1]. rewrite firstn_consumed.
  exists s2. auto.
Qed.

(** [re.search] returns a piece of the text that the pattern matches. *)
Lemma search_from_sound (r : regex) (s : str) :
  forall prev m,
    search_from r prev s = Some m ->
    exists before rest,
      s = before ++ group0 m ++ rest /\ matches r (group0 m) None (group1 m).
Proof.
  induction s as [|c s IH]; intros prev m; simpl.
  - destruct (match_here r prev []) eqn:E; [|discriminate].
    intros H. injection H as ->.
    apply match_here_sound in E. destruct E as [rest [E M]].
    exists [], rest. auto.
  - destruct (match_here r prev (c :: s)) eqn:E.
    + intros H. injection H as ->.
      apply match_here_sound in E. destruct E as [rest [E M]].
      exists [], rest. auto.
    + intros H. apply IH in H. destruct H as [before [rest [-> M]]].
      exists (c :: before), rest. auto.
Qed.

Lemma matches_Lit (l s : str) (g g' : option str) :
  matches (Lit l) s g g' -> s = l /\ g' = g.
Proof.
  revert s g g'. induction l as [|c l IH]; intros s g g' M; simpl in M.
  - inversion M; subst. auto.
  - inversion M as [| |? ? s1 s2 ? g1 ? M1 M2| | | |]; subst.
    inversion M1; subst.
    apply IH in M2. destruct M2 as [-> ->].
    match goal with H : char_eqb _ _ = true |- _ => apply char_eqb_eq in H; subst end.
    auto.
Qed.

Lemma matches_Times (n : nat) (p : char -> bool) (s : str) (g g' : option str) :
  matches (Times n p) s g g' ->
  List.length s = n /\ forallb p s = true /\ g' = g.
Proof.
  revert s g g'. induction n as [|n IH]; intros s g g' M; simpl in M.
  - inversion M; subst. auto.
  - inversion M as [| |? ? s1 s2 ? g1 ? M1 M2| | | |]; subst.
    inversion M1; subst.
    apply IH in M2. destruct M2 as [<- [H ->]].
    simpl. match goal with H : p _ = true |- _ => rewrite H end. auto.
Qed.

(** A match of the price pattern starts with "under" and captures a
    non-empty run of decimal digits. *)
Lemma matches_re_price (s : str) (g' : option str) :
  matches re_price s None g' ->
  (exists rest, s = lit "under" ++ rest) /\
  exists d, g' = Some d /\ d <> [] /\ forallb isdecimal d = true.
Proof.
  unfold re_price. intros M.
  inversion M as [| |? ? s1 s2 ? g1 ? M1 M2| | | |]; subst.
  apply (matches_Lit (lit "under")) in M1. destruct M1 as [-> ->].
  inversion M2 as [| |? ? s3 s4 ? g3 ? M3 M4| | | |]; subst.
  inversion M3; subst. inversion M4 as [| | | | |? ? ? ? M5|]; subst.
  inversion M5; subst.
  split; [eexists; reflexivity|]. eexists. split; [reflexivity|]. auto.
Qed.

(** A match of the zip pattern is six decimal digits. *)
Lemma matches_re_zip (s : str) (g' : option str) :
  matches re_zip s None g' ->
  List.length s = 6%nat /\ forallb isdecimal s = true.
Proof.
  unfold re_zip. intros M.
  inversion M as [| |? ? s1 s2 ? g1 ? M1 M2| | | |]; subst.
  inversion M1; subst.
  inversion M2 as [| |? ? s3 s4 ? g3 ? M3 M4| | | |]; subst.
  inversion M4; subst. apply (matches_Times 6 isdecimal) in M3.
  destruct M3 as [H1 [H2 _]]. simpl. rewrite app_nil_r. auto.
Qed.

Lemma exec_Lit_fail {A} (l : str) (prev : option char) (s : str) (g : option str)
      (k : option char -> str -> option str -> option A) :
  startswith l s = false -> exec (Lit l) prev s g k = None.
Proof.
  revert prev s. induction l as [|c l IH]; intros prev s; simpl; [discriminate|].
  destruct s as [|x s]; [reflexivity|].
  destruct (char_eqb c x); simpl; [apply IH | reflexivity].
Qed.

Lemma exec_Lit_prefix {A} (l : str) (prev : option char) (s : str) (g : option str)
      (k : option char -> str -> option str -> option A) :
  exec (Lit l) prev (l ++ s) g k = k (after prev l) s g.
Proof.
  revert prev. induction l as [|c l IH]; intros prev; simpl; [reflexivity|].
  unfold char_eqb at 1. rewrite N.eqb_refl. apply IH.
Qed.

Lemma many_lazy_skip {A} (p : char -> bool) (prev : option char) (b rest : str)
      (k : option char -> str -> option A) :
  forallb p b = true ->
  (forall prev' x t, In x b -> k prev' (x :: t) = None) ->
  many_lazy p prev (b ++ rest) k = many_lazy p (after prev b) rest k.
Proof.
  revert prev. induction b as [|x b IH]; intros prev Hp Hk; [reflexivity|].
  simpl in Hp. apply andb_true_iff in Hp. destruct Hp as [Hx Hp].
  cbn [app many_lazy]. rewrite (Hk prev x (b ++ rest) (or_introl eq_refl)), Hx.
  apply IH; [exact Hp|]. intros prev' y t Hy. apply Hk. right. exact Hy.
Qed.

Lemma many_greedy_all {A} (p : char -> bool) (prev : option char) (d c : str)
      (k : option char -> str -> option A) (r : A) :
  forallb p d = true ->
  match c with [] => True | x :: _ => p x = false end ->
  k (after prev d) c = Some r ->
  many_greedy p prev (d ++ c) k = Some r.
Proof.
  revert prev. induction d as [|y d IH]; intros prev Hp Hc Hk.
  - cbn in *. destruct c as [|x c]; [exact Hk|]. simpl. rewrite Hc. exact Hk.
  - simpl in Hp. apply andb_true_iff in Hp. destruct Hp as [Hy Hp].
    cbn [app many_greedy]. rewrite Hy.
    rewrite (IH (Some y) Hp Hc Hk). reflexivity.
Qed.

Lemma match_here_re_price_fail (prev : option char) (s : str) :
  startswith (lit "under") s = false -> match_here re_price prev s = None.
Proof.
  intros H. unfold match_here, re_price. cbn [exec].
  apply exec_Lit_fail. exact H.
Qed.

Lemma match_here_re_price_shape (prev : option char) (b d c : str) :
  no_digit_no_newline b -> d <> [] -> forallb isdecimal d = true ->
  no_digit_next c ->
  match_here re_price prev (lit "under" ++ b ++ d ++ c) =
  Some {| group0 := lit "under" ++ b ++ d; group1 := Some d |}.
Proof.
  unfold no_digit_no_newline, no_digit_next. intros Hb Hne Hd Hc.
  unfold match_here, re_price. cbn [exec].
  rewrite exec_Lit_prefix. cbn [exec].
  rewrite many_lazy_skip.
  - destruct d as [|c0 d]; [contradiction|].
    simpl in Hd. apply andb_true_iff in Hd. destruct Hd as [Hc0 Hd].
    cbn [app many_lazy]. rewrite Hc0.
    erewrite many_greedy_all; [reflexivity | exact Hd | exact Hc |].
    f_equal. f_equal.
    + change (lit "under" ++ b ++ c0 :: d ++ c)
        with (lit "under" ++ b ++ (c0 :: d) ++ c).
      rewrite !app_assoc. rewrite <- (app_assoc (lit "under")).
      apply firstn_consumed.
    + f_equal. change (c0 :: d ++ c) with ((c0 :: d) ++ c).
      apply firstn_consumed.
  - rewrite forallb_forall in *. intros x Hx.
    specialize (Hb x Hx). apply andb_true_iff in Hb. tauto.
  - intros prev' x t Hx. rewrite forallb_forall in Hb.
    specialize (Hb x Hx). apply andb_true_iff in Hb. destruct Hb as [_ Hb].
    apply negb_true_iff in Hb. rewrite Hb. reflexivity.
Qed.

Lemma startswith_app_long (p s t : str) :
  (List.length p <= List.length s)%nat ->
  startswith p (s ++ t) = startswith p s.
Proof.
  revert s. induction p as [|x p IH]; intros s H; [reflexivity|].
  destruct s as [|y s]; simpl in *; [lia|].
  rewrite IH by lia. reflexivity.
Qed.

Lemma Substring_tail (needle : str) (x : char) (hay : str) :
  Substring needle hay -> Substring needle (x :: hay).
Proof. intros [a [b ->]]. exists (x :: a), b. reflexivity. Qed.

Lemma search_re_price_skip (a rest : str) :
  forall prev,
    ~ Substring (lit "under") (a ++ lit "unde") ->
    search_from re_price prev (a ++ lit "under" ++ rest) =
    search_from re_price (after prev a) (lit "under" ++ rest).
Proof.
  induction a as [|x a IH]; intros prev Hno; [reflexivity|].
  cbn [app search_from].
  rewrite match_here_re_price_fail.
  - apply IH. intros H. apply Hno. apply Substring_tail. exact H.
  - change (x :: a ++ lit "under" ++ rest)
      with ((x :: a) ++ (lit "unde" ++ lit "r") ++ rest).
    rewrite <- !app_assoc, (app_assoc (x :: a)).
    rewrite startswith_app_long.
    + destruct (startswith (lit "under") ((x :: a) ++ lit "unde")) eqn:E;
        [|reflexivity].
      exfalso. apply Hno. apply startswith_spec in E. destruct E as [t E].
      exists [], t. exact E.
    + rewrite length_app.
      change (List.length (lit "under")) with 5%nat.
      change (List.length (lit "unde")) with 4%nat.
      cbn [List.length]. lia.
Qed.

(** The price pattern on a text of the shape
    [... under <no digit, no newline> <digits> ...], "under" not
    occurring earlier: the capture is that run of digits. *)
Lemma search_re_price_shape (a b d c : str) :
  ~ Substring (lit "under") (a ++ lit "unde") ->
  no_digit_no_newline b -> d <> [] -> forallb isdecimal d = true ->
  no_digit_next c ->
  search re_price (a ++ lit "under" ++ b ++ d ++ c) =
  Some {| group0 := lit "under" ++ b ++ d; group1 := Some d |}.
Proof.
  intros Ha Hb Hne Hd Hc. unfold search.
  rewrite search_re_price_skip by exact Ha.
  destruct (lit "under" ++ b ++ d ++ c) eqn:E; [discriminate|].
  cbn [search_from]. rewrite <- E.
  rewrite match_here_re_price_shape by assumption. reflexivity.
Qed.

Lemma search_re_price_group (s : str) (m : rmatch) :
  search re_price s = Some m ->
  Substring (lit "under") s /\
  exists d, group1 m = Some d /\ d <> [] /\ forallb isdecimal d = true.
Proof.
  intros H. apply search_from_sound in H.
  destruct H as [before [rest [E M]]].
  apply matches_re_price in M. destruct M as [[t Ht] Hd].
  split; [|exact Hd].
  exists before, (t ++ rest). rewrite E, Ht, <- app_assoc. reflexivity.
Qed.

(** A match of the price pattern, in parts: "under", a stretch of the
    same line, and a non-empty run of decimal digits, the capture. *)
Lemma matches_re_price_parts (s : str) (g' : option str) :
  matches re_price s None g' ->
  exists b d, s = lit "under" ++ b ++ d /\ forallb notnewline b = true /\
              g' = Some d /\ d <> [] /\ forallb isdecimal d = true.
Proof.
  unfold re_price. intros M.
  inversion M as [| |? ? s1 s2 ? g1 ? M1 M2| | | |]; subst.
  apply (matches_Lit (lit "under")) in M1. destruct M1 as [-> ->].
  inversion M2 as [| |? ? s3 s4 ? g3 ? M3 M4| | | |]; subst.
  inversion M3; subst. inversion M4 as [| | | | |? ? ? ? M5|]; subst.
  inversion M5; subst.
  exists s3, s4. auto.
Qed.

Lemma search_re_price_parts (s : str) (m : rmatch) :
  search re_price s = Some m ->
  exists a b d c,
    s = a ++ lit "under" ++ b ++ d ++ c /\
    forallb notnewline b = true /\ d <> [] /\
    forallb isdecimal d = true /\ group1 m = Some d.
Proof.
  intros H. apply search_from_sound in H.
  destruct H as [before [rest [E M]]].
  apply matches_re_price_parts in M.
  destruct M as [b [d [E0 [Hb [Hg [Hne Hd]]]]]].
  exists before, b, d, rest. rewrite E, E0, <- !app_assoc. auto.
Qed.

(** With a match, the ceiling is what [int] makes of the capture. *)
Lemma parse_price_max_of_match (s : str) (m : rmatch) (d : str) :
  search re_price s = Some m -> group1 m = Some d ->
  parse_price_max s = int_of_str d.
Proof. intros H G. unfold parse_price_max. rewrite H, G. reflexivity. Qed.

(** The ceiling is there unless the captured run is too long for [int]. *)
Lemma parse_price_max_Ok (message_lower : str) :
  (forall m d, search re_price message_lower = Some m -> group1 m = Some d ->
               (List.length d <= int_max_str_digits)%nat) ->
  exists z, parse_price_max message_lower = Ok z.
Proof.
  intros Hlen. unfold parse_price_max.
  destruct (search re_price message_lower) as [m|] eqn:E; [|eauto].
  destruct (search_re_price_group _ _ E) as [_ [d [G [Hne Hd]]]].
  rewrite G. rewrite (int_of_str_digits d Hne Hd (Hlen m d eq_refl G)). eauto.
Qed.

(** [int] is the only thing that can fail there, on a run too long. *)
Lemma parse_price_max_raises (message_lower : str) (e : exn) :
  parse_price_max message_lower = Raise e ->
  e = ValueError /\
  exists m d, search re_price message_lower = Some m /\ group1 m = Some d /\
              (int_max_str_digits < List.length d)%nat.
Proof.
  unfold parse_price_max.
  destruct (search re_price message_lower) as [m|] eqn:E; [|discriminate].
  destruct (search_re_price_group _ _ E) as [_ [d [G [Hne Hd]]]].
  rewrite G. intros H.
  destruct (Nat.le_gt_cases (List.length d) int_max_str_digits) as [L|L].
  - rewrite (int_of_str_digits d Hne Hd L) in H. discriminate.
  - rewrite (int_of_str_too_long d L) in H. injection H as <-.
    split; [reflexivity|]. exists m, d. auto.
Qed.

(** A message of at most 4300 characters has no run that long. *)
Lemma parse_price_max_short (text : str) :
  (List.length text <= int_max_str_digits)%nat ->
  exists z, parse_price_max (lower text) = Ok z.
Proof.
  intros Hlen. apply parse_price_max_Ok. intros m d Hm Hd.
  destruct (search_re_price_parts _ _ Hm) as [a [b [d' [c [E [_ [_ [_ G]]]]]]]].
  rewrite Hd in G. injection G as <-.
  assert (L : List.length (lower text) = List.length text)
    by (unfold lower; apply length_map).
  rewrite E, !length_app in L. lia.
Qed.

Lemma product_search_sound (self : CommerceTools) (query : str) (price_max : Z)
      (tags : option (list str)) (p : Product) :
  In p (product_search self query price_max tags) ->
  In p (products self) /\
  matchesb query price_max (match tags with None => [] | Some t => t end) p = true.
Proof.
  rewrite product_search_unfold. intros H. apply In_firstn in H.
  apply (Permutation_in _ (sorted_by_price_perm _)) in H.
  apply filter_In in H. exact H.
Qed.

(** The collector's product block: the ceiling, then the search at that
    ceiling with the collector's query and tags. *)
Lemma product_search_step_unfold (commerce_tools : CommerceTools) (text : str) :
  product_search_step commerce_tools text =
  (z <- parse_price_max (lower text) ;;
   Ok (List.map product_evidence
         (firstn 2 (sorted_by_price
                      (filter (matchesb (collector_query text) z
                                        (collector_tags text))
                              (products commerce_tools)))))).
Proof.
  unfold product_search_step, collector_query, collector_tags.
  destruct (parse_price_max (lower text)) as [z|e]; [|reflexivity].
  cbn [bind].
  destruct (existsb (contains (lower text)) [lit "wedding"; lit "midi"]);
    rewrite product_search_unfold; reflexivity.
Qed.

(** What passes the filter at a ceiling is in the store and costs at
    most the ceiling. *)
Lemma found_within_ceiling (commerce_tools : CommerceTools) (query : str)
      (z : Z) (tags : list str) (p : Product) :
  In p (firstn 2 (sorted_by_price
                    (filter (matchesb query z tags) (products commerce_tools)))) ->
  In p (products commerce_tools) /\ p_price p <= z.
Proof.
  intros H. apply In_firstn in H.
  apply (Permutation_in _ (sorted_by_price_perm _)) in H.
  apply filter_In in H. destruct H as [Hin Hm]. split; [exact Hin|].
  unfold matchesb in Hm. rewrite !andb_true_iff in Hm.
  destruct Hm as [[Hm _] _]. apply Z.leb_le. exact Hm.
Qed.

(** When the block returns, the ceiling was read and the evidence are
    products of the store priced at most that ceiling. *)
Lemma product_search_step_products (commerce_tools : CommerceTools)
      (text : str) (ev : list Evidence) :
  product_search_step commerce_tools text = Ok ev ->
  exists z,
    parse_price_max (lower text) = Ok z /\
    forall e, In e ev ->
              exists p, e = product_evidence p /\
                        In p (products commerce_tools) /\ p_price p <= z.
Proof.
  rewrite product_search_step_unfold.
  destruct (parse_price_max (lower text)) as [z|e]; [|discriminate].
  cbn [bind]. intros H. injection H as <-. exists z. split; [reflexivity|].
  intros e He. apply in_map_iff in He. destruct He as [p [<- Hp]].
  exists p. split; [reflexivity|].
  exact (found_within_ceiling _ _ _ _ _ Hp).
Qed.

(** C7.  The product block of the collector, for every store and text.
    The ceiling is read from the lower-cased text with the pattern
    [under.*?(\d+)]: it is 1000 when the pattern finds nothing (so when
    "under" is absent); when it finds something, the text reads
    "under", then a stretch of the same line (letters included), then
    the captured run of decimal digits, and the ceiling is the value of
    that run when [int] takes it (at most 4300 digits); on a text whose
    first "under" is followed by neither digit nor newline and then by
    an integer, the ceiling is that integer.  With the ceiling read,
    the evidence is exactly the first two, by price, of the products of
    the store that pass the filter at that ceiling, with the query and
    tags of the collector; so each costs at most the ceiling.  For the
    wedding-guest prompt the ceiling is 120 and the evidence is the
    first two, by price, of the products at most 120 that pass for
    "midi" within the tags wedding and midi. *)
Theorem price_ceiling_spec (commerce_tools : CommerceTools) (text : str) :
  (search re_price (lower text) = None ->
   parse_price_max (lower text) = Ok 1000) /\
  (~ Substring (lit "under") (lower text) ->
   parse_price_max (lower text) = Ok 1000) /\
  (forall m, search re_price (lower text) = Some m ->
             exists a b d c,
               lower text = a ++ lit "under" ++ b ++ d ++ c /\
               forallb notnewline b = true /\
               d <> [] /\ forallb isdecimal d = true /\
               group1 m = Some d /\
               ((List.length d <= int_max_str_digits)%nat ->
                parse_price_max (lower text) = Ok (digits_value d))) /\
  (forall a b d c,
      lower text = a ++ lit "under" ++ b ++ d ++ c ->
      ~ Substring (lit "under") (a ++ lit "unde") ->
      no_digit_no_newline b -> d <> [] -> forallb isdecimal d = true ->
      no_digit_next c -> (List.length d <= int_max_str_digits)%nat ->
      parse_price_max (lower text) = Ok (digits_value d)) /\
  (forall z,
      parse_price_max (lower text) = Ok z ->
      let found :=
        firstn 2 (sorted_by_price
                    (filter (matchesb (collector_query text) z
                                      (collector_tags text))
                            (products commerce_tools))) in
      product_search_step commerce_tools text =
        Ok (List.map product_evidence found) /\
      forall p, In p found ->
                In p (products commerce_tools) /\ p_price p <= z) /\
  parse_price_max (lower scenario_a) = Ok 120 /\
  (let found :=
     firstn 2 (sorted_by_price
                 (filter (matchesb (lit "midi") 120 [lit "wedding"; lit "midi"])
                         (products commerce_tools))) in
   execute_tools_node commerce_tools
     {| messages := [scenario_a]; intent := lit "product_assist";
        tools_called := [lit "product_search"; lit "size_recommender";
                         lit "eta"];
        evidence := []; policy_decision := None; final_message := [];
        trace := None |} = Ok (List.map product_evidence found) /\
   forall p, In p found ->
             In p (products commerce_tools) /\ p_price p <= 120).
Proof.
  split; [|split; [|split; [|split; [|split; [|split]]]]].
  - intros H. unfold parse_price_max. rewrite H. reflexivity.
  - intros H. unfold parse_price_max.
    destruct (search re_price (lower text)) as [m|] eqn:E; [|reflexivity].
    apply search_re_price_group in E. destruct E as [E _]. contradiction.
  - intros m E.
    destruct (search_re_price_parts _ _ E)
      as [a [b [d [c [Et [Hb [Hne [Hd G]]]]]]]].
    exists a, b, d, c. repeat (split; [assumption|]).
    intros Hlen. rewrite (parse_price_max_of_match _ _ _ E G).
    apply int_of_str_digits; assumption.
  - intros a b d c E Ha Hb Hne Hd Hc Hlen. unfold parse_price_max.
    rewrite E, (search_re_price_shape a b d c Ha Hb Hne Hd Hc).
    cbn [group1]. apply int_of_str_digits; assumption.
  - intros z Hz found. split.
    + rewrite product_search_step_unfold, Hz. reflexivity.
    + intros p Hp. exact (found_within_ceiling _ _ _ _ _ Hp).
  - vm_compute. reflexivity.
  - intros found. split.
    + rewrite execute_tools_product_assist by reflexivity.
      cbn [last_content messages last].
      rewrite product_search_step_unfold.
      assert (Hz : parse_price_max (lower scenario_a) = Ok 120)
        by (vm_compute; reflexivity).
      rewrite Hz. cbn [bind]. rewrite app_nil_r. reflexivity.
    + intros p Hp. exact (found_within_ceiling _ _ _ _ _ Hp).
Qed.

(** C7, at an input: "Dresses UNDER 80?" reads "under", a blank, "80",
    and the one product of the built-in catalogue at most 80 is
    gathered. *)
Lemma price_ceiling_spec_witness :
  parse_price_max (lower (lit "Dresses UNDER 80?")) = Ok 80 /\
  product_search_step commerce_tools_fallback (lit "Dresses UNDER 80?") =
  Ok (List.map product_evidence
        (firstn 2 (sorted_by_price
                     (filter (matchesb [] 80 []) fallback_products)))).
Proof.
  destruct (price_ceiling_spec commerce_tools_fallback (lit "Dresses UNDER 80?"))
    as [_ [_ [_ [H4 [H5 _]]]]].
  assert (Hz : parse_price_max (lower (lit "Dresses UNDER 80?")) = Ok 80).
  { apply (H4 (lit "dresses ") (lit " ") (lit "80") (lit "?")).
    - vm_compute. reflexivity.
    - apply contains_false. vm_compute. reflexivity.
    - vm_compute. reflexivity.
    - vm_compute. discriminate.
    - vm_compute. reflexivity.
    - vm_compute. reflexivity.
    - vm_compute. lia. }
  split; [exact Hz|]. exact (proj1 (H5 80 Hz)).
Defined.

Lemma under_integerb_head (s : str) :
  digit_after_under s = true -> under_integerb s = true.
Proof. intros H. destruct s; cbn [under_integerb]; rewrite H; reflexivity. Qed.

Lemma skip_nonword_app (sep rest : str) :
  forallb (fun x => negb (isword x)) sep = true ->
  skip_nonword (sep ++ rest) = skip_nonword rest.
Proof.
  induction sep as [|x sep IH]; simpl; [reflexivity|].
  rewrite andb_true_iff, negb_true_iff. intros [-> H]. exact (IH H).
Qed.

(** The reading of the specification implies its test. *)
Lemma under_integer_sound (text : str) (n : Z) :
  under_integer text n -> under_integerb (lower text) = true.
Proof.
  intros [a [sep [d [c [E [Hs [Hne [Hd _]]]]]]]]. rewrite E. clear E.
  induction a as [|x a IH].
  - apply under_integerb_head. unfold digit_after_under.
    cbn [app]. rewrite (proj2 (startswith_spec _ _)) by (eexists; reflexivity).
    change (skipn 5 (lit "under" ++ sep ++ d ++ c)) with (sep ++ d ++ c).
    rewrite skip_nonword_app by exact Hs.
    destruct d as [|y d]; [contradiction|].
    simpl in Hd. apply andb_true_iff in Hd. destruct Hd as [Hy _].
    cbn [app skip_nonword].
    assert (Hw : isword y = true)
      by (unfold isword; unfold isdecimal in Hy; rewrite Hy; reflexivity).
    rewrite Hw. exact Hy.
  - cbn [app under_integerb]. rewrite IH. apply orb_true_r.
Qed.

(** C7, as stated, fails: "I understand, show me 3 dresses" has no
    "under <integer>", not even with signs between the word and the
    number, and the ceiling is 3, not 1000: the pattern starts inside
    "understand" and runs on to the first digit of the line. *)
Lemma price_ceiling_not_under_integer :
  ~ (forall text,
        (forall n, ~ under_integer text n) ->
        parse_price_max (lower text) = Ok 1000).
Proof.
  intros H. specialize (H (lit "I understand, show me 3 dresses")).
  assert (E : parse_price_max (lower (lit "I understand, show me 3 dresses"))
              = Ok 3) by (vm_compute; reflexivity).
  rewrite E in H.
  assert (Hno : forall n, ~ under_integer (lit "I understand, show me 3 dresses") n).
  { intros n Hn. apply under_integer_sound in Hn. vm_compute in Hn.
    discriminate. }
  specialize (H Hno). discriminate.
Qed.

(* ================================================================== *)
(** * The trace against its schema *)
(* ================================================================== *)

Lemma forallb_map_true {A B} (g : A -> B) (f : B -> bool) (l : list A) :
  (forall a, f (g a) = true) -> forallb f (List.map g l) = true.
Proof.
  intros H. induction l as [|a l IH]; simpl; [reflexivity|].
  rewrite H, IH. reflexivity.
Qed.

Lemma trace_valid (t : Trace) :
  In (t_intent t) [lit "product_assist"; lit "order_help"; lit "other"] ->
  (forall b r, t_policy_decision t <> Some (RefuseDecision b r)) ->
  valid TRACE_SCHEMA (trace_json t) = true.
Proof.
  destruct t as [i tc ev pd fm].
  cbn [t_intent t_tools_called t_evidence t_policy_decision t_final_message].
  intros Hi Hpd.
  destruct pd as [[b r m [a|] | b r]|];
    try (exfalso; eapply Hpd; reflexivity);
    unfold TRACE_SCHEMA, trace_json, policy_decision_json, of_type, json_strs;
    cbv [lit] in *; cbn in Hi;
    destruct Hi as [<-|[<-|[<-|[]]]];
    cbn; rewrite ?forallb_map_true by (intros; reflexivity); reflexivity.
Qed.

Lemma trace_refusal_invalid (t : Trace) (b : bool) (r : str) :
  t_policy_decision t = Some (RefuseDecision b r) ->
  valid TRACE_SCHEMA (trace_json t) = false.
Proof.
  destruct t as [i tc ev pd fm].
  cbn [t_intent t_tools_called t_evidence t_policy_decision t_final_message].
  intros ->.
  unfold TRACE_SCHEMA, trace_json, policy_decision_json, of_type, json_strs.
  cbv [lit]. cbn.
  rewrite !andb_false_r. reflexivity.
Qed.

Lemma validate_trace_raises (j : json) :
  validate_trace j = Raise ValidationError <-> valid TRACE_SCHEMA j = false.
Proof.
  unfold validate_trace. destruct (valid TRACE_SCHEMA j); split;
    intros H; try reflexivity; discriminate.
Qed.

Lemma classify_values (text : str) :
  In (classify text) [lit "product_assist"; lit "order_help"; lit "other"].
Proof.
  rewrite classify_unfold.
  destruct (existsb (contains (lower text)) product_keywords &&
            negb (contains (lower text) (lit "cancel"))); [left; reflexivity|].
  destruct (existsb (contains (lower text)) order_keywords);
    [right; left | right; right; left]; reflexivity.
Qed.

Lemma policy_guard_refusal CURRENT_TIME hours_text commerce_tools
      (s : CommerceState) (b : bool) (r : str) :
  policy_guard_node CURRENT_TIME hours_text commerce_tools s =
    Ok (Some (RefuseDecision b r)) ->
  intent s = lit "other" /\
  contains (lower (last_content s)) (lit "discount code") &&
  existsb (contains (lower (last_content s)))
          [lit "doesn't exist"; lit "non-existent"; lit "fake"] = true.
Proof.
  unfold policy_guard_node, last_content_strict, last_content.
  destruct (str_eqb (intent s) (lit "order_help")).
  - destruct (nonempty (messages s)); [|discriminate]. cbn [bind].
    destruct (extract_order_email (last (messages s) [])) as [[oid em]|];
      [|discriminate].
    destruct (order_cancel CURRENT_TIME hours_text commerce_tools oid em None)
      as [cr|]; [|discriminate].
    cbn [bind]. destruct (success cr); discriminate.
  - destruct (str_eqb (intent s) (lit "other")) eqn:E; [|discriminate].
    apply str_eqb_eq in E.
    destruct (nonempty (messages s)); [|discriminate]. cbn [bind].
    destruct (contains (lower (last (messages s) [])) (lit "discount code") &&
              existsb (contains (lower (last (messages s) [])))
                      [lit "doesn't exist"; lit "non-existent"; lit "fake"]);
      [auto | discriminate].
Qed.

(** Every emitted trace validates, except the one that carries the
    discount refusal. *)
Lemma emitted_trace_valid CURRENT_TIME hours_text commerce_tools text out t :
  run_agent CURRENT_TIME hours_text commerce_tools text = Ok out ->
  out_trace out = Some t ->
  (validate_trace (trace_json t) = Ok true <->
   ~ (classify text = lit "other" /\
      contains (lower text) (lit "discount code") &&
      existsb (contains (lower text))
              [lit "doesn't exist"; lit "non-existent"; lit "fake"] = true)).
Proof.
  intros Hrun Ht. apply run_agent_Ok in Hrun.
  destruct Hrun as [ev [pd [upd [_ [Hpd [Hupd ->]]]]]].
  cbn [out_trace] in Ht. injection Ht as <-.
  apply responder_final_message in Hupd.
  cbn [intent policy_decision] in Hupd.
  destruct Hupd as [_ [Hi [_ [_ Hp]]]].
  unfold validate_trace.
  destruct pd as [[b r m a | b r]|].
  - rewrite trace_valid;
      [|rewrite Hi; apply classify_values | rewrite Hp; discriminate].
    split; [|reflexivity]. intros _ [Hc _].
    revert Hpd. unfold policy_guard_node. cbn [intent]. rewrite Hc.
    change (str_eqb (lit "other") (lit "order_help")) with false.
    change (str_eqb (lit "other") (lit "other")) with true.
    cbn iota. cbn [last_content_strict messages nonempty bind].
    match goal with
    | |- context [if ?c then _ else _] => destruct c; discriminate
    end.
  - rewrite (trace_refusal_invalid _ b r Hp).
    apply policy_guard_refusal in Hpd. cbn [intent last_content messages last] in Hpd.
    split; [discriminate|]. intros H. exfalso. apply H. exact Hpd.
  - rewrite trace_valid;
      [|rewrite Hi; apply classify_values | rewrite Hp; discriminate].
    split; [|reflexivity]. intros _ [Hc Hd].
    revert Hpd. unfold policy_guard_node. cbn [intent]. rewrite Hc.
    change (str_eqb (lit "other") (lit "order_help")) with false.
    change (str_eqb (lit "other") (lit "other")) with true.
    cbn iota. cbn [last_content_strict messages nonempty bind last].
    rewrite Hd. discriminate.
Qed.

(** C3.  The trace of the guardrail prompt does not validate: its
    policy decision is the refusal [{"refuse": true, "reason": ...}],
    an object without the [cancel_allowed] that the schema requires of
    every decision that is not null; [validate_trace] raises on it, for
    every store and reference time. *)
Theorem refusal_trace_violates_schema
        (CURRENT_TIME : option str) (hours_text : Z -> str)
        (commerce_tools : CommerceTools) :
  exists t,
    run_agent CURRENT_TIME hours_text commerce_tools discount_prompt =
      Ok {| out_trace := Some t; out_final_message := refusal_message |} /\
    t_policy_decision t =
      Some (RefuseDecision true (lit "invalid_discount_request")) /\
    dict_has [ (lit "refuse", JBool true);
               (lit "reason", JStr (lit "invalid_discount_request")) ]
             (lit "cancel_allowed") = false /\
    valid TRACE_SCHEMA (trace_json t) = false /\
    validate_trace (trace_json t) = Raise ValidationError.
Proof.
  eexists. split; [|split; [|split; [|split]]].
  - rewrite run_agent_other by (vm_compute; reflexivity).
    vm_compute. reflexivity.
  - reflexivity.
  - vm_compute. reflexivity.
  - vm_compute. reflexivity.
  - vm_compute. reflexivity.
Qed.

(* ================================================================== *)
(** * The pipeline returns *)
(* ================================================================== *)

Lemma product_lines_total (ps : list EvData) :
  (forall d, In d ps -> exists p, d = DProduct p) ->
  forall final_message, exists m, product_lines ps final_message = Ok m.
Proof.
  induction ps as [|d ps IH]; intros H final_message; simpl; [eauto|].
  destruct (H d (or_introl eq_refl)) as [p ->]. cbn [product_line bind].
  apply IH. intros d Hd. apply H. right. exact Hd.
Qed.

(** The estimate for what the zip pattern finds: six decimal digits. *)
Lemma eta_of_zip_match (text : str) (m : rmatch) :
  search re_zip text = Some m -> exists e, eta (group0 m) = Ok e.
Proof.
  intros H. apply search_from_sound in H.
  destruct H as [before [rest [_ M]]].
  apply matches_re_zip in M. destruct M as [_ Hd].
  rewrite eta_decimal; [eauto|].
  intros c Hc _. rewrite forallb_forall in Hd. apply Hd. exact Hc.
Qed.

Lemma product_reply_total (ev : list Evidence) (text : str) :
  (forall e, In e ev -> exists p, e_data e = DProduct p) ->
  exists m, product_reply ev text = Ok m.
Proof.
  intros H. unfold product_reply.
  match goal with
  | |- context [nonempty ?ps] => destruct (nonempty ps); [|eauto]
  end.
  match goal with
  | |- context [product_lines ?ps ?fm] =>
      destruct (product_lines_total ps) with (final_message := fm) as [m Hm]
  end.
  { intros d Hd. apply in_map_iff in Hd. destruct Hd as [e [<- He]].
    apply filter_In in He. apply H. apply He. }
  rewrite Hm. cbn [bind].
  destruct (search re_zip text) as [zm|] eqn:Ez; [|eauto].
  destruct (eta_of_zip_match _ _ Ez) as [e He]. rewrite He. cbn [bind]. eauto.
Qed.

(** The run for a message of intent [product_assist]: the product
    block of the collector, then the product reply. *)
Lemma run_agent_product_assist_eq CURRENT_TIME hours_text commerce_tools text :
  classify text = lit "product_assist" ->
  run_agent CURRENT_TIME hours_text commerce_tools text =
  (ev <- product_search_step commerce_tools text ;;
   reply <- product_reply ev text ;;
   Ok {| out_trace :=
           Some {| t_intent := lit "product_assist";
                   t_tools_called :=
                     [lit "product_search"; lit "size_recommender"; lit "eta"];
                   t_evidence := List.map trace_evidence ev;
                   t_policy_decision := None;
                   t_final_message := reply |};
         out_final_message := reply |}).
Proof.
  intros Hc.
  unfold run_agent, invoke.
  change (router_node (initial_state text)) with (classify text).
  rewrite Hc. cbn [messages intent tools_called evidence policy_decision
                   final_message trace initial_state].
  rewrite tool_selector_product_assist by reflexivity.
  rewrite execute_tools_product_assist by reflexivity.
  cbn [messages intent tools_called evidence policy_decision
       final_message trace last_content last].
  destruct (product_search_step commerce_tools text) as [ev|e];
    cbn [bind]; [|reflexivity].
  rewrite app_nil_r.
  unfold policy_guard_node.
  cbn [messages intent tools_called evidence policy_decision
       final_message trace].
  change (str_eqb (lit "product_assist") (lit "order_help")) with false.
  change (str_eqb (lit "product_assist") (lit "other")) with false.
  cbn iota. cbn [bind]. unfold responder_node.
  cbn [messages intent tools_called evidence policy_decision
       final_message trace last_content last].
  change (str_eqb (lit "product_assist") (lit "product_assist")) with true.
  cbn iota. destruct (product_reply ev text); reflexivity.
Qed.

(** What such a run returns, when it returns. *)
Lemma run_agent_product_assist CURRENT_TIME hours_text commerce_tools text out :
  classify text = lit "product_assist" ->
  run_agent CURRENT_TIME hours_text commerce_tools text = Ok out ->
  exists ev reply,
    product_search_step commerce_tools text = Ok ev /\
    product_reply ev text = Ok reply /\
    out =
    {| out_trace :=
         Some {| t_intent := lit "product_assist";
                 t_tools_called :=
                   [lit "product_search"; lit "size_recommender"; lit "eta"];
                 t_evidence := List.map trace_evidence ev;
                 t_policy_decision := None;
                 t_final_message := reply |};
       out_final_message := reply |}.
Proof.
  intros Hc. rewrite (run_agent_product_assist_eq _ _ _ _ Hc).
  destruct (product_search_step commerce_tools text) as [ev|e];
    cbn [bind]; [|discriminate].
  destruct (product_reply ev text) as [reply|e] eqn:Er; cbn [bind];
    [|discriminate].
  intros H. injection H as <-. exists ev, reply. auto.
Qed.

(** Such a run returns as soon as the ceiling is read. *)
Lemma run_agent_product_assist_returns
      CURRENT_TIME hours_text commerce_tools text (z : Z) :
  classify text = lit "product_assist" ->
  parse_price_max (lower text) = Ok z ->
  exists out, run_agent CURRENT_TIME hours_text commerce_tools text = Ok out.
Proof.
  intros Hc Hz. rewrite (run_agent_product_assist_eq _ _ _ _ Hc).
  rewrite product_search_step_unfold, Hz. cbn [bind].
  match goal with
  | |- context [product_reply ?ev text] =>
      destruct (product_reply_total ev text) as [reply Hreply]
  end.
  { intros e He. apply in_map_iff in He. destruct He as [p [<- _]].
    exists p. reflexivity. }
  rewrite Hreply. cbn [bind]. eauto.
Qed.

Lemma order_reply_total (b : bool) (r m : str) (a : option (list str)) :
  exists reply, order_reply (Some (CancelDecision b r m a)) = Ok reply.
Proof.
  unfold order_reply. cbn [get_cancel_allowed get_message bind].
  destruct b; eauto.
Qed.

(** The pipeline returns for every message, unless the cancellation
    tool itself raises (an unreadable timestamp in the order or in the
    reference time) or [int] refuses the price of a product request (a
    run of more than 4300 digits). *)
Lemma run_agent_total CURRENT_TIME hours_text commerce_tools text :
  (forall order_id email,
      classify text = lit "order_help" ->
      extract_order_email text = Some (order_id, email) ->
      exists r, order_cancel CURRENT_TIME hours_text commerce_tools
                             order_id email None = Ok r) ->
  (classify text = lit "product_assist" ->
   exists z, parse_price_max (lower text) = Ok z) ->
  exists out, run_agent CURRENT_TIME hours_text commerce_tools text = Ok out.
Proof.
  intros Hcancel Hprice.
  destruct (classify_values text) as [Hc|[Hc|[Hc|[]]]]; symmetry in Hc.
  - destruct (Hprice Hc) as [z Hz].
    exact (run_agent_product_assist_returns _ _ _ _ _ Hc Hz).
  - rewrite (run_agent_order_help _ _ _ _ Hc).
    destruct (extract_order_email text) as [[order_id email]|] eqn:E.
    + destruct (Hcancel order_id email Hc eq_refl) as [r Hr].
      rewrite Hr. cbn [bind].
      destruct (success r); cbn [bind];
        match goal with
        | |- context [order_reply (Some (CancelDecision ?b ?r ?m ?a))] =>
            destruct (order_reply_total b r m a) as [reply Hreply];
            rewrite Hreply
        end; cbn [bind]; eauto.
    + cbn [bind order_reply]. eauto.
  - rewrite (run_agent_other _ _ _ _ Hc). cbv zeta. eauto.
Qed.

(** [order_cancel] raises on an unreadable timestamp only. *)
Lemma order_cancel_total CURRENT_TIME hours_text self order_id email now :
  (forall order, order_lookup self order_id email = Some order ->
                 (exists d, parse_utc (o_created_at order) = Ok d) /\
                 (exists d, parse_utc (reference_time CURRENT_TIME now) = Ok d)) ->
  exists r, order_cancel CURRENT_TIME hours_text self order_id email now = Ok r.
Proof.
  intros H. unfold order_cancel. fold (reference_time CURRENT_TIME now).
  destruct (order_lookup self order_id email) as [order|]; [|eauto].
  destruct (H order eq_refl) as [[c Hc] [n Hn]].
  rewrite Hc. cbn [bind]. rewrite Hn. cbn [bind].
  destruct (within_sixty_minutes (timedelta_us n c)); eauto.
Qed.

(** C2.  Whatever the message, the store and the reference time: when
    the pipeline returns a trace and a reply, the trace's
    [final_message] is the reply; and it does return them, on every
    branch, unless the cancellation tool raises on an order request or
    [int] refuses the price read from a product request. *)
Theorem trace_final_message_is_reply
        (CURRENT_TIME : option str) (hours_text : Z -> str)
        (commerce_tools : CommerceTools) (text : str) :
  (forall out,
      run_agent CURRENT_TIME hours_text commerce_tools text = Ok out ->
      exists t, out_trace out = Some t /\
                t_final_message t = out_final_message out) /\
  ((forall order_id email,
       classify text = lit "order_help" ->
       extract_order_email text = Some (order_id, email) ->
       exists r, order_cancel CURRENT_TIME hours_text commerce_tools
                              order_id email None = Ok r) ->
   (classify text = lit "product_assist" ->
    exists z, parse_price_max (lower text) = Ok z) ->
   exists out t,
     run_agent CURRENT_TIME hours_text commerce_tools text = Ok out /\
     out_trace out = Some t /\
     t_final_message t = out_final_message out).
Proof.
  assert (H1 : forall out,
             run_agent CURRENT_TIME hours_text commerce_tools text = Ok out ->
             exists t, out_trace out = Some t /\
                       t_final_message t = out_final_message out).
  { intros out H. apply run_agent_Ok in H.
    destruct H as [ev [pd [upd [_ [_ [Hupd ->]]]]]].
    exists (upd_trace upd). split; [reflexivity|].
    apply responder_final_message in Hupd. apply Hupd. }
  split; [exact H1|].
  intros Hcancel Hprice.
  destruct (run_agent_total _ _ _ _ Hcancel Hprice) as [out Hout].
  destruct (H1 out Hout) as [t [Ht Hf]].
  exists out, t. auto.
Qed.

(** C2, at an input: the wedding-guest prompt on the built-in store. *)
Lemma trace_final_message_is_reply_witness :
  exists out t,
    run_agent None decimal1_hours commerce_tools_fallback scenario_a = Ok out /\
    out_trace out = Some t /\
    t_final_message t = out_final_message out.
Proof.
  destruct (trace_final_message_is_reply None decimal1_hours
              commerce_tools_fallback scenario_a) as [_ H].
  apply H.
  - intros order_id email Hc. vm_compute in Hc. discriminate.
  - intros _. exists 120. vm_compute. reflexivity.
Defined.

(* ================================================================== *)
(** * The prompts of the test runner, evaluated *)
(* ================================================================== *)

Example price_pattern_on_prompt :
  option_map group1 (search re_price (lower scenario_a)) =
  Some (Some (lit "120")).
Proof. vm_compute. reflexivity. Qed.

Example zip_pattern_on_prompt :
  option_map group0 (search re_zip scenario_a) = Some (lit "560001").
Proof. vm_compute. reflexivity. Qed.

Example order_and_email_on_prompt :
  extract_order_email (lit "Cancel order A1003 - email mira@example.com.") =
  Some (lit "A1003", lit "mira@example.com").
Proof. vm_compute. reflexivity. Qed.

Example email_backtracks_to_last_dot :
  option_map group0 (search re_email (lit "x a.b@c.d.e.- y")) =
  Some (lit "a.b@c.d.e").
Proof. vm_compute. reflexivity. Qed.

Example prompt_is_product_assist : classify scenario_a = lit "product_assist".
Proof. vm_compute. reflexivity. Qed.

(** The wedding-guest prompt on the built-in catalogue: the two
    cheapest of the four products that pass. *)
Example evidence_of_prompt :
  product_search_step commerce_tools_fallback scenario_a =
  Ok (List.map (fun p => {| e_type := lit "product"; e_data := DProduct p |})
               (firstn 2 (sorted_by_price
                            (filter (fun p => p_price p <=? 120)
                                    fallback_products)))).
Proof. vm_compute. reflexivity. Qed.

(** Order A1003 at the default reference time: 1390 minutes old. *)
Example a1003_at_default_time :
  exists m,
    order_cancel None decimal1_hours commerce_tools_fallback
                 (lit "A1003") (lit "mira@example.com") None =
    Ok {| success := false; reason := lit "policy_violation"; message := m;
          time_diff_minutes := Some {| negative := false; tenths := 13900 |};
          alternatives := Some fixed_alternatives |}.
Proof. eexists. vm_compute. reflexivity. Qed.

(** One second past the hour is too late. *)
Example a1003_one_second_late :
  option_map success
    (match order_cancel None decimal1_hours commerce_tools_fallback
                        (lit "A1003") (lit "mira@example.com")
                        (Some (lit "2025-09-07T12:55:01Z")) with
     | Ok r => Some r
     | Raise _ => None
     end) = Some false.
Proof. vm_compute. reflexivity. Qed.

Example eta_of_prompt_zip : eta (lit "560001") = Ok (lit "2-3 business days").
Proof. vm_compute. reflexivity. Qed.

Example eta_pads_short_input : eta (lit "zip 56") = Ok (lit "2-3 business days").
Proof. vm_compute. reflexivity. Qed.

Example eta_without_digits : eta (lit "n/a") = Ok (lit "3-4 business days").
Proof. vm_compute. reflexivity. Qed.

(* ================================================================== *)
(** * More on the tools *)
(* ================================================================== *)

(** X1.  [size_recommender] decides by the first group of words that
    occurs, whatever the case: a "fitted" word gives size M even next
    to a "loose" word or to "between m/l"; a "loose" word alone gives
    size L; the M-versus-L sentence needs "between m/l" or "between m
    and l" and none of the eight words; everything else gets the
    middle-ground sentence. *)
Theorem size_recommender_precedence (user_inputs : str) :
  let fitted := mentions [lit "fitted"; lit "tight"; lit "small"; lit "petite"]
                         user_inputs in
  let loose := mentions [lit "loose"; lit "comfortable"; lit "roomy"; lit "large"]
                        user_inputs in
  let between := Substring (lit "between m/l") (lower user_inputs) \/
                 Substring (lit "between m and l") (lower user_inputs) in
  (fitted ->
   size_recommender user_inputs =
   lit "I'd recommend size M for a more fitted look") /\
  (~ fitted -> loose ->
   size_recommender user_inputs =
   lit "I'd recommend size L for a more comfortable fit") /\
  (~ fitted -> ~ loose -> between ->
   size_recommender user_inputs =
   lit "For M vs L: choose M if you prefer fitted style, L if you want more room and comfort") /\
  (~ fitted -> ~ loose -> ~ between ->
   size_recommender user_inputs =
   lit "I'd recommend size M as a good middle ground, but L if you prefer looser fits").
Proof.
  intros fitted loose between. subst fitted loose between.
  unfold size_recommender.
  rewrite <- !mentions_spec, <- !contains_spec.
  destruct (existsb (contains (lower user_inputs))
                    [lit "fitted"; lit "tight"; lit "small"; lit "petite"]);
    destruct (existsb (contains (lower user_inputs))
                      [lit "loose"; lit "comfortable"; lit "roomy"; lit "large"]);
    destruct (contains (lower user_inputs) (lit "between m/l"));
    destruct (contains (lower user_inputs) (lit "between m and l"));
    cbn [orb]; repeat split; intros; try reflexivity;
    try (exfalso; intuition discriminate).
Qed.

(** X1, at an input: "tight" wins over "loose". *)
Lemma size_recommender_precedence_witness :
  size_recommender (lit "Loose is fine but not too TIGHT") =
  lit "I'd recommend size M for a more fitted look".
Proof.
  destruct (size_recommender_precedence (lit "Loose is fine but not too TIGHT"))
    as [H _].
  apply H. apply mentions_spec. vm_compute. reflexivity.
Defined.

Lemma filter_all_true {A} (f : A -> bool) (l : list A) :
  forallb f l = true -> filter f l = l.
Proof.
  induction l as [|x l IH]; simpl; [reflexivity|].
  rewrite andb_true_iff. intros [Hx Hl]. rewrite Hx, IH by exact Hl. reflexivity.
Qed.

Lemma eta_first_six (zip_code : str) :
  eta zip_code = eta (firstn 6 (filter isdigit zip_code)).
Proof.
  unfold eta at 2.
  rewrite (filter_all_true isdigit (firstn 6 (filter isdigit zip_code)))
    by (apply forallb_firstn, forallb_filter_same).
  unfold slice_to. rewrite firstn_firstn. cbn [Nat.min].
  unfold eta, slice_to.
  destruct (filter isdigit zip_code); reflexivity.
Qed.

(** X2.  [eta] looks at the first six [isdigit] characters only: two
    inputs that agree on them get the same answer, be it an estimate or
    the [ValueError]. *)
Theorem eta_depends_on_first_six_digits (a b : str) :
  firstn 6 (filter isdigit a) = firstn 6 (filter isdigit b) ->
  eta a = eta b.
Proof.
  intros H. rewrite (eta_first_six a), (eta_first_six b), H. reflexivity.
Qed.

(** X2, at an input: separators and a seventh digit change nothing. *)
Lemma eta_depends_on_first_six_digits_witness :
  eta (lit "PIN 560-001 (block 7)") = eta (lit "560001").
Proof.
  apply eta_depends_on_first_six_digits. vm_compute. reflexivity.
Defined.

Lemma digit_value_range (c : char) :
  isdecimal c = true -> 0 <= digit_value c <= 9.
Proof.
  unfold isdecimal, in_range, digit_value.
  rewrite andb_true_iff, !N.leb_le. lia.
Qed.

Lemma fold_digits_acc (s : str) :
  forall acc,
    fold_left (fun acc c => 10 * acc + digit_value c) s acc =
    acc * 10 ^ Z.of_nat (List.length s) + digits_value s.
Proof.
  unfold digits_value.
  induction s as [|c s IH]; intros acc.
  - cbn. lia.
  - cbn [fold_left List.length]. rewrite IH, (IH (10 * 0 + digit_value c)).
    rewrite Nat2Z.inj_succ, Z.pow_succ_r by lia. ring.
Qed.

Lemma digits_value_bound (s : str) :
  forallb isdecimal s = true ->
  0 <= digits_value s < 10 ^ Z.of_nat (List.length s).
Proof.
  induction s as [|c s IH]; intros H.
  - cbn. lia.
  - cbn [forallb] in H. apply andb_true_iff in H. destruct H as [Hc Hs].
    unfold digits_value. cbn [fold_left List.length]. rewrite fold_digits_acc.
    specialize (IH Hs). apply digit_value_range in Hc.
    rewrite Nat2Z.inj_succ, Z.pow_succ_r by lia. nia.
Qed.

Lemma eta_six_decimal (d0 : char) (rest : str) :
  isdecimal d0 = true -> List.length rest = 5%nat ->
  forallb isdecimal rest = true ->
  eta (d0 :: rest) =
  Ok (if digit_value d0 <? 4 then lit "3-4 business days"
      else if digit_value d0 <? 6 then lit "2-3 business days"
      else lit "4-5 business days").
Proof.
  intros Hd0 Hlen Hrest.
  assert (Hall : forallb isdecimal (d0 :: rest) = true)
    by (cbn [forallb]; rewrite Hd0, Hrest; reflexivity).
  rewrite eta_decimal
    by (intros c Hc _; rewrite forallb_forall in Hall; apply Hall; exact Hc).
  rewrite (filter_all_true _ _ Hall). cbn [nonempty negb].
  unfold slice_to, ljust.
  rewrite firstn_all2 by (cbn [List.length]; lia).
  replace (6 - List.length (d0 :: rest))%nat with 0%nat
    by (cbn [List.length]; lia).
  cbn [repeat]. rewrite app_nil_r.
  unfold digits_value. cbn [fold_left]. rewrite fold_digits_acc, Hlen.
  pose proof (digits_value_bound rest Hrest) as Hb. rewrite Hlen in Hb.
  pose proof (digit_value_range d0 Hd0) as Hr.
  change (10 ^ Z.of_nat 5) with 100000 in *.
  destruct (digit_value d0 <? 4) eqn:E4.
  - apply Z.ltb_lt in E4.
    replace (_ <? 400000) with true by (symmetry; apply Z.ltb_lt; lia).
    reflexivity.
  - apply Z.ltb_ge in E4.
    replace (_ <? 400000) with false by (symmetry; apply Z.ltb_ge; lia).
    destruct (digit_value d0 <? 6) eqn:E6.
    + apply Z.ltb_lt in E6.
      replace (_ <? 600000) with true by (symmetry; apply Z.ltb_lt; lia).
      reflexivity.
    + apply Z.ltb_ge in E6.
      replace (_ <? 600000) with false by (symmetry; apply Z.ltb_ge; lia).
      reflexivity.
Qed.

(** X3.  The delivery estimate of the reply: what the zip pattern
    finds is six decimal digits, [eta] returns on it, and the estimate
    is decided by the first digit: 0-3 gives 3-4 days, 4-5 gives 2-3
    days, 6-9 gives 4-5 days. *)
Theorem zip_estimate_by_first_digit (text : str) (m : rmatch) :
  search re_zip text = Some m ->
  exists d0 rest,
    group0 m = d0 :: rest /\ isdecimal d0 = true /\
    List.length rest = 5%nat /\ forallb isdecimal rest = true /\
    eta (group0 m) =
    Ok (if digit_value d0 <? 4 then lit "3-4 business days"
        else if digit_value d0 <? 6 then lit "2-3 business days"
        else lit "4-5 business days").
Proof.
  intros H. apply search_from_sound in H.
  destruct H as [before [rest [_ M]]].
  apply matches_re_zip in M. destruct M as [Hlen Hd].
  destruct (group0 m) as [|d0 r]; [discriminate|].
  cbn [forallb] in Hd. apply andb_true_iff in Hd. destruct Hd as [H0 Hr].
  cbn [List.length] in Hlen.
  exists d0, r. repeat split; try assumption; try lia.
  apply eta_six_decimal; [exact H0 | lia | exact Hr].
Qed.

(** X3, at an input: a zip that starts with 7. *)
Lemma zip_estimate_by_first_digit_witness :
  exists m, search re_zip (lit "Ship to 700001 please") = Some m /\
            eta (group0 m) = Ok (lit "4-5 business days").
Proof.
  eexists. split; [vm_compute; reflexivity|].
  match goal with
  | |- eta (group0 ?m) = _ =>
      destruct (zip_estimate_by_first_digit (lit "Ship to 700001 please") m)
        as [d0 [rest [E [_ [_ [_ H]]]]]]; [vm_compute; reflexivity|]
  end.
  rewrite H. cbn [group0] in E. injection E as <- _. reflexivity.
Defined.

Lemma order_lookup_loop_first (os : list Order) (order_id email : str) (o : Order) :
  order_lookup_loop os order_id email = Some o ->
  exists before rest,
    os = before ++ o :: rest /\
    forall x, In x before -> ~ (o_order_id x = order_id /\ o_email x = email).
Proof.
  induction os as [|y os IH]; simpl; [discriminate|].
  destruct (str_eqb (o_order_id y) order_id && str_eqb (o_email y) email) eqn:E.
  - intros H. injection H as ->. exists [], os. split; [reflexivity|].
    intros x [].
  - intros H. destruct (IH H) as [before [rest [-> Hb]]].
    exists (y :: before), rest. split; [reflexivity|].
    intros x [<- | Hx]; [|apply Hb; exact Hx].
    intros [H1 H2]. rewrite H1, H2, !str_eqb_refl in E. discriminate.
Qed.

(** X4.  [order_lookup] answers with the earliest stored order that
    carries exactly this id and this email: nothing before it in the
    store matches both. *)
Theorem order_lookup_first_match (self : CommerceTools) (order_id email : str)
        (o : Order) :
  order_lookup self order_id email = Some o ->
  o_order_id o = order_id /\ o_email o = email /\
  exists before rest,
    orders self = before ++ o :: rest /\
    forall x, In x before -> ~ (o_order_id x = order_id /\ o_email x = email).
Proof.
  unfold order_lookup. intros H.
  destruct (order_lookup_loop_Some _ _ _ _ H) as [_ [H1 H2]].
  split; [exact H1|]. split; [exact H2|].
  apply order_lookup_loop_first. exact H.
Qed.

(** X4, at an input: A1002 sits behind A1001 in the built-in orders. *)
Lemma order_lookup_first_match_witness :
  exists o before rest,
    order_lookup commerce_tools_fallback (lit "A1002") (lit "alex@example.com")
      = Some o /\
    orders commerce_tools_fallback = before ++ o :: rest /\
    List.length before = 1%nat.
Proof.
  destruct (order_lookup commerce_tools_fallback (lit "A1002")
                         (lit "alex@example.com")) as [o|] eqn:E;
    [|vm_compute in E; discriminate].
  destruct (order_lookup_first_match _ _ _ _ E)
    as [_ [_ [before [rest [Hs _]]]]].
  exists o, before, rest. split; [reflexivity|]. split; [exact Hs|].
  vm_compute in E. injection E as <-.
  destruct before as [|x [|y [|z before]]]; try reflexivity;
    exfalso; vm_compute in Hs; try discriminate.
  injection Hs as _ _ _ Hs. destruct before; discriminate.
Defined.

Lemma parse_utc_raises (s : str) (e : exn) :
  parse_utc s = Raise e -> e = ValueError.
Proof.
  unfold parse_utc, fromisoformat.
  destruct (existsb is_surrogate _); cbn [bind]; [congruence|].
  destruct (parse_isoformat _); cbn [bind]; [discriminate | congruence].
Qed.

(** X5.  [order_cancel] raises exactly when the order is found and the
    order's timestamp or the reference time cannot be read, and what it
    raises is [ValueError]; a lookup miss never raises, whatever the
    reference time. *)
Theorem order_cancel_raises_iff
        (CURRENT_TIME : option str) (hours_text : Z -> str)
        (self : CommerceTools) (order_id email : str) (now : option str)
        (e : exn) :
  order_cancel CURRENT_TIME hours_text self order_id email now = Raise e <->
  e = ValueError /\
  exists order,
    order_lookup self order_id email = Some order /\
    (parse_utc (o_created_at order) = Raise ValueError \/
     parse_utc (reference_time CURRENT_TIME now) = Raise ValueError).
Proof.
  unfold order_cancel. fold (reference_time CURRENT_TIME now).
  destruct (order_lookup self order_id email) as [order|].
  - destruct (parse_utc (o_created_at order)) as [c|e1] eqn:Ec; cbn [bind].
    + destruct (parse_utc (reference_time CURRENT_TIME now)) as [n|e2] eqn:En;
        cbn [bind].
      * split.
        -- destruct (within_sixty_minutes (timedelta_us n c)); discriminate.
        -- intros [_ [o [Ho [H|H]]]]; injection Ho as <-; congruence.
      * pose proof (parse_utc_raises _ _ En) as ->. split.
        -- intros H. injection H as <-. split; [reflexivity|].
           exists order. auto.
        -- intros [-> _]. reflexivity.
    + pose proof (parse_utc_raises _ _ Ec) as ->. split.
      * intros H. injection H as <-. split; [reflexivity|].
        exists order. auto.
      * intros [-> _]. reflexivity.
  - split; [discriminate|]. intros [_ [o [Ho _]]]. discriminate.
Qed.

(** X5, at an input: a reference time that is no timestamp, on an
    order that exists. *)
Lemma order_cancel_raises_iff_witness :
  order_cancel None decimal1_hours commerce_tools_fallback
               (lit "A1003") (lit "mira@example.com") (Some (lit "now")) =
  Raise ValueError.
Proof.
  apply order_cancel_raises_iff. split; [reflexivity|].
  eexists. split; [vm_compute; reflexivity|].
  right. vm_compute. reflexivity.
Defined.

(** X6.  Every dict [order_cancel] returns is coherent: the reason is
    one of the three codes; [success] goes with [within_policy]; the
    alternatives are there, and are the three fixed ones, exactly for
    [policy_violation]; [time_diff_minutes] is missing exactly for
    [order_not_found], and otherwise it is the float
    [round(minutes, 1)] of the difference between the two clock
    readings as the code takes it (zones dropped), a difference of at
    most sixty minutes for [within_policy] and of more for
    [policy_violation]. *)
Theorem order_cancel_result_coherent
        (CURRENT_TIME : option str) (hours_text : Z -> str)
        (self : CommerceTools) (order_id email : str) (now : option str)
        (r : CancelResult) :
  order_cancel CURRENT_TIME hours_text self order_id email now = Ok r ->
  In (reason r) [lit "order_not_found"; lit "within_policy";
                 lit "policy_violation"] /\
  (success r = true <-> reason r = lit "within_policy") /\
  (reason r = lit "policy_violation" <->
   alternatives r = Some fixed_alternatives) /\
  (reason r <> lit "policy_violation" -> alternatives r = None) /\
  (reason r = lit "order_not_found" <-> time_diff_minutes r = None) /\
  (reason r = lit "order_not_found" -> r = order_not_found_result) /\
  (reason r <> lit "order_not_found" ->
   exists order created current,
     order_lookup self order_id email = Some order /\
     parse_utc (o_created_at order) = Ok created /\
     parse_utc (reference_time CURRENT_TIME now) = Ok current /\
     time_diff_minutes r =
       Some (round1_minutes (timedelta_us current created)) /\
     (reason r = lit "within_policy" <->
      timedelta_us current created <= sixty_minutes) /\
     (reason r = lit "policy_violation" <->
      sixty_minutes < timedelta_us current created)).
Proof.
  assert (D1 : lit "order_not_found" <> lit "within_policy")
    by (vm_compute; discriminate).
  assert (D2 : lit "order_not_found" <> lit "policy_violation")
    by (vm_compute; discriminate).
  assert (D3 : lit "within_policy" <> lit "policy_violation")
    by (vm_compute; discriminate).
  unfold order_cancel. fold (reference_time CURRENT_TIME now).
  destruct (order_lookup self order_id email) as [order|].
  - destruct (parse_utc (o_created_at order)) as [c|] eqn:Ec; [|discriminate].
    cbn [bind].
    destruct (parse_utc (reference_time CURRENT_TIME now)) as [n|] eqn:En;
      [|discriminate].
    cbn [bind]. rewrite within_sixty_minutes_exact.
    destruct (timedelta_us n c <=? sixty_minutes) eqn:E;
      intros H; injection H as <-;
      cbn [success reason message time_diff_minutes alternatives];
      [apply Z.leb_le in E | apply Z.leb_gt in E].
    + split; [right; left; reflexivity|].
      split; [split; reflexivity|].
      split; [split; [congruence | discriminate]|].
      split; [reflexivity|].
      split; [split; [congruence | discriminate]|].
      split; [congruence|].
      intros _. exists order, c, n.
      repeat split; auto; try congruence; intros; lia.
    + split; [right; right; left; reflexivity|].
      split; [split; [discriminate | congruence]|].
      split; [split; reflexivity|].
      split; [congruence|].
      split; [split; [congruence | discriminate]|].
      split; [congruence|].
      intros _. exists order, c, n.
      repeat split; auto; try congruence; intros; lia.
  - intros H. injection H as <-.
    cbn [success reason message time_diff_minutes alternatives
         order_not_found_result].
    split; [left; reflexivity|].
    split; [split; [discriminate | congruence]|].
    split; [split; [congruence | discriminate]|].
    split; [reflexivity|].
    split; [split; reflexivity|].
    split; [reflexivity|].
    intros H. congruence.
Qed.

(** X6, at an input: order A1002 at the default reference time, 1320
    minutes after it was placed. *)
Lemma order_cancel_result_coherent_witness :
  exists r,
    order_cancel None decimal1_hours commerce_tools_fallback
                 (lit "A1002") (lit "alex@example.com") None = Ok r /\
    (reason r = lit "policy_violation" <->
     alternatives r = Some fixed_alternatives) /\
    (reason r = lit "order_not_found" <-> time_diff_minutes r = None).
Proof.
  destruct (order_cancel None decimal1_hours commerce_tools_fallback
              (lit "A1002") (lit "alex@example.com") None) as [r|] eqn:E;
    [|vm_compute in E; discriminate].
  exists r. split; [reflexivity|].
  destruct (order_cancel_result_coherent _ _ _ _ _ _ _ E)
    as [_ [_ [H3 [_ [H5 _]]]]].
  split; [exact H3 | exact H5].
Defined.

(* ================================================================== *)
(** * More on what the patterns extract *)
(* ================================================================== *)

Lemma exec_Times {A} (n : nat) (p : char -> bool) :
  forall (prev : option char) (s : str) (g : option str)
         (k : option char -> str -> option str -> option A) (res : A),
    exec (Times n p) prev s g k = Some res ->
    exists s1 s2,
      s = s1 ++ s2 /\ List.length s1 = n /\ forallb p s1 = true /\
      k (after prev s1) s2 g = Some res.
Proof.
  induction n as [|n IH]; intros prev s g k res; cbn [Times exec].
  - intros H. exists [], s. auto.
  - destruct s as [|c s]; [discriminate|].
    destruct (p c) eqn:Hp; [|discriminate].
    intros H. apply IH in H. destruct H as [s1 [s2 [-> [Hl [Hf Hk]]]]].
    exists (c :: s1), s2. cbn [app List.length forallb].
    rewrite Hp, Hf, Hl. auto.
Qed.

Lemma isdecimal_isword (c : char) : isdecimal c = true -> isword c = true.
Proof. unfold isdecimal, isword. intros ->. reflexivity. Qed.

Lemma word_at_after (prev : option char) (s : str) :
  s <> [] -> forallb isdecimal s = true -> word_at (after prev s) = true.
Proof.
  revert prev. induction s as [|c s IH]; intros prev Hne H; [contradiction|].
  cbn [forallb] in H. apply andb_true_iff in H. destruct H as [Hc Hs].
  unfold after. cbn [fold_left]. fold (after (Some c) s).
  destruct s as [|c' s'].
  - cbn. apply isdecimal_isword. exact Hc.
  - apply IH; [discriminate | exact Hs].
Qed.

Lemma match_here_re_zip (prev : option char) (s : str) (m : rmatch) :
  match_here re_zip prev s = Some m ->
  word_at prev = false /\
  exists rest,
    s = group0 m ++ rest /\ List.length (group0 m) = 6%nat /\
    forallb isdecimal (group0 m) = true /\ word_at (hd_error rest) = false.
Proof.
  unfold match_here, re_zip. cbn [exec].
  destruct (xorb (word_at prev) (word_at (hd_error s))) eqn:Ex; [|discriminate].
  intros H. apply exec_Times in H.
  destruct H as [s1 [s2 [-> [Hl [Hf Hk]]]]].
  cbn [exec] in Hk.
  destruct (xorb (word_at (after prev s1)) (word_at (hd_error s2))) eqn:Ex2;
    [|discriminate].
  injection Hk as <-. cbn [group0]. rewrite firstn_consumed.
  assert (Hne : s1 <> []) by (destruct s1; [discriminate | discriminate]).
  rewrite (word_at_after prev s1 Hne Hf) in Ex2.
  destruct s1 as [|c s1]; [contradiction|].
  cbn [app hd_error word_at] in Ex.
  cbn [forallb] in Hf. apply andb_true_iff in Hf. destruct Hf as [Hc Hf].
  rewrite (isdecimal_isword c Hc) in Ex.
  split.
  - destruct (word_at prev); [discriminate | reflexivity].
  - exists s2. split; [reflexivity|]. split; [exact Hl|].
    split; [cbn [forallb]; rewrite Hc, Hf; reflexivity|].
    destruct (word_at (hd_error s2)); [discriminate | reflexivity].
Qed.

Lemma after_app (prev : option char) (a b : str) :
  after prev (a ++ b) = after (after prev a) b.
Proof. unfold after. apply fold_left_app. Qed.

(** [re.search] by the position of the match: the pattern matches
    right there, with the text before it behind. *)
Lemma search_from_position (r : regex) (s : str) :
  forall prev m,
    search_from r prev s = Some m ->
    exists before rest,
      s = before ++ rest /\ match_here r (after prev before) rest = Some m.
Proof.
  induction s as [|c s IH]; intros prev m; cbn [search_from].
  - destruct (match_here r prev []) eqn:E; [|discriminate].
    intros H. injection H as ->. exists [], []. auto.
  - destruct (match_here r prev (c :: s)) eqn:E.
    + intros H. injection H as ->. exists [], (c :: s). auto.
    + intros H. apply IH in H. destruct H as [before [rest [-> H]]].
      exists (c :: before), rest. auto.
Qed.

(** X7.  The zip code of the delivery sentence is a stand-alone token:
    six decimal digits with no word character (letter, digit,
    underscore) right before or right after, so never six digits out
    of a longer number or glued to a word. *)
Theorem zip_match_standalone (text : str) (m : rmatch) :
  search re_zip text = Some m ->
  exists before rest,
    text = before ++ group0 m ++ rest /\
    List.length (group0 m) = 6%nat /\
    forallb isdecimal (group0 m) = true /\
    word_at (after None before) = false /\
    word_at (hd_error rest) = false.
Proof.
  unfold search. intros H. apply search_from_position in H.
  destruct H as [before [rest0 [-> H]]].
  apply match_here_re_zip in H.
  destruct H as [Hprev [rest [-> [Hl [Hd Hnext]]]]].
  exists before, rest. auto.
Qed.

(** X7, at an input. *)
Lemma zip_match_standalone_witness :
  exists m before rest,
    search re_zip (lit "to 560001, id 12345678") = Some m /\
    lit "to 560001, id 12345678" = before ++ group0 m ++ rest /\
    List.length (group0 m) = 6%nat.
Proof.
  destruct (search re_zip (lit "to 560001, id 12345678")) as [m|] eqn:E;
    [|vm_compute in E; discriminate].
  destruct (zip_match_standalone _ _ E) as [before [rest [H1 [H2 _]]]].
  exists m, before, rest. auto.
Defined.

Lemma matches_LitI (l s : str) (g g' : option str) :
  matches (LitI l) s g g' -> lower s = l /\ g' = g.
Proof.
  revert s g g'. induction l as [|c l IH]; intros s g g' M; simpl in M.
  - inversion M; subst. auto.
  - inversion M as [| |? ? s1 s2 ? g1 ? M1 M2| | | |]; subst.
    inversion M1; subst.
    apply IH in M2. destruct M2 as [<- ->].
    match goal with
    | H : char_eqb _ _ = true |- _ => apply char_eqb_eq in H; subst
    end.
    auto.
Qed.

(** A match of the order pattern: "order" in any case, blanks, then
    the captured letter and digits. *)
Lemma matches_re_order (s : str) (g' : option str) :
  matches re_order s None g' ->
  exists w sp c d,
    s = w ++ sp ++ c :: d /\ g' = Some (c :: d) /\
    lower w = lit "order" /\ sp <> [] /\ forallb isspace sp = true /\
    isletter_AZ_icase c = true /\ d <> [] /\ forallb isdecimal d = true.
Proof.
  unfold re_order. intros M.
  inversion M as [| |? ? s1 s2 ? g1 ? M1 M2| | | |]; subst.
  apply (matches_LitI (lit "order")) in M1. destruct M1 as [Hw ->].
  inversion M2 as [| |? ? s3 s4 ? g3 ? M3 M4| | | |]; subst.
  inversion M3; subst.
  inversion M4 as [| | | | |? ? ? ? M5|]; subst.
  inversion M5 as [| |? ? s5 s6 ? g5 ? M6 M7| | | |]; subst.
  inversion M6; subst. inversion M7; subst.
  exists s1, s3. eexists. eexists.
  split; [reflexivity|]. repeat split; assumption.
Qed.

(** A match of the email pattern: local part, "@", domain, ".", and a
    last label of word characters. *)
Lemma matches_re_email (s : str) (g' : option str) :
  matches re_email s None g' ->
  exists loc dom tld,
    s = loc ++ [64%N] ++ dom ++ [46%N] ++ tld /\
    loc <> [] /\ forallb email_char loc = true /\
    dom <> [] /\ forallb email_char dom = true /\
    tld <> [] /\ forallb isword tld = true.
Proof.
  unfold re_email. intros M.
  inversion M as [| |? ? s1 s2 ? g1 ? M1 M2| | | |]; subst.
  inversion M1; subst.
  inversion M2 as [| |? ? s3 s4 ? g3 ? M3 M4| | | |]; subst.
  inversion M3; subst.
  inversion M4 as [| |? ? s5 s6 ? g5 ? M5 M6| | | |]; subst.
  inversion M5; subst.
  inversion M6 as [| |? ? s7 s8 ? g7 ? M7 M8| | | |]; subst.
  inversion M7; subst. inversion M8; subst.
  repeat match goal with
         | H : char_eqb _ _ = true |- _ => apply char_eqb_eq in H; subst
         end.
  exists s1, s5, s8. repeat split; assumption.
Qed.

(** X8.  What the collector and the guard hand to the store: an order
    id that is one letter followed by decimal digits, standing in the
    text after "order" (in any case) and blanks, and an email that
    stands in the text and reads local@domain.label, the local part and
    the domain made of word characters, dots and hyphens, the last
    label of word characters. *)
Theorem extracted_identifiers_shape (text order_id email : str) :
  extract_order_email text = Some (order_id, email) ->
  (exists c d,
      order_id = c :: d /\ isletter_AZ_icase c = true /\
      d <> [] /\ forallb isdecimal d = true) /\
  (exists w sp,
      Substring (w ++ sp ++ order_id) text /\ lower w = lit "order" /\
      sp <> [] /\ forallb isspace sp = true) /\
  Substring email text /\
  (exists loc dom tld,
      email = loc ++ [64%N] ++ dom ++ [46%N] ++ tld /\
      loc <> [] /\ forallb email_char loc = true /\
      dom <> [] /\ forallb email_char dom = true /\
      tld <> [] /\ forallb isword tld = true).
Proof.
  unfold extract_order_email.
  destruct (search re_order text) as [om|] eqn:Eo; [|discriminate].
  destruct (search re_email text) as [em|] eqn:Ee; [|discriminate].
  destruct (group1 om) as [oid|] eqn:Eg; [|discriminate].
  intros H. injection H as <- <-.
  apply search_from_sound in Eo. destruct Eo as [b1 [r1 [Ht1 M1]]].
  apply search_from_sound in Ee. destruct Ee as [b2 [r2 [Ht2 M2]]].
  apply matches_re_order in M1.
  destruct M1 as [w [sp [c [d [Hs [Hg [Hw [Hsp1 [Hsp2 [Hc [Hd1 Hd2]]]]]]]]]]].
  rewrite Eg in Hg. injection Hg as ->.
  apply matches_re_email in M2.
  split; [exists c, d; auto|].
  split; [exists w, sp; split; [|auto]; exists b1, r1; rewrite <- Hs; exact Ht1|].
  split; [exists b2, r2; exact Ht2 | exact M2].
Qed.

(** X8, at an input: the cancellation prompt of the test runner. *)
Lemma extracted_identifiers_shape_witness :
  Substring (lit "mira@example.com")
            (lit "Cancel order A1003 - email mira@example.com.").
Proof.
  apply (extracted_identifiers_shape
           (lit "Cancel order A1003 - email mira@example.com.")
           (lit "A1003") (lit "mira@example.com")).
  vm_compute. reflexivity.
Defined.

(* ================================================================== *)
(** * More on the trace and its schema *)
(* ================================================================== *)

(** X9.  The evidence entries of the trace are projections: a product
    shows its id, title, price, sizes and color, never its tags; an
    order shows its order id (also under "id") and its email, never its
    creation time nor its items. *)
Theorem trace_evidence_projection (e : Evidence) :
  (forall p, e_data e = DProduct p ->
             trace_evidence e =
             [ (lit "id", JStr (p_id p)); (lit "title", JStr (p_title p));
               (lit "price", JInt (p_price p));
               (lit "sizes", json_strs (p_sizes p));
               (lit "color", JStr (p_color p)) ]) /\
  (forall o, e_data e = DOrder o ->
             trace_evidence e =
             [ (lit "id", JStr (o_order_id o));
               (lit "order_id", JStr (o_order_id o));
               (lit "email", JStr (o_email o)) ]) /\
  (forall k, In k [lit "tags"; lit "created_at"; lit "items"] ->
             dict_get (trace_evidence e) k = None).
Proof.
  unfold trace_evidence. destruct (e_data e) as [p|o].
  - split; [intros p' H; injection H as <-; reflexivity|].
    split; [intros o H; discriminate|].
    intros k [<-|[<-|[<-|[]]]]; reflexivity.
  - split; [intros p H; discriminate|].
    split; [intros o' H; injection H as <-; reflexivity|].
    intros k [<-|[<-|[<-|[]]]]; reflexivity.
Qed.

(** X9, at an input: an order of the built-in store. *)
Lemma trace_evidence_projection_witness :
  dict_get
    (trace_evidence
       {| e_type := lit "order";
          e_data := DOrder {| o_order_id := lit "A1001";
                              o_email := lit "rehan@example.com";
                              o_created_at := lit "2025-09-07T09:30:00Z";
                              o_items := [] |} |})
    (lit "created_at") = None.
Proof.
  apply trace_evidence_projection. right. left. reflexivity.
Defined.

Lemma valid_string (v : json) :
  valid (of_type TString) v = true <-> exists s, v = JStr s.
Proof.
  destruct v; cbn; split; intros H; try discriminate;
    try (destruct H; discriminate); eauto.
Qed.

Lemma valid_object (v : json) :
  valid (of_type TObject) v = true <-> exists d, v = JObj d.
Proof.
  destruct v; cbn; split; intros H; try discriminate;
    try (destruct H; discriminate); eauto.
Qed.

Lemma valid_boolean (v : json) :
  valid (of_type TBoolean) v = true <-> exists b, v = JBool b.
Proof.
  destruct v; cbn; split; intros H; try discriminate;
    try (destruct H; discriminate); eauto.
Qed.

Lemma forallb_valid_map {A} (sc : schema) (g : A -> json) (l : list json) :
  (forall v, valid sc v = true <-> exists a, v = g a) ->
  forallb (valid sc) l = true <-> exists l', l = List.map g l'.
Proof.
  intros Hsc. induction l as [|v l IH]; cbn [forallb].
  - split; [exists []; reflexivity | reflexivity].
  - rewrite andb_true_iff, Hsc, IH. split.
    + intros [[a ->] [l' ->]]. exists (a :: l'). reflexivity.
    + intros [[|a l'] H]; [discriminate|]. injection H as -> ->. eauto.
Qed.

Lemma valid_str_array (v : json) :
  valid (Schema (Some TArray) None [] [] (Some (of_type TString)) None) v = true
  <-> str_array v.
Proof.
  unfold str_array. remember (of_type TString) as sc.
  destruct v; cbn [valid has_type andb];
    try (split; [discriminate | intros [x H]; discriminate]).
  rewrite andb_true_r. subst sc.
  rewrite (forallb_valid_map _ JStr l valid_string).
  split; intros [l' H]; exists l'; congruence.
Qed.

Lemma valid_obj_array (v : json) :
  valid (Schema (Some TArray) None [] [] (Some (of_type TObject)) None) v = true
  <-> obj_array v.
Proof.
  unfold obj_array. remember (of_type TObject) as sc.
  destruct v; cbn [valid has_type andb];
    try (split; [discriminate | intros [x H]; discriminate]).
  rewrite andb_true_r. subst sc.
  rewrite (forallb_valid_map _ JObj l valid_object).
  split; intros [l' H]; exists l'; congruence.
Qed.

(** A property that is checked when the key is there. *)
Lemma valid_if_present (o : option json) (sc : schema) (P : json -> Prop) :
  (forall v, valid sc v = true <-> P v) ->
  match o with Some x => valid sc x | None => true end = true <->
  forall x, o = Some x -> P x.
Proof.
  intros H. destruct o as [x|].
  - rewrite H. split; [intros Hx y Hy; injection Hy as <-; exact Hx | auto].
  - split; [intros _ x Hx; discriminate | reflexivity].
Qed.

(** A required key with a checked property. *)
Lemma valid_required (o : option json) (sc : schema) (P : json -> Prop) :
  (forall v, valid sc v = true <-> P v) ->
  match o with Some _ => true | None => false end &&
  match o with Some x => valid sc x | None => true end = true <->
  exists x, o = Some x /\ P x.
Proof.
  intros H. destruct o as [x|]; cbn [andb].
  - rewrite H. split; [eauto | intros [y [Hy Hp]]; injection Hy as <-; exact Hp].
  - split; [discriminate | intros [y [Hy _]]; discriminate].
Qed.

Lemma valid_decision (v : json) :
  valid (Schema None None [] [] None
           (Some [ of_type TNull;
                   Schema (Some TObject) None [lit "cancel_allowed"]
                     [ (lit "cancel_allowed", of_type TBoolean);
                       (lit "reason", of_type TString);
                       (lit "alternatives",
                        Schema (Some TArray) None [] []
                               (Some (of_type TString)) None) ]
                     None None ])) v = true
  <-> decision_shape v.
Proof.
  unfold decision_shape.
  remember (Schema (Some TArray) None [] [] (Some (of_type TString)) None)
    as s_alt.
  remember (of_type TString) as s_str.
  remember (of_type TBoolean) as s_bool.
  destruct v;
    try (cbn; split; [discriminate | intros [H|[d [H _]]]; discriminate]).
  - cbn. split; auto.
  - cbn [valid has_type forallb andb of_type]. unfold dict_has.
    match goal with
    | |- context [if ?c then 1%nat else 0%nat] => set (C := c)
    end.
    assert (HC : C = true <->
                 (exists b, dict_get l (lit "cancel_allowed") = Some (JBool b)) /\
                 (forall x, dict_get l (lit "reason") = Some x ->
                            exists s, x = JStr s) /\
                 (forall x, dict_get l (lit "alternatives") = Some x ->
                            str_array x)).
    { subst C. rewrite !andb_true_r, andb_assoc. subst s_alt s_str s_bool.
      rewrite andb_true_iff, (valid_required _ _ _ valid_boolean).
      rewrite andb_true_iff, (valid_if_present _ _ _ valid_string).
      rewrite (valid_if_present _ _ _ valid_str_array).
      split.
      - intros [[x [Hx [b ->]]] H]. split; [eauto | exact H].
      - intros [[b Hb] H]. split; [eauto | exact H]. }
    split.
    + intros H. right. exists l. split; [reflexivity|]. apply HC.
      destruct C; [reflexivity | discriminate].
    + intros [H|[d [H Hd]]]; [discriminate|]. injection H as <-.
      apply HC in Hd. rewrite Hd. reflexivity.
Qed.

Lemma andb_regroup5 (a b c d e a' b' c' d' e' : bool) :
  a && (b && (c && (d && e))) && (a' && (b' && (c' && (d' && e')))) =
  (a && a') && ((b && b') && ((c && c') && ((d && d') && (e && e')))).
Proof. destruct a, b, c, d, e, a', b', c', d'; reflexivity. Qed.

Lemma valid_intent (v : json) :
  valid (Schema (Some TString)
                (Some [lit "product_assist"; lit "order_help"; lit "other"])
                [] [] None None) v = true <->
  exists i, v = JStr i /\
            In i [lit "product_assist"; lit "order_help"; lit "other"].
Proof.
  destruct v;
    try (cbn; split; [discriminate | intros [i [H _]]; discriminate]).
  cbn [valid has_type andb]. rewrite !andb_true_r, str_in_spec. split.
  - intros H. eauto.
  - intros [i [H Hi]]. injection H as <-. exact Hi.
Qed.

(** X10.  What [validate_trace] accepts, read off [TRACE_SCHEMA]: a
    JSON object that has the five keys, with an intent among the three
    names, tools that are an array of strings, evidence that is an array
    of objects, a policy decision that is null or an object with a
    boolean [cancel_allowed] (and, when present, a string [reason] and
    an array of strings [alternatives]), and a string final message.
    It raises the validation error on everything else; further keys are
    ignored. *)
Theorem validate_trace_accepts_iff (j : json) :
  (validate_trace j = Ok true <-> trace_shape j) /\
  (validate_trace j = Raise ValidationError <-> ~ trace_shape j).
Proof.
  assert (H : valid TRACE_SCHEMA j = true <-> trace_shape j).
  { unfold trace_shape, TRACE_SCHEMA.
    remember (Schema (Some TString)
                (Some [lit "product_assist"; lit "order_help"; lit "other"])
                [] [] None None) as s_intent.
    remember (Schema (Some TArray) None [] [] (Some (of_type TObject)) None)
      as s_ev.
    remember (Schema None None [] [] None (Some _)) as s_pd.
    remember (Schema (Some TArray) None [] [] (Some (of_type TString)) None)
      as s_tools.
    remember (of_type TString) as s_fm.
    destruct j;
      try (cbn; split; [discriminate | intros [d [Hd _]]; discriminate]).
    cbn [valid has_type forallb andb]. unfold dict_has.
    rewrite !andb_true_r.
    rewrite andb_regroup5.
    subst s_intent s_tools s_ev s_pd s_fm.
    rewrite andb_true_iff, (valid_required _ _ _ valid_intent).
    rewrite andb_true_iff, (valid_required _ _ _ valid_str_array).
    rewrite andb_true_iff, (valid_required _ _ _ valid_obj_array).
    rewrite andb_true_iff, (valid_required _ _ _ valid_decision).
    rewrite (valid_required _ _ _ valid_string).
    split.
    - intros [[x [Hx [i [-> Hi]]]] [Ht [He [Hp [y [Hy [s ->]]]]]]].
      exists l. split; [reflexivity|]. repeat split; eauto.
    - intros [d [Hd [[i [Hi Hin]] [Ht [He [Hp [s Hs]]]]]]].
      injection Hd as <-. repeat split; eauto. }
  unfold validate_trace. destruct (valid TRACE_SCHEMA j).
  - split; split; intros H'; try reflexivity; try discriminate.
    + apply H. reflexivity.
    + exfalso. apply H'. apply H. reflexivity.
  - split; split; intros H'; try reflexivity; try discriminate.
    + apply H in H'. discriminate.
    + intros Hs. apply H in Hs. discriminate.
Qed.

(** X10, at an input: an object with the five keys and one more. *)
Lemma validate_trace_accepts_iff_witness :
  validate_trace
    (JObj [ (lit "intent", JStr (lit "other"));
            (lit "tools_called", JArr []);
            (lit "evidence", JArr []);
            (lit "policy_decision", JNull);
            (lit "final_message", JStr []);
            (lit "latency_ms", JInt 12) ]) = Ok true.
Proof.
  apply validate_trace_accepts_iff.
  eexists. split; [reflexivity|].
  split; [eexists; split; [reflexivity | right; right; left; reflexivity]|].
  split; [eexists; split; [reflexivity | exists []; reflexivity]|].
  split; [eexists; split; [reflexivity | exists []; reflexivity]|].
  split; [eexists; split; [reflexivity | left; reflexivity]|].
  eexists. reflexivity.
Defined.

(* ================================================================== *)
(** * More on the pipeline *)
(* ================================================================== *)

Lemma product_search_step_length (commerce_tools : CommerceTools) (text : str)
      (ev : list Evidence) :
  product_search_step commerce_tools text = Ok ev ->
  (List.length ev <= 2)%nat.
Proof.
  unfold product_search_step.
  destruct (parse_price_max (lower text)) as [z|]; [|discriminate].
  cbn [bind].
  destruct (existsb (contains (lower text)) [lit "wedding"; lit "midi"]);
    intros H; injection H as <-; rewrite length_map, product_search_unfold;
    apply firstn_le_length.
Qed.

Lemma order_lookup_step_length (commerce_tools : CommerceTools) (text : str) :
  (List.length (order_lookup_step commerce_tools text) <= 1)%nat.
Proof.
  unfold order_lookup_step.
  destruct (extract_order_email text) as [[oid em]|]; [|cbn; lia].
  destruct (order_lookup commerce_tools oid em); cbn; lia.
Qed.

(** What a run of intent [order_help] that returns looks like. *)
Lemma run_agent_order_help_Ok CURRENT_TIME hours_text commerce_tools text out :
  classify text = lit "order_help" ->
  run_agent CURRENT_TIME hours_text commerce_tools text = Ok out ->
  exists pd reply,
    out = {| out_trace :=
               Some {| t_intent := lit "order_help";
                       t_tools_called :=
                         [lit "order_lookup"; lit "order_cancel"];
                       t_evidence :=
                         List.map trace_evidence
                                  (order_lookup_step commerce_tools text);
                       t_policy_decision := pd;
                       t_final_message := reply |};
             out_final_message := reply |} /\
    order_reply pd = Ok reply /\
    match extract_order_email text with
    | Some (order_id, email) =>
        exists r,
          order_cancel CURRENT_TIME hours_text commerce_tools
                       order_id email None = Ok r /\
          pd = Some (if success r
                     then CancelDecision true (lit "within_policy")
                                         (message r) None
                     else CancelDecision false (reason r) (message r)
                            (Some (match alternatives r with
                                   | Some a => a
                                   | None => []
                                   end)))
    | None => pd = None
    end.
Proof.
  intros Hc. rewrite (run_agent_order_help _ _ _ _ Hc). intros H.
  apply bind_Ok in H. destruct H as [pd [Hpd H]].
  apply bind_Ok in H. destruct H as [reply [Hreply H]].
  injection H as <-. exists pd, reply.
  split; [reflexivity|]. split; [exact Hreply|].
  destruct (extract_order_email text) as [[order_id email]|].
  - apply bind_Ok in Hpd. destruct Hpd as [r [Hr Hpd]].
    exists r. split; [exact Hr|].
    destruct (success r); injection Hpd as <-; reflexivity.
  - injection Hpd as <-. reflexivity.
Qed.

(** X11.  Every trace the pipeline emits carries the classified intent
    and the plan that goes with it, and its evidence is bounded: at
    most two entries for a product request, at most one for an order
    request, none (and no tool) for anything else. *)
Theorem trace_plan_and_evidence
        (CURRENT_TIME : option str) (hours_text : Z -> str)
        (commerce_tools : CommerceTools) (text : str)
        (out : AgentOutput) (t : Trace) :
  run_agent CURRENT_TIME hours_text commerce_tools text = Ok out ->
  out_trace out = Some t ->
  t_intent t = classify text /\
  ((t_intent t = lit "product_assist" /\
    t_tools_called t =
      [lit "product_search"; lit "size_recommender"; lit "eta"] /\
    (List.length (t_evidence t) <= 2)%nat /\
    t_policy_decision t = None) \/
   (t_intent t = lit "order_help" /\
    t_tools_called t = [lit "order_lookup"; lit "order_cancel"] /\
    (List.length (t_evidence t) <= 1)%nat) \/
   (t_intent t = lit "other" /\
    t_tools_called t = [] /\ t_evidence t = [])).
Proof.
  intros Hrun Ht.
  destruct (classify_values text) as [Hc|[Hc|[Hc|[]]]]; symmetry in Hc.
  - destruct (run_agent_product_assist CURRENT_TIME hours_text
                commerce_tools text out Hc Hrun) as [ev [reply [Hev [_ ->]]]].
    cbn [out_trace] in Ht. injection Ht as <-.
    cbn [t_intent t_tools_called t_evidence t_policy_decision].
    split; [symmetry; exact Hc|]. left.
    repeat split. rewrite length_map.
    exact (product_search_step_length _ _ _ Hev).
  - destruct (run_agent_order_help_Ok _ _ _ _ _ Hc Hrun)
      as [pd [reply [-> _]]].
    cbn [out_trace] in Ht. injection Ht as <-.
    cbn [t_intent t_tools_called t_evidence t_policy_decision].
    split; [symmetry; exact Hc|]. right. left.
    repeat split. rewrite length_map. apply order_lookup_step_length.
  - rewrite (run_agent_other _ _ _ _ Hc) in Hrun. cbv zeta in Hrun.
    injection Hrun as <-. cbn [out_trace] in Ht. injection Ht as <-.
    cbn [t_intent t_tools_called t_evidence t_policy_decision].
    split; [symmetry; exact Hc|]. right. right. auto.
Qed.

(** X11, at an input: the wedding-guest prompt. *)
Lemma trace_plan_and_evidence_witness :
  exists out t,
    run_agent None decimal1_hours commerce_tools_fallback scenario_a = Ok out /\
    out_trace out = Some t /\ t_intent t = classify scenario_a.
Proof.
  destruct (run_agent None decimal1_hours commerce_tools_fallback scenario_a)
    as [out|] eqn:E; [|vm_compute in E; discriminate].
  destruct (out_trace out) as [t|] eqn:Et;
    [|vm_compute in E; injection E as <-; discriminate].
  exists out, t. split; [reflexivity|]. split; [exact Et|].
  apply (trace_plan_and_evidence _ _ _ _ _ _ E Et).
Defined.

(** X12.  The policy decision of an emitted trace is not null in two
    cases only: an order request from which both the order id and the
    email were read, and any other message that trips the discount
    guard. *)
Theorem policy_decision_set_iff
        (CURRENT_TIME : option str) (hours_text : Z -> str)
        (commerce_tools : CommerceTools) (text : str)
        (out : AgentOutput) (t : Trace) :
  run_agent CURRENT_TIME hours_text commerce_tools text = Ok out ->
  out_trace out = Some t ->
  (t_policy_decision t <> None <->
   (classify text = lit "order_help" /\ extract_order_email text <> None) \/
   (classify text = lit "other" /\
    Substring (lit "discount code") (lower text) /\
    mentions [lit "doesn't exist"; lit "non-existent"; lit "fake"] text)).
Proof.
  assert (D1 : lit "product_assist" <> lit "order_help") by (vm_compute; discriminate).
  assert (D2 : lit "product_assist" <> lit "other") by (vm_compute; discriminate).
  assert (D3 : lit "order_help" <> lit "other") by (vm_compute; discriminate).
  intros Hrun Ht.
  rewrite <- contains_spec, <- mentions_spec.
  destruct (classify_values text) as [Hc|[Hc|[Hc|[]]]]; symmetry in Hc.
  - destruct (run_agent_product_assist CURRENT_TIME hours_text
                commerce_tools text out Hc Hrun) as [ev [reply [_ [_ ->]]]].
    cbn [out_trace] in Ht. injection Ht as <-. cbn [t_policy_decision].
    rewrite Hc. split; [congruence|].
    intros [[H1 _]|[H1 _]]; congruence.
  - destruct (run_agent_order_help_Ok _ _ _ _ _ Hc Hrun)
      as [pd [reply [-> [_ Hpd]]]].
    cbn [out_trace] in Ht. injection Ht as <-. cbn [t_policy_decision].
    rewrite Hc.
    destruct (extract_order_email text) as [[oid em]|].
    + destruct Hpd as [r [_ ->]]. split.
      * intros _. left. split; [reflexivity | discriminate].
      * intros _. discriminate.
    + subst pd. split; [congruence|].
      intros [[_ H1]|[H1 _]]; congruence.
  - rewrite (run_agent_other _ _ _ _ Hc) in Hrun. cbv zeta in Hrun.
    set (a := contains (lower text) (lit "discount code")) in *.
    set (b := existsb (contains (lower text))
                      [lit "doesn't exist"; lit "non-existent"; lit "fake"]) in *.
    clearbody a b.
    injection Hrun as <-. cbn [out_trace] in Ht. injection Ht as <-.
    cbn [t_policy_decision]. rewrite Hc.
    destruct a; destruct b; cbn [andb];
      (split; [intros H | intros [[H1 _]|[_ [H1 H2]]]]);
      try congruence; try discriminate; right; auto.
Qed.

(** X12, at an input: "hello" leaves the decision null. *)
Lemma policy_decision_set_iff_witness :
  exists out t,
    run_agent None decimal1_hours commerce_tools_fallback (lit "hello") = Ok out /\
    out_trace out = Some t /\ t_policy_decision t = None.
Proof.
  destruct (run_agent None decimal1_hours commerce_tools_fallback (lit "hello"))
    as [out|] eqn:E; [|vm_compute in E; discriminate].
  destruct (out_trace out) as [t|] eqn:Et;
    [|vm_compute in E; injection E as <-; discriminate].
  exists out, t. split; [reflexivity|]. split; [exact Et|].
  destruct (t_policy_decision t) as [pd|] eqn:Ep; [|reflexivity].
  exfalso.
  assert (Hne : t_policy_decision t <> None) by (rewrite Ep; discriminate).
  apply (policy_decision_set_iff _ _ _ _ _ _ E Et) in Hne.
  destruct Hne as [[H _]|[_ [H _]]].
  - vm_compute in H. discriminate.
  - apply contains_spec in H. vm_compute in H. discriminate.
Defined.

(** X13.  Both identifiers read, but no order carries them: the run
    returns, with no evidence, the decision [order_not_found] with an
    empty list of alternatives, and a reply that announces alternatives
    and lists none. *)
Theorem order_not_found_run
        (CURRENT_TIME : option str) (hours_text : Z -> str)
        (commerce_tools : CommerceTools) (text order_id email : str) :
  classify text = lit "order_help" ->
  extract_order_email text = Some (order_id, email) ->
  order_lookup commerce_tools order_id email = None ->
  run_agent CURRENT_TIME hours_text commerce_tools text =
  Ok {| out_trace :=
          Some {| t_intent := lit "order_help";
                  t_tools_called := [lit "order_lookup"; lit "order_cancel"];
                  t_evidence := [];
                  t_policy_decision :=
                    Some (CancelDecision false (lit "order_not_found")
                            (lit "Order not found with provided ID and email")
                            (Some []));
                  t_final_message := order_not_found_reply |};
        out_final_message := order_not_found_reply |}.
Proof.
  intros Hc He Hl. rewrite (run_agent_order_help _ _ _ _ Hc).
  unfold order_lookup_step. rewrite He, Hl.
  rewrite (order_cancel_not_found _ _ _ _ _ _ Hl). reflexivity.
Qed.

(** X13, at an input: an id the built-in store does not have. *)
Lemma order_not_found_run_witness :
  option_map out_final_message
    (match run_agent None decimal1_hours commerce_tools_fallback
                     (lit "Cancel order Z9 for me, a@b.co") with
     | Ok out => Some out
     | Raise _ => None
     end) = Some order_not_found_reply.
Proof.
  rewrite (order_not_found_run None decimal1_hours commerce_tools_fallback
             (lit "Cancel order Z9 for me, a@b.co") (lit "Z9") (lit "a@b.co")).
  - reflexivity.
  - vm_compute. reflexivity.
  - vm_compute. reflexivity.
  - vm_compute. reflexivity.
Defined.

Lemma order_cancel_found_cases CURRENT_TIME hours_text self order_id email now
      (order : Order) (r : CancelResult) :
  order_lookup self order_id email = Some order ->
  order_cancel CURRENT_TIME hours_text self order_id email now = Ok r ->
  exists c n,
    parse_utc (o_created_at order) = Ok c /\
    parse_utc (reference_time CURRENT_TIME now) = Ok n /\
    ((timedelta_us n c <= sixty_minutes /\
      r = {| success := true; reason := lit "within_policy";
             message := cancelled_message order_id;
             time_diff_minutes := Some (round1_minutes (timedelta_us n c));
             alternatives := None |}) \/
     (sixty_minutes < timedelta_us n c /\
      r = {| success := false; reason := lit "policy_violation";
             message := too_late_message hours_text (timedelta_us n c);
             time_diff_minutes := Some (round1_minutes (timedelta_us n c));
             alternatives := Some fixed_alternatives |})).
Proof.
  intros Hl. unfold order_cancel. fold (reference_time CURRENT_TIME now).
  rewrite Hl.
  destruct (parse_utc (o_created_at order)) as [c|]; [|discriminate].
  cbn [bind].
  destruct (parse_utc (reference_time CURRENT_TIME now)) as [n|];
    [|discriminate].
  cbn [bind]. rewrite within_sixty_minutes_exact.
  destruct (timedelta_us n c <=? sixty_minutes) eqn:E; intros H;
    injection H as <-; exists c, n; split; try reflexivity;
    split; try reflexivity.
  - left. apply Z.leb_le in E. auto.
  - right. apply Z.leb_gt in E. auto.
Qed.

(** X14.  Collector and guard agree: in the trace of an order request,
    an order is in the evidence exactly when the policy decision is a
    cancellation decision about an order that was found, that is, one
    whose reason is not [order_not_found]. *)
Theorem order_evidence_iff_decision_found
        (CURRENT_TIME : option str) (hours_text : Z -> str)
        (commerce_tools : CommerceTools) (text : str)
        (out : AgentOutput) (t : Trace) :
  classify text = lit "order_help" ->
  run_agent CURRENT_TIME hours_text commerce_tools text = Ok out ->
  out_trace out = Some t ->
  (t_evidence t <> [] <->
   exists b r m a,
     t_policy_decision t = Some (CancelDecision b r m a) /\
     r <> lit "order_not_found").
Proof.
  assert (D1 : lit "within_policy" <> lit "order_not_found")
    by (vm_compute; discriminate).
  assert (D2 : lit "policy_violation" <> lit "order_not_found")
    by (vm_compute; discriminate).
  intros Hc Hrun Ht.
  destruct (run_agent_order_help_Ok _ _ _ _ _ Hc Hrun)
    as [pd [reply [-> [_ Hpd]]]].
  cbn [out_trace] in Ht. injection Ht as <-.
  cbn [t_evidence t_policy_decision]. unfold order_lookup_step.
  destruct (extract_order_email text) as [[order_id email]|].
  - destruct Hpd as [r [Hr ->]].
    destruct (order_lookup commerce_tools order_id email) as [order|] eqn:El.
    + destruct (order_cancel_found_cases _ _ _ _ _ _ _ _ El Hr)
        as [c [n [_ [_ [[_ ->]|[_ ->]]]]]];
        cbn [success reason message alternatives map];
        (split; [intros _; do 4 eexists; split; [reflexivity | assumption]
                | intros _; discriminate]).
    + rewrite (order_cancel_not_found _ _ _ _ _ _ El) in Hr.
      injection Hr as <-.
      cbn [success reason message alternatives order_not_found_result map].
      split; [congruence|].
      intros [b [r [m [a [H Hr]]]]]. injection H as _ <- _ _. congruence.
  - subst pd. cbn [map]. split; [congruence|].
    intros [b [r [m [a [H _]]]]]. discriminate.
Qed.

(** X14, at an input: the cancellation prompt of the test runner. *)
Lemma order_evidence_iff_decision_found_witness :
  exists out t,
    run_agent None decimal1_hours commerce_tools_fallback
              (lit "Cancel order A1003 - email mira@example.com.") = Ok out /\
    out_trace out = Some t /\
    exists b r m a,
      t_policy_decision t = Some (CancelDecision b r m a) /\
      r <> lit "order_not_found".
Proof.
  destruct (run_agent None decimal1_hours commerce_tools_fallback
              (lit "Cancel order A1003 - email mira@example.com."))
    as [out|] eqn:E; [|vm_compute in E; discriminate].
  destruct (out_trace out) as [t|] eqn:Et;
    [|vm_compute in E; injection E as <-; discriminate].
  exists out, t. split; [reflexivity|]. split; [exact Et|].
  assert (Hc : classify (lit "Cancel order A1003 - email mira@example.com.") =
               lit "order_help") by (vm_compute; reflexivity).
  apply (order_evidence_iff_decision_found _ _ _ _ _ _ Hc E Et).
  vm_compute in E. injection E as <-. cbn [out_trace] in Et.
  injection Et as <-. cbn [t_evidence]. discriminate.
Defined.

(** X15.  With a store whose orders all carry a readable creation time
    and a readable reference time (the configured one or the default),
    the pipeline returns a trace and a reply for every message of at
    most 4300 characters: no price in it is too long for [int]. *)
Theorem run_agent_returns_on_readable_store
        (CURRENT_TIME : option str) (hours_text : Z -> str)
        (commerce_tools : CommerceTools) (text : str) :
  Forall (fun o => readable (o_created_at o)) (orders commerce_tools) ->
  readable (reference_time CURRENT_TIME None) ->
  (List.length text <= int_max_str_digits)%nat ->
  exists out, run_agent CURRENT_TIME hours_text commerce_tools text = Ok out.
Proof.
  intros Hstore Hnow Hlen. apply run_agent_total.
  - intros order_id email _ _. apply order_cancel_total.
    intros order Hl. split; [|exact Hnow].
    apply order_lookup_loop_Some in Hl. destruct Hl as [Hin _].
    rewrite Forall_forall in Hstore. apply Hstore. exact Hin.
  - intros _. apply parse_price_max_short. exact Hlen.
Qed.

(** X15, at an input: the built-in orders and the default time. *)
Lemma run_agent_returns_on_readable_store_witness :
  exists out,
    run_agent None decimal1_hours commerce_tools_fallback
              (lit "cancel order A1001, rehan@example.com") = Ok out.
Proof.
  apply run_agent_returns_on_readable_store.
  - repeat constructor; eexists; vm_compute; reflexivity.
  - eexists. vm_compute. reflexivity.
  - apply Nat.leb_le. vm_compute. reflexivity.
Defined.

Lemma product_lines_products (ps : list Product) :
  forall final_message,
    product_lines (List.map DProduct ps) final_message =
    Ok (final_message ++ List.concat (List.map bullet_line ps)).
Proof.
  induction ps as [|p ps IH]; intros final_message;
    cbn [List.map product_lines List.concat].
  - rewrite app_nil_r. reflexivity.
  - change (product_line (DProduct p)) with (Ok (bullet_line p)).
    cbn [bind]. rewrite IH, <- app_assoc. reflexivity.
Qed.

Lemma products_of_evidence (ps : list Product) :
  List.map e_data
           (filter (fun e => str_eqb (e_type e) (lit "product"))
                   (List.map product_evidence ps)) =
  List.map DProduct ps.
Proof.
  induction ps as [|p ps IH]; [reflexivity|].
  cbn [List.map filter product_evidence e_type e_data].
  rewrite str_eqb_refl. cbn [List.map e_data]. f_equal. exact IH.
Qed.

(** "between m/l" contains "m/l": the first test of the responder is
    covered by the second. *)
Lemma contains_between_ml (l : str) :
  contains l (lit "between m/l") || contains l (lit "m/l") =
  contains l (lit "m/l").
Proof.
  destruct (contains l (lit "m/l")) eqn:E; [apply orb_true_r|].
  rewrite orb_false_r. apply contains_false. intros [a [b H]].
  apply contains_false in E. apply E.
  exists (a ++ lit "between "), b. rewrite H, <- app_assoc. reflexivity.
Qed.

(** X16.  The product reply.  Without products it is the fixed
    no-match message, whatever else the text asks.  With products it
    is the count line, one bullet line per product, then the size
    sentence exactly when the text contains "m/l" in any case, then the
    delivery sentence exactly when the text has a stand-alone six-digit
    token; it never raises. *)
Theorem product_reply_structure (ps : list Product) (text : str) :
  (ps = [] -> product_reply (List.map product_evidence ps) text =
              Ok no_products_message) /\
  (ps <> [] ->
   exists delivery,
     match search re_zip text with
     | Some m => exists e, eta (group0 m) = Ok e /\
                           delivery = nl ++ lit "Delivery to " ++ group0 m ++
                                      lit ": " ++ e ++ lit "."
     | None => delivery = []
     end /\
     product_reply (List.map product_evidence ps) text =
     Ok (lit "I found " ++ str_of_Z (Z.of_nat (List.length ps)) ++
         lit " dress" ++
         (if Z.of_nat (List.length ps) >? 1 then lit "es" else []) ++
         lit " for you:" ++ nl ++ nl ++
         List.concat (List.map bullet_line ps) ++
         (if contains (lower text) (lit "m/l")
          then nl ++ size_recommender text ++ lit "." ++ nl else []) ++
         delivery)).
Proof.
  split.
  - intros ->. reflexivity.
  - intros Hne. unfold product_reply. rewrite products_of_evidence.
    replace (nonempty (List.map DProduct ps)) with true
      by (destruct ps; [contradiction | reflexivity]).
    rewrite length_map, product_lines_products. cbn [bind].
    rewrite contains_between_ml.
    destruct (search re_zip text) as [m|] eqn:Ez.
    + destruct (eta_of_zip_match _ _ Ez) as [e He]. rewrite He. cbn [bind].
      eexists. split; [exists e; split; [reflexivity | reflexivity]|].
      f_equal. destruct (contains (lower text) (lit "m/l"));
        repeat rewrite <- app_assoc; reflexivity.
    + exists []. split; [reflexivity|]. f_equal.
      destruct (contains (lower text) (lit "m/l"));
        repeat rewrite <- app_assoc; rewrite ?app_nil_r; reflexivity.
Qed.

(** X16, at an input: one product, no size question, no zip. *)
Lemma product_reply_structure_witness :
  exists delivery,
    product_reply (List.map product_evidence [P5_fallback])
                  (lit "party dress") =
    Ok (lit "I found 1 dress for you:" ++ nl ++ nl ++
        bullet_line P5_fallback ++ delivery).
Proof.
  destruct (product_reply_structure [P5_fallback] (lit "party dress"))
    as [_ H].
  destruct H as [delivery [_ H]]; [discriminate|].
  exists delivery. rewrite H. vm_compute. reflexivity.
Defined.

Lemma filter_ext_bool {A} (f g : A -> bool) (l : list A) :
  (forall x, f x = g x) -> filter f l = filter g l.
Proof.
  intros H. induction l as [|x l IH]; simpl; [reflexivity|].
  rewrite H, IH. reflexivity.
Qed.

(** X17.  What the collector searches for.  A text that mentions
    "wedding" or "midi" gets products that carry the tag "wedding" or
    "midi" and, on top, have "midi" in the title or in a tag: a product
    tagged "wedding" only, without "midi" anywhere, is never gathered.
    Any other text gets the two cheapest products under the ceiling,
    whatever their tags. *)
Theorem collector_search_terms (commerce_tools : CommerceTools) (text : str)
        (ev : list Evidence) :
  product_search_step commerce_tools text = Ok ev ->
  (mentions [lit "wedding"; lit "midi"] text ->
   forall e, In e ev ->
     exists p,
       e = product_evidence p /\
       (In (lit "wedding") (p_tags p) \/ In (lit "midi") (p_tags p)) /\
       (Substring (lit "midi") (lower (p_title p)) \/
        exists t, In t (p_tags p) /\ Substring (lit "midi") (lower t))) /\
  (~ mentions [lit "wedding"; lit "midi"] text ->
   exists z,
     parse_price_max (lower text) = Ok z /\
     ev = List.map product_evidence
            (firstn 2 (sorted_by_price
                         (filter (fun p => p_price p <=? z)
                                 (products commerce_tools))))).
Proof.
  unfold product_search_step.
  destruct (parse_price_max (lower text)) as [z|]; [|discriminate].
  cbn [bind]. rewrite <- mentions_spec.
  destruct (existsb (contains (lower text)) [lit "wedding"; lit "midi"]);
    intros H; injection H as <-; split; intros Hm; try discriminate;
    try (exfalso; apply Hm; reflexivity).
  - intros e He. apply in_map_iff in He. destruct He as [p [<- Hp]].
    exists p. split; [reflexivity|].
    apply product_search_sound in Hp. destruct Hp as [_ Hp].
    apply matchesb_spec in Hp. destruct Hp as [_ [Ht Hq]].
    split.
    + destruct Ht as [t [[<-|[<-|[]]] Hin]]; [discriminate | left | right];
        exact Hin.
    + apply Hq. discriminate.
  - exists z. split; [reflexivity|].
    rewrite product_search_unfold. unfold product_evidence.
    f_equal. f_equal. f_equal. apply filter_ext_bool.
    intros p. unfold matchesb. cbn [nonempty negb orb].
    rewrite !andb_true_r. reflexivity.
Qed.

(** X17, at an input: "party dress under 200" mentions neither word. *)
Lemma collector_search_terms_witness :
  exists z,
    parse_price_max (lower (lit "party dress under 200")) = Ok z /\
    product_search_step commerce_tools_fallback (lit "party dress under 200") =
    Ok (List.map product_evidence
          (firstn 2 (sorted_by_price
                       (filter (fun p => p_price p <=? z) fallback_products)))).
Proof.
  destruct (product_search_step commerce_tools_fallback
              (lit "party dress under 200")) as [ev|] eqn:E;
    [|vm_compute in E; discriminate].
  destruct (collector_search_terms _ _ _ E) as [_ H].
  destruct H as [z [Hz ->]].
  - intros Hm. apply mentions_spec in Hm. vm_compute in Hm. discriminate.
  - exists z. split; [exact Hz | reflexivity].
Defined.

Lemma order_cancel_found CURRENT_TIME hours_text self order_id email now
      (order : Order) (c n : datetime) :
  order_lookup self order_id email = Some order ->
  parse_utc (o_created_at order) = Ok c ->
  parse_utc (reference_time CURRENT_TIME now) = Ok n ->
  order_cancel CURRENT_TIME hours_text self order_id email now =
  Ok (if timedelta_us n c <=? sixty_minutes
      then {| success := true; reason := lit "within_policy";
              message := cancelled_message order_id;
              time_diff_minutes := Some (round1_minutes (timedelta_us n c));
              alternatives := None |}
      else {| success := false; reason := lit "policy_violation";
              message := too_late_message hours_text (timedelta_us n c);
              time_diff_minutes := Some (round1_minutes (timedelta_us n c));
              alternatives := Some fixed_alternatives |}).
Proof.
  intros Hl Hc Hn. unfold order_cancel. fold (reference_time CURRENT_TIME now).
  rewrite Hl, Hc. cbn [bind]. rewrite Hn. cbn [bind]. rewrite within_sixty_minutes_exact.
  destruct (timedelta_us n c <=? sixty_minutes); reflexivity.
Qed.

(** X18.  A cancellation request end to end.  With both identifiers
    read, the order found and both timestamps readable and written in
    UTC ("Z", a zero offset, or no zone): when at most sixty minutes
    have elapsed the reply is the tool's success message with the order
    id as the customer wrote it, and the decision allows the
    cancellation without alternatives; when more have elapsed the reply
    is the tool's message followed by the three fixed alternatives
    numbered 1 to 3 and the closing question.  Either way the order is
    the one entry of the evidence. *)
Theorem cancellation_run
        (CURRENT_TIME : option str) (hours_text : Z -> str)
        (commerce_tools : CommerceTools) (text order_id email : str)
        (order : Order) (created current : stamp) :
  classify text = lit "order_help" ->
  extract_order_email text = Some (order_id, email) ->
  order_lookup commerce_tools order_id email = Some order ->
  read_stamp (o_created_at order) = Ok created ->
  read_stamp (reference_time CURRENT_TIME None) = Ok current ->
  in_utc created -> in_utc current ->
  let elapsed := elapsed_us created current in
  let run := run_agent CURRENT_TIME hours_text commerce_tools text in
  let trace_with pd reply :=
    {| t_intent := lit "order_help";
       t_tools_called := [lit "order_lookup"; lit "order_cancel"];
       t_evidence := [trace_evidence (order_evidence order)];
       t_policy_decision := Some pd;
       t_final_message := reply |} in
  (elapsed <= sixty_minutes ->
   run = Ok {| out_trace :=
                 Some (trace_with
                         (CancelDecision true (lit "within_policy")
                                         (cancelled_message order_id) None)
                         (cancelled_message order_id));
               out_final_message := cancelled_message order_id |}) /\
  (sixty_minutes < elapsed ->
   run = Ok {| out_trace :=
                 Some (trace_with
                         (CancelDecision false (lit "policy_violation")
                            (too_late_message hours_text elapsed)
                            (Some fixed_alternatives))
                         (blocked_reply (too_late_message hours_text elapsed)));
               out_final_message :=
                 blocked_reply (too_late_message hours_text elapsed) |}).
Proof.
  intros Hc He Hl Hcr Hcu Uc Un elapsed run trace_with.
  subst elapsed run trace_with.
  rewrite <- (elapsed_in_utc _ _ Uc Un).
  assert (Hcr' : parse_utc (o_created_at order) = Ok (wall created))
    by (apply parse_utc_read; eauto).
  assert (Hcu' : parse_utc (reference_time CURRENT_TIME None) =
                 Ok (wall current))
    by (apply parse_utc_read; eauto).
  rewrite (run_agent_order_help _ _ _ _ Hc).
  unfold order_lookup_step. rewrite He, Hl.
  rewrite (order_cancel_found _ _ _ _ _ _ _ _ _ Hl Hcr' Hcu').
  split; intros H.
  - apply Z.leb_le in H. rewrite H. reflexivity.
  - apply Z.leb_gt in H. rewrite H.
    cbn [bind success reason message alternatives].
    unfold order_reply. cbn [get_cancel_allowed get_message bind
                            get_alternatives fixed_alternatives
                            alternative_lines].
    unfold blocked_reply.
    change (str_of_Z 1) with (lit "1").
    change (str_of_Z (1 + 1)) with (lit "2").
    change (str_of_Z (1 + 1 + 1)) with (lit "3").
    repeat rewrite <- app_assoc. reflexivity.
Qed.

(** X18, at an input: order A1003 at 12:30 UTC of its day. *)
Lemma cancellation_run_witness :
  option_map out_final_message
    (match run_agent (Some (lit "2025-09-07T12:30:00Z")) decimal1_hours
                     commerce_tools_fallback
                     (lit "Cancel order A1003 - email mira@example.com.") with
     | Ok out => Some out
     | Raise _ => None
     end) = Some (cancelled_message (lit "A1003")).
Proof.
  pose (text := lit "Cancel order A1003 - email mira@example.com.").
  pose (created := {| wall := {| year := 2025; month := 9; day := 7;
                                 hour := 11; minute := 55; second := 0;
                                 microsecond := 0 |};
                      utcoffset := Some 0 |}).
  pose (current := {| wall := {| year := 2025; month := 9; day := 7;
                                 hour := 12; minute := 30; second := 0;
                                 microsecond := 0 |};
                      utcoffset := Some 0 |}).
  assert (Hc : classify text = lit "order_help") by (vm_compute; reflexivity).
  assert (He : extract_order_email text =
               Some (lit "A1003", lit "mira@example.com"))
    by (vm_compute; reflexivity).
  assert (Hl : order_lookup commerce_tools_fallback (lit "A1003")
                            (lit "mira@example.com") = Some A1003_fallback)
    by (vm_compute; reflexivity).
  assert (Hcr : read_stamp (o_created_at A1003_fallback) = Ok created)
    by (vm_compute; reflexivity).
  assert (Hcu : read_stamp (reference_time (Some (lit "2025-09-07T12:30:00Z"))
                                           None) = Ok current)
    by (vm_compute; reflexivity).
  assert (Uc : in_utc created) by (left; reflexivity).
  assert (Un : in_utc current) by (left; reflexivity).
  destruct (cancellation_run (Some (lit "2025-09-07T12:30:00Z")) decimal1_hours
              commerce_tools_fallback text (lit "A1003")
              (lit "mira@example.com") A1003_fallback created current
              Hc He Hl Hcr Hcu Uc Un) as [H _].
  fold text. rewrite H; [reflexivity|]. vm_compute. discriminate.
Defined.

(** X19.  The mock backend and the router agree on what a message is
    about: a message the mock acknowledges as a cancellation is routed
    to [order_help], and one it acknowledges as a product request is
    never routed to [other].  It needs a message: on an empty list it
    raises [IndexError]. *)
Theorem mock_llm_agrees_with_router (text : str) :
  (MockLLM_invoke [text] =
     Ok (lit "I'll look up your order and check our cancellation policy.") ->
   classify text = lit "order_help") /\
  (MockLLM_invoke [text] =
     Ok (lit "I'll help you find wedding dresses within your budget.") ->
   classify text = lit "product_assist" \/ classify text = lit "order_help") /\
  MockLLM_invoke [] = Raise IndexError.
Proof.
  assert (Hsub : contains (lower text) (lit "cancel order") = true ->
                 contains (lower text) (lit "cancel") = true).
  { rewrite !contains_spec. intros [a [b H]].
    exists a, (lit " order" ++ b). rewrite H.
    change (lit "cancel order") with (lit "cancel" ++ lit " order").
    rewrite <- app_assoc. reflexivity. }
  assert (Hsup : existsb (contains (lower text))
                         [lit "wedding"; lit "dress"; lit "midi"; lit "product"]
                 = true ->
                 existsb (contains (lower text)) product_keywords = true).
  { rewrite !existsb_exists. intros [kw [Hin H]]. exists kw. split; [|exact H].
    unfold product_keywords.
    destruct Hin as [<-|[<-|[<-|[<-|[]]]]]; cbn; tauto. }
  unfold MockLLM_invoke. cbn [nonempty last]. rewrite classify_unfold.
  split; [|split; [|reflexivity]].
  - destruct (existsb (contains (lower text))
                      [lit "wedding"; lit "dress"; lit "midi"; lit "product"]);
      [intros H; vm_compute in H; discriminate|].
    destruct (contains (lower text) (lit "cancel order")) eqn:E.
    + intros _. specialize (Hsub eq_refl).
      rewrite Hsub, andb_false_r. cbn [existsb order_keywords].
      rewrite Hsub. reflexivity.
    + destruct (contains (lower text) (lit "discount code"));
        intros H; vm_compute in H; discriminate.
  - destruct (existsb (contains (lower text))
                      [lit "wedding"; lit "dress"; lit "midi"; lit "product"]).
    + intros _. rewrite (Hsup eq_refl).
      destruct (contains (lower text) (lit "cancel")) eqn:E; cbn [andb negb].
      * right. cbn [existsb order_keywords]. rewrite E. reflexivity.
      * left. reflexivity.
    + destruct (contains (lower text) (lit "cancel order"));
        [intros H; vm_compute in H; discriminate|].
      destruct (contains (lower text) (lit "discount code"));
        intros H; vm_compute in H; discriminate.
Qed.

(** X19, at an input. *)
Lemma mock_llm_agrees_with_router_witness :
  classify (lit "please CANCEL ORDER a77") = lit "order_help".
Proof.
  apply mock_llm_agrees_with_router. vm_compute. reflexivity.
Defined.

(* ================================================================== *)
(** * The cancellation window and the zone of the timestamps *)
(* ================================================================== *)

(** X20.  On timestamps written in UTC ("Z", a zero offset, or no
    zone) [order_cancel] goes by the time elapsed: for an order that is
    found, at most sixty minutes after its creation (sixty included)
    the cancellation is allowed with reason [within_policy] and without
    alternatives; later it is refused with reason [policy_violation],
    the three fixed alternatives and the message that tells the hours;
    either way [time_diff_minutes] is the elapsed minutes rounded to
    one decimal. *)
Theorem order_cancel_policy_in_utc
        (CURRENT_TIME : option str) (hours_text : Z -> str)
        (self : CommerceTools) (order_id email : str) (now : option str)
        (order : Order) (created current : stamp) :
  order_lookup self order_id email = Some order ->
  read_stamp (o_created_at order) = Ok created ->
  read_stamp (reference_time CURRENT_TIME now) = Ok current ->
  in_utc created -> in_utc current ->
  let elapsed := elapsed_us created current in
  let cancel := order_cancel CURRENT_TIME hours_text self order_id email now in
  (elapsed <= sixty_minutes ->
   cancel = Ok {| success := true; reason := lit "within_policy";
                  message := cancelled_message order_id;
                  time_diff_minutes := Some (round1_minutes elapsed);
                  alternatives := None |}) /\
  (sixty_minutes < elapsed ->
   cancel = Ok {| success := false; reason := lit "policy_violation";
                  message := too_late_message hours_text elapsed;
                  time_diff_minutes := Some (round1_minutes elapsed);
                  alternatives := Some fixed_alternatives |}).
Proof.
  intros Hl Hcr Hcu Uc Un elapsed cancel. subst elapsed cancel.
  rewrite <- (elapsed_in_utc _ _ Uc Un).
  assert (Hcr' : parse_utc (o_created_at order) = Ok (wall created))
    by (apply parse_utc_read; eauto).
  assert (Hcu' : parse_utc (reference_time CURRENT_TIME now) =
                 Ok (wall current))
    by (apply parse_utc_read; eauto).
  rewrite (order_cancel_found _ _ _ _ _ _ _ _ _ Hl Hcr' Hcu').
  split; intros H.
  - apply Z.leb_le in H. rewrite H. reflexivity.
  - apply Z.leb_gt in H. rewrite H. reflexivity.
Qed.

(** X20, at an input: order A1003, placed at 11:55 UTC, is cancelled at
    12:55 UTC sharp, and the dict says 60.0 minutes. *)
Lemma order_cancel_policy_in_utc_witness :
  order_cancel None decimal1_hours commerce_tools_fallback
               (lit "A1003") (lit "mira@example.com")
               (Some (lit "2025-09-07T12:55:00Z")) =
  Ok {| success := true; reason := lit "within_policy";
        message := cancelled_message (lit "A1003");
        time_diff_minutes := Some {| negative := false; tenths := 600 |};
        alternatives := None |}.
Proof.
  pose (created := {| wall := {| year := 2025; month := 9; day := 7;
                                 hour := 11; minute := 55; second := 0;
                                 microsecond := 0 |};
                      utcoffset := Some 0 |}).
  pose (current := {| wall := {| year := 2025; month := 9; day := 7;
                                 hour := 12; minute := 55; second := 0;
                                 microsecond := 0 |};
                      utcoffset := Some 0 |}).
  assert (Hl : order_lookup commerce_tools_fallback (lit "A1003")
                            (lit "mira@example.com") = Some A1003_fallback)
    by (vm_compute; reflexivity).
  assert (Hcr : read_stamp (o_created_at A1003_fallback) = Ok created)
    by (vm_compute; reflexivity).
  assert (Hcu : read_stamp (reference_time None
                              (Some (lit "2025-09-07T12:55:00Z"))) = Ok current)
    by (vm_compute; reflexivity).
  assert (Uc : in_utc created) by (left; reflexivity).
  assert (Un : in_utc current) by (left; reflexivity).
  destruct (order_cancel_policy_in_utc None decimal1_hours
              commerce_tools_fallback (lit "A1003") (lit "mira@example.com")
              (Some (lit "2025-09-07T12:55:00Z")) A1003_fallback
              created current Hl Hcr Hcu Uc Un) as [H _].
  rewrite H; [reflexivity|]. vm_compute. discriminate.
Defined.

(** X21.  The offset of the reference time never matters to
    [order_cancel]: two reference times with the same clock reading get
    the same answer, whatever zones they are written in. *)
Theorem order_cancel_ignores_offset
        (CURRENT_TIME : option str) (hours_text : Z -> str)
        (self : CommerceTools) (order_id email : str)
        (now1 now2 : str) (d1 d2 : stamp) :
  read_stamp now1 = Ok d1 ->
  read_stamp now2 = Ok d2 ->
  wall d1 = wall d2 ->
  order_cancel CURRENT_TIME hours_text self order_id email (Some now1) =
  order_cancel CURRENT_TIME hours_text self order_id email (Some now2).
Proof.
  intros H1 H2 Hw.
  assert (P1 : parse_utc now1 = Ok (wall d1)) by (apply parse_utc_read; eauto).
  assert (P2 : parse_utc now2 = Ok (wall d1))
    by (apply parse_utc_read; exists d2; auto).
  unfold order_cancel.
  destruct (order_lookup self order_id email) as [order|]; [|reflexivity].
  destruct (parse_utc (o_created_at order)) as [c|e]; cbn [bind];
    [|reflexivity].
  rewrite P1, P2. reflexivity.
Qed.

(** X21, at an input: 12:55 in UTC and 12:55 at +05:30, five and a half
    hours apart, for order A1003. *)
Lemma order_cancel_ignores_offset_witness :
  order_cancel None decimal1_hours commerce_tools_fallback
               (lit "A1003") (lit "mira@example.com")
               (Some (lit "2025-09-07T12:55:00Z")) =
  order_cancel None decimal1_hours commerce_tools_fallback
               (lit "A1003") (lit "mira@example.com")
               (Some (lit "2025-09-07T12:55:00+05:30")).
Proof.
  apply (order_cancel_ignores_offset None decimal1_hours
           commerce_tools_fallback (lit "A1003") (lit "mira@example.com")
           (lit "2025-09-07T12:55:00Z") (lit "2025-09-07T12:55:00+05:30")
           {| wall := {| year := 2025; month := 9; day := 7;
                         hour := 12; minute := 55; second := 0;
                         microsecond := 0 |};
              utcoffset := Some 0 |}
           {| wall := {| year := 2025; month := 9; day := 7;
                         hour := 12; minute := 55; second := 0;
                         microsecond := 0 |};
              utcoffset := Some 19800000000 |}).
  - vm_compute. reflexivity.
  - vm_compute. reflexivity.
  - reflexivity.
Defined.
